(** * A shallow embedding of [server.js]

    The Express application of [src/server.js] is a collection of route
    handlers.  Every handler reads a request, runs one or two SQL
    statements through the shared pool [db], sometimes touches the
    upload directory through [fs] or through the [multer] middleware,
    and answers with JSON.

    The embedding threads an explicit [world] (database tables, file
    system, console) through a small state monad.  A handler of the
    source becomes one definition below, with the same name as its
    route, and the callbacks of the source become the continuation of a
    bind. *)

From Stdlib Require Import ZArith Lia Ascii String.
From stdpp Require Import gmap strings list fin_maps pretty sorting.

Local Open Scope string_scope.
Local Open Scope Z_scope.
Local Open Scope list_scope.

(** ** JavaScript values of request fields *)

(** A field of [req.body] or [req.query] is either absent ([undefined])
    or a string: this is what url-encoded and multipart parsers produce,
    and what a JSON client sending strings produces. *)
Definition truthy (v : option string) : bool :=
  match v with
  | Some s => bool_decide (s ≠ "")
  | None => false
  end.

(** ** JSON bodies of responses *)

#[warnings="-register-all"] Inductive json : Type :=
  | JNull
  | JNum (n : Z)
  | JStr (s : string)
  | JArr (items : list json)
  | JObj (members : list (string * json)).

(** [JSON.stringify] drops the members whose value is [undefined]. *)
Definition member (k : string) (v : option string) : list (string * json) :=
  match v with
  | Some s => [(k, JStr s)]
  | None => []
  end.

(** What a request ends in: a response with a status and a JSON body, or
    an exception that escapes an asynchronous callback, in which case no
    response is sent at all. *)
Inductive outcome : Type :=
  | Response (status : Z) (body : json)
  | Uncaught (error : string).

(** ** SQL values, rows and tables *)

Inductive sqlval : Type :=
  | SqlNull
  | SqlInt (n : Z)
  | SqlStr (s : string).

Global Instance sqlval_eq_dec : EqDecision sqlval.
Proof. solve_decision. Defined.

(** The driver escapes [undefined] as [NULL]. *)
Definition to_sql (v : option string) : sqlval :=
  match v with
  | Some s => SqlStr s
  | None => SqlNull
  end.

Definition json_of_sql (v : sqlval) : json :=
  match v with
  | SqlNull => JNull
  | SqlInt n => JNum n
  | SqlStr s => JStr s
  end.

(** A row is the object the driver hands to the callback: column name to
    value.  The schema is not part of the repository; a column that a
    statement does not mention is left out of the row. *)
Abbreviation row := (gmap string sqlval).

Definition json_of_row (r : row) : json :=
  JObj (prod_map id json_of_sql <$> map_to_list r).

(** A table keeps its rows in storage order, which is the order of a
    [SELECT] without [ORDER BY], and the next [AUTO_INCREMENT] value. *)
Record table : Type := Table {
  rows : list row;
  auto_increment : Z
}.

Definition empty_table : table := Table [] 1.

(** ** Paths ([path] module, POSIX flavour) *)

Definition slash : ascii := "/"%char.
Definition dot : ascii := "."%char.

Fixpoint split_path (s : string) : list string :=
  match s with
  | EmptyString => [""]
  | String a s' =>
      if Ascii.eqb a slash then "" :: split_path s'
      else match split_path s' with
           | seg :: rest => String a seg :: rest
           | [] => [String a ""]
           end
  end.

Definition is_absolute (p : string) : bool :=
  match p with
  | String a _ => Ascii.eqb a slash
  | EmptyString => false
  end.

Definition has_trailing_slash (p : string) : bool :=
  match String.rev p with
  | String a _ => Ascii.eqb a slash
  | EmptyString => false
  end.

(** [normalizeString]: drops empty and ["."] segments and resolves
    [".."]; [stack] is the result so far, last segment first. *)
Fixpoint normalize_segments (allow_above_root : bool)
    (stack : list string) (segs : list string) : list string :=
  match segs with
  | [] => reverse stack
  | seg :: segs' =>
      if bool_decide (seg = "") || bool_decide (seg = ".") then
        normalize_segments allow_above_root stack segs'
      else if bool_decide (seg = "..") then
        match stack with
        | top :: stack' =>
            if bool_decide (top = "..") then
              normalize_segments allow_above_root (seg :: stack) segs'
            else normalize_segments allow_above_root stack' segs'
        | [] =>
            if allow_above_root then
              normalize_segments allow_above_root [seg] segs'
            else normalize_segments allow_above_root [] segs'
        end
      else normalize_segments allow_above_root (seg :: stack) segs'
  end.

Definition path_normalize (p : string) : string :=
  if bool_decide (p = "") then "."
  else
    let abs := is_absolute p in
    let trailing := has_trailing_slash p in
    let p' := String.concat "/" (normalize_segments (negb abs) [] (split_path p)) in
    if bool_decide (p' = "") then
      if abs then "/" else if trailing then "./" else "."
    else
      let p'' := if trailing then p' +:+ "/" else p' in
      if abs then "/" +:+ p'' else p''.

(** [path.join(...args)] *)
Definition path_join (args : list string) : string :=
  let joined := String.concat "/" (filter (λ a, a ≠ "") args) in
  if bool_decide (joined = "") then "." else path_normalize joined.

(** The file a path names, from the working directory of the process:
    the absolute path without ["."], [".."] and repeated slashes. *)
Definition path_resolve (cwd p : string) : string :=
  let full := if is_absolute p then p else cwd +:+ "/" +:+ p in
  "/" +:+ String.concat "/" (normalize_segments false [] (split_path full)).

(** [path.extname]: from the last dot of the last segment to its end;
    empty when there is no dot, when the dot opens the segment, and for
    the segment [".."]. *)
Fixpoint last_dot_suffix (s : string) : option string :=
  match s with
  | EmptyString => None
  | String a s' =>
      match last_dot_suffix s' with
      | Some ext => Some ext
      | None => if Ascii.eqb a dot then Some s else None
      end
  end.

Definition path_extname (p : string) : string :=
  match reverse (filter (λ seg, seg ≠ "") (split_path p)) with
  | [] => ""
  | base :: _ =>
      match last_dot_suffix base with
      | None => ""
      | Some ext =>
          if bool_decide (ext = base) || bool_decide (base = "..") then ""
          else ext
      end
  end.

(** [path.basename]: the last segment, trailing slashes apart; empty
    when the path has no segment. *)
Definition path_basename (p : string) : string :=
  default "" (last (filter (λ seg, seg ≠ "") (split_path p))).

(** ** Numbers, [parseInt] and the [||] default *)

(** The numbers of the handlers are doubles whose value is an integer,
    an infinity or [NaN]; [Finite n] holds the exact value, and zero
    stands for both zeros. *)
Inductive number : Type :=
  | NaN
  | Infinite (negative : bool)
  | Finite (n : Z).

Global Instance number_eq_dec : EqDecision number.
Proof. solve_decision. Defined.

(** The double nearest to an integer: the 53 leading bits are kept, the
    rest is rounded to nearest, ties to the even significand, and a
    result of 2^1024 or more is an infinity. *)
Definition round_double (n : Z) : number :=
  let a := Z.abs n in
  if a <? 2 ^ 53 then Finite n
  else
    let e := Z.log2 a - 52 in
    let q := a / 2 ^ e in
    let r := a mod 2 ^ e in
    let half := 2 ^ (e - 1) in
    let q' := if r <? half then q
              else if half <? r then q + 1
              else if Z.even q then q else q + 1 in
    let m := q' * 2 ^ e in
    if 2 ^ 1024 <=? m then Infinite (n <? 0) else Finite (Z.sgn n * m).

(** [x - 1] and [x * y] *)
Definition minus_one (x : number) : number :=
  match x with
  | Finite n => round_double (n - 1)
  | _ => x
  end.

Definition times (x y : number) : number :=
  match x, y with
  | NaN, _ | _, NaN => NaN
  | Finite a, Finite b => round_double (a * b)
  | Infinite s, Finite b | Finite b, Infinite s =>
      if b =? 0 then NaN else Infinite (xorb s (b <? 0))
  | Infinite s, Infinite t => Infinite (xorb s t)
  end.

(** [JSON.stringify] writes [null] for a number that is not finite. *)
Definition json_of_number (x : number) : json :=
  match x with
  | Finite n => JNum n
  | _ => JNull
  end.

(** Strings are sequences of bytes, the UTF-8 encoding of the text.
    White space and line terminators of the language: TAB, LF, VT, FF,
    CR, SP, and U+00A0, U+1680, U+2000 to U+200A, U+2028, U+2029,
    U+202F, U+205F, U+3000 and U+FEFF in two or three bytes. *)
Definition byte (c : ascii) : Z := Z.of_N (N_of_ascii c).

Definition white_space_1 (a : ascii) : bool :=
  ((9 <=? byte a) && (byte a <=? 13)) || (byte a =? 32).

Definition white_space_2 (a b : ascii) : bool :=
  (byte a =? 194) && (byte b =? 160).

Definition white_space_3 (a b c : ascii) : bool :=
  ((byte a =? 225) && (byte b =? 154) && (byte c =? 128))
  || ((byte a =? 226) && (byte b =? 128)
      && (((128 <=? byte c) && (byte c <=? 138))
          || (byte c =? 168) || (byte c =? 169) || (byte c =? 175)))
  || ((byte a =? 226) && (byte b =? 129) && (byte c =? 159))
  || ((byte a =? 227) && (byte b =? 128) && (byte c =? 128))
  || ((byte a =? 239) && (byte b =? 187) && (byte c =? 191)).

Fixpoint trim_start (s : string) : string :=
  match s with
  | String a s1 =>
      if white_space_1 a then trim_start s1
      else
        match s1 with
        | String b s2 =>
            if white_space_2 a b then trim_start s2
            else
              match s2 with
              | String c s3 => if white_space_3 a b c then trim_start s3 else s
              | EmptyString => s
              end
        | EmptyString => s
        end
  | EmptyString => s
  end.

Definition digit_value (radix : Z) (c : ascii) : option Z :=
  let n := byte c in
  let v := if (48 <=? n) && (n <=? 57) then Some (n - 48)
           else if (97 <=? n) && (n <=? 122) then Some (n - 87)
           else if (65 <=? n) && (n <=? 90) then Some (n - 55)
           else None in
  match v with
  | Some d => if d <? radix then Some d else None
  | None => None
  end.

(** The value of the longest prefix of digits; [None] when it is empty. *)
Fixpoint parse_digits (radix : Z) (acc : option Z) (s : string) : option Z :=
  match s with
  | String c s' =>
      match digit_value radix c with
      | Some d => parse_digits radix (Some (radix * default 0 acc + d)) s'
      | None => acc
      end
  | EmptyString => acc
  end.

Definition strip_sign (s : string) : Z * string :=
  match s with
  | String "-" s' => (-1, s')
  | String "+" s' => (1, s')
  | _ => (1, s)
  end.

Definition strip_hex_prefix (s : string) : Z * string :=
  match s with
  | String "0" (String "x" s') | String "0" (String "X" s') => (16, s')
  | _ => (10, s)
  end.

(** [parseInt(v)] with no radix: leading white space, a sign, [0x] for
    radix 16, then the longest prefix of digits, whose value is read as
    a double; [NaN] when there is no digit.  An absent value is first
    turned into the string ["undefined"]. *)
Definition parseInt (v : option string) : number :=
  let s := trim_start (default "undefined" v) in
  let '(sign, s) := strip_sign s in
  let '(radix, s) := strip_hex_prefix s in
  match parse_digits radix None s with
  | Some n => round_double (sign * n)
  | None => NaN
  end.

(** [x || d] on numbers: [NaN] and zero are falsy. *)
Definition or_default (x : number) (d : Z) : number :=
  match x with
  | NaN | Finite 0 => Finite d
  | _ => x
  end.

(** The text of a number that is at least 2^53 and below 10^21, read
    back as an integer: the decimal with the fewest significant digits,
    zeros after them, that reads as the same double, and the closest to
    it where several do; [j] counts the zeros, from the most down. *)
Definition reads_as (n c : Z) : bool := bool_decide (round_double c = Finite n).

Fixpoint shortest_decimal (j : nat) (n : Z) : Z :=
  let p := 10 ^ Z.of_nat j in
  let lo := n / p * p in
  let hi := lo + p in
  let found :=
    match reads_as n lo, reads_as n hi with
    | true, true =>
        Some (if n - lo <? hi - n then lo
              else if hi - n <? n - lo then hi
              else if Z.even (n / p) then lo else hi)
    | true, false => Some lo
    | false, true => Some hi
    | false, false => None
    end in
  match found, j with
  | Some c, _ => c
  | None, S j' => shortest_decimal j' n
  | None, O => n
  end.

(** A number as the count of [LIMIT] or [OFFSET].  The driver writes
    [String(x)] into the statement, and the server takes an unsigned
    integer literal of at most 64 bits there: a sign, an exponent and a
    longer literal are syntax errors, and [Infinity] and [NaN] are read
    as names of variables that are not declared.  The message of the
    error is represented by its code. *)
Definition count_literal (x : number) : string + Z :=
  match x with
  | NaN | Infinite false => inl "ER_SP_UNDECLARED_VAR"
  | Infinite true => inl "ER_PARSE_ERROR"
  | Finite n =>
      if n <? 0 then inl "ER_PARSE_ERROR"
      else if n <? 2 ^ 53 then inr n
      else if 10 ^ 21 <=? n then inl "ER_PARSE_ERROR"
      else
        let c := shortest_decimal 21 n in
        if c <? 2 ^ 64 then inr c else inl "ER_PARSE_ERROR"
  end.

(** ** The world a request runs in *)

(** An entry of the file system.  [fs.unlink] removes a file and fails
    on a directory. *)
Inductive node : Type :=
  | File (data : string)
  | Dir.

Global Instance node_eq_dec : EqDecision node.
Proof. solve_decision. Defined.

(** [faults] scripts the failures of the connection pool: each
    [db.query] consumes the head; [Some msg] makes that statement fail
    with [err.message = msg], [None] and the empty script let it run.
    [console] collects what [console.error] prints. *)
Record world : Type := World {
  db : gmap string table;
  fs : gmap string node;
  faults : list (option string);
  console : list string
}.

Definition set_db (d : gmap string table) (w : world) : world :=
  World d (fs w) (faults w) (console w).
Definition set_fs (f : gmap string node) (w : world) : world :=
  World (db w) f (faults w) (console w).
Definition set_faults (l : list (option string)) (w : world) : world :=
  World (db w) (fs w) l (console w).

(** Handlers are state transformers over the world. *)
Definition M (A : Type) : Type := world → A * world.

Definition ret {A} (a : A) : M A := λ w, (a, w).
Definition bind {A B} (m : M A) (k : A → M B) : M B :=
  λ w, let '(a, w') := m w in k a w'.

Notation "'let*' x ':=' m 'in' k" := (bind m (λ x, k))
  (at level 10, x name, m at level 100, k at level 200).

Definition console_error (msg : string) : M unit :=
  λ w, (tt, World (db w) (fs w) (faults w) (console w ++ [msg])).

(** ** The database *)

Definition table_of (d : gmap string table) (t : string) : table :=
  default empty_table (d !! t).

(** A statement either fails with a message or returns a result and the
    new tables. *)
Definition statement (A : Type) : Type :=
  gmap string table → string + A * gmap string table.

(** [db.query(sql, params, callback)]: the callback receives [err]
    ([inl]) or the result ([inr]). *)
Definition db_query {A} (stmt : statement A) : M (string + A) := λ w,
  let run (w : world) :=
    match stmt (db w) with
    | inl msg => (inl msg, w)
    | inr (a, d) => (inr a, set_db d w)
    end in
  match faults w with
  | Some msg :: rest => (inl msg, set_faults rest w)
  | None :: rest => run (set_faults rest w)
  | [] => run w
  end.

(** [WHERE id = ?]: [id] is the integer the server reads in the [:id]
    segment of the path when it compares it with the column. *)
Definition has_id (id : Z) (r : row) : Prop := r !! "id" = Some (SqlInt id).

Global Instance has_id_dec id r : Decision (has_id id r).
Proof. unfold has_id. apply _. Defined.

(** [WHERE 1=1] and statements without [WHERE] *)
Definition any_row (r : row) : Prop := True.

Global Instance any_row_dec r : Decision (any_row r).
Proof. unfold any_row. apply _. Defined.

(** [SELECT ... FROM t WHERE p] *)
Definition select_from (t : string) (p : row → Prop) `{!∀ r, Decision (p r)}
    : statement (list row) :=
  λ d, inr (filter p (rows (table_of d t)), d).

(** [INSERT INTO t (cols) VALUES (?, ...)]: the row takes the next
    [AUTO_INCREMENT] id, which is the [insertId] of the result. *)
Definition insert_into (t : string) (cols : list (string * sqlval))
    : statement Z :=
  λ d, let tb := table_of d t in
       let id := auto_increment tb in
       let r : row := <["id" := SqlInt id]> (list_to_map cols) in
       inr (id, <[t := Table (rows tb ++ [r]) (id + 1)]> d).

(** [DELETE FROM t WHERE p] *)
Definition delete_from (t : string) (p : row → Prop) `{!∀ r, Decision (p r)}
    : statement unit :=
  λ d, let tb := table_of d t in
       inr (tt, <[t := Table (filter (λ r, ¬ p r) (rows tb)) (auto_increment tb)]> d).

(** [SET c1=?, c2=?, ...] on one row *)
Definition set_columns (cols : list (string * sqlval)) (r : row) : row :=
  foldl (λ acc kv, <[kv.1 := kv.2]> acc) r cols.

(** [UPDATE t SET cols WHERE p] *)
Definition update_set (t : string) (cols : list (string * sqlval))
    (p : row → Prop) `{!∀ r, Decision (p r)} : statement unit :=
  λ d, let tb := table_of d t in
       inr (tt, <[t := Table ((λ r, if decide (p r) then set_columns cols r else r)
                                <$> rows tb) (auto_increment tb)]> d).

(** [SELECT ... FROM t WHERE p LIMIT ? OFFSET ?]: the count comes first
    in the statement, and the first literal the server rejects decides
    the error. *)
Definition select_limit_offset (t : string) (p : row → Prop)
    `{!∀ r, Decision (p r)} (limit offset : number) : statement (list row) :=
  λ d, match count_literal limit, count_literal offset with
       | inl err, _ | inr _, inl err => inl err
       | inr l, inr o =>
           inr (take (Z.to_nat l)
                  (drop (Z.to_nat o) (filter p (rows (table_of d t)))), d)
       end.

(** [INSERT INTO t (id, cols) VALUES (1, ...) ON DUPLICATE KEY UPDATE
    c = VALUES(c), ...]: the row with id 1 is overwritten when there is
    one, and inserted otherwise. *)
Definition insert_or_update_id1 (t : string) (cols : list (string * sqlval))
    : statement unit :=
  λ d, let tb := table_of d t in
       if decide (Exists (has_id 1) (rows tb)) then
         inr (tt, <[t := Table ((λ r, if decide (has_id 1 r)
                                      then set_columns cols r else r) <$> rows tb)
                           (auto_increment tb)]> d)
       else
         let r : row := <["id" := SqlInt 1]> (list_to_map cols) in
         inr (tt, <[t := Table (rows tb ++ [r]) (Z.max (auto_increment tb) 2)]> d).

(** The value of a column as JavaScript sees it in a condition and in a
    string concatenation. *)
Definition sql_truthy (v : option sqlval) : bool :=
  match v with
  | Some (SqlStr s) => bool_decide (s ≠ "")
  | Some (SqlInt n) => bool_decide (n ≠ 0)
  | _ => false
  end.

Definition sql_to_string (v : option sqlval) : string :=
  match v with
  | Some (SqlStr s) => s
  | Some (SqlInt n) => pretty n
  | Some SqlNull => "null"
  | None => "undefined"
  end.

(** ** The file system *)

Section Process.

(** The working directory of the process, against which relative paths
    are resolved. *)
Variable cwd : string.

(** [__dirname], the directory of [server.js]. *)
Variable dirname : string.

(** [process.env.PORT] *)
Variable env_PORT : option string.

(** The [LIKE] operator of the server, under the collation of the
    column: pattern first, value second. *)
Variable sql_like : string → string → bool.

(** [bcrypt.hash(password, rounds)] with the salt it draws, and
    [bcrypt.compare(password, hash)]. *)
Variable bcrypt_hash : string → string → string.
Variable bcrypt_compare : string → string → bool.

(** [fs.unlink(path, callback)]: the callback receives the error code,
    if any. *)
Definition fs_unlink (p : string) : M (option string) := λ w,
  let k := path_resolve cwd p in
  match fs w !! k with
  | None => (Some "ENOENT", w)
  | Some Dir => (Some "EISDIR", w)
  | Some (File _) => (None, set_fs (delete k (fs w)) w)
  end.

(** ** The upload middleware *)

Record upload : Type := Upload {
  originalname : string;
  data : string
}.

(** A request: the parsed body and query string, the file part sent
    under the field name the route expects, and the value [Date.now()]
    has while the request is processed. *)
Record request : Type := Request {
  body : gmap string string;
  query : gmap string string;
  file : option upload;
  now : Z
}.

(** Lines 23 to 26, which run once when the server starts:
    [uploadDir] is [path.join(__dirname, "uploads")], and it is created
    when nothing has that name. *)
Definition uploadDir : string := path_join [dirname; "uploads"].

Definition ensure_upload_dir : M unit := λ w,
  let k := path_resolve cwd uploadDir in
  match fs w !! k with
  | None => (tt, set_fs (<[k := Dir]> (fs w)) w)
  | Some _ => (tt, w)
  end.

(** The disk storage engine: [destination] is ["uploads/"], a path
    relative to the working directory, and [filename] is
    [Date.now() + path.extname(file.originalname)].  The engine creates
    no directory when [destination] is a function: the write fails
    where the directory is missing or is a file, and where a directory
    has the name of the file; otherwise it creates the file or replaces
    it. *)
Definition multer_filename (req : request) (f : upload) : string :=
  pretty (now req) +:+ path_extname (originalname f).

Definition upload_dir : string := path_resolve cwd "uploads/".

Definition multer_store (filename content : string) : M (option string) := λ w,
  let k := path_resolve cwd (path_join ["uploads/"; filename]) in
  match fs w !! upload_dir with
  | Some Dir =>
      match fs w !! k with
      | Some Dir => (Some "EISDIR", w)
      | _ => (None, set_fs (<[k := File content]> (fs w)) w)
      end
  | Some (File _) => (Some "ENOTDIR", w)
  | None => (Some "ENOENT", w)
  end.

(** [upload.single(field)] in front of a handler: the file, if any, is
    stored before the handler runs, and the handler sees
    [req.file.filename].  A storage error goes to the default error
    handler of Express, which answers 500 with a page that names the
    error; the handler does not run. *)
Definition upload_single (req : request) (handler : option string → M outcome)
    : M outcome :=
  match file req with
  | None => handler None
  | Some f =>
      let filename := multer_filename req f in
      let* err := multer_store filename (data f) in
      match err with
      | Some code => ret (Response 500 (JStr code))
      | None => handler (Some filename)
      end
  end.

Definition error (msg : string) : json := JObj [("error", JStr msg)].
Definition message (msg : string) : json := JObj [("message", JStr msg)].

(** [`/uploads/${req.file.filename}`] *)
Definition uploads_url (filename : string) : string := "/uploads/" +:+ filename.

(** ** Banners: [POST /api/banner], [DELETE /api/banner/:id] *)

Definition post_api_banner (req : request) : M outcome :=
  upload_single req (λ req_file,
    let text := body req !! "text" in
    let imageUrl := uploads_url <$> req_file in
    if negb (truthy text) || negb (truthy imageUrl) then
      ret (Response 400 (error "Text and image are required."))
    else
      let* r := db_query (insert_into "banners"
                  [("text", to_sql text); ("image_url", to_sql imageUrl)]) in
      match r with
      | inl err => ret (Response 500 (error err))
      | inr insertId =>
          ret (Response 200 (JObj [
            ("message", JStr "Banner saved successfully!");
            ("banner", JObj ([("id", JNum insertId)] ++ member "text" text
                               ++ member "imageUrl" imageUrl))]))
      end).

(** [path.join(__dirname, "public", results[0].image_url)]: [path.join]
    throws on an argument that is not a string, and the exception leaves
    the callback of the query. *)
Definition delete_api_banner_id (id : Z) : M outcome :=
  let* r := db_query (select_from "banners" (has_id id)) in
  match r with
  | inl err => ret (Response 500 (error err))
  | inr results =>
      match results with
      | [] => ret (Response 404 (error "Banner not found"))
      | r0 :: _ =>
          match r0 !! "image_url" with
          | Some (SqlStr image_url) =>
              let imagePath := path_join [dirname; "public"; image_url] in
              let* r := db_query (delete_from "banners" (has_id id)) in
              match r with
              | inl err => ret (Response 500 (error err))
              | inr _ =>
                  let* unlinkErr := fs_unlink imagePath in
                  let* _ := match unlinkErr with
                            | Some code => console_error ("Error deleting image file: " +:+ code)
                            | None => ret tt
                            end in
                  ret (Response 200 (message "Banner deleted successfully!"))
              end
          | _ => ret (Uncaught "TypeError")
          end
      end
  end.

(** ** Courses: [POST /courses], [DELETE /courses/:id] *)

Definition post_courses (req : request) : M outcome :=
  let name := body req !! "name" in
  let description := body req !! "description" in
  let* r := db_query (insert_into "courses"
              [("name", to_sql name); ("description", to_sql description)]) in
  match r with
  | inl err => ret (Response 500 (JStr err))
  | inr insertId =>
      ret (Response 201 (JObj ([("id", JNum insertId)] ++ member "name" name
                                 ++ member "description" description)))
  end.

Definition delete_courses_id (id : Z) : M outcome :=
  let* r := db_query (delete_from "courses" (has_id id)) in
  match r with
  | inl err => ret (Response 500 (JStr err))
  | inr _ => ret (Response 200 (message "Course deleted"))
  end.

(** ** Testimonials: [DELETE /testimonials/:id] *)

Definition delete_testimonials_id (id : Z) : M outcome :=
  let* r := db_query (delete_from "testimonials" (has_id id)) in
  match r with
  | inl err => ret (Response 500 (error err))
  | inr _ => ret (Response 200 (message "Testimonial deleted successfully"))
  end.

(** ** Student stories: [DELETE /students/:id] *)

(** [fs.unlinkSync] throws where [fs.unlink] passes an error; the
    exception leaves the callback of the query. *)
Definition delete_students_id (id : Z) : M outcome :=
  let* r := db_query (select_from "students" (has_id id)) in
  match r with
  | inl _ | inr [] => ret (Response 404 (error "Student not found"))
  | inr (r0 :: _) =>
      let photoPath := r0 !! "photo" in
      let* thrown :=
        (if sql_truthy photoPath
         then fs_unlink ("." +:+ sql_to_string photoPath)
         else ret None) in
      match thrown with
      | Some code => ret (Uncaught code)
      | None =>
          let* r := db_query (delete_from "students" (has_id id)) in
          match r with
          | inl _ => ret (Response 500 (error "Error deleting student"))
          | inr _ => ret (Response 200 (message "✅ Student deleted successfully"))
          end
      end
  end.

(** ** The current banner: [POST /api/banner/upload],
       [DELETE /api/banner/delete] *)

Definition post_api_banner_upload (req : request) : M outcome :=
  upload_single req (λ req_file,
    match req_file with
    | None => ret (Response 400 (error "No file uploaded"))
    | Some filename =>
        let imagePath := "uploads/" +:+ filename in
        let* r := db_query (delete_from "banner" any_row) in
        match r with
        | inl _ => ret (Response 500 (error "Failed to clear old banner"))
        | inr _ =>
            let* r := db_query (insert_into "banner" [("image_path", SqlStr imagePath)]) in
            match r with
            | inl _ => ret (Response 500 (error "Failed to save image"))
            | inr _ =>
                ret (Response 200 (JObj [
                  ("message", JStr "Banner uploaded successfully");
                  ("imagePath", JStr ("http://localhost:5000/" +:+ imagePath))]))
            end
        end
    end).

(** The handler registered for [DELETE /api/banner/delete].  Express
    tries the routes in the order of registration, and
    [DELETE /api/banner/:id] is registered before this one with a
    pattern that matches the segment [delete] too.
    [fs.unlink] throws on a path that is not a string. *)
Definition delete_api_banner_delete : M outcome :=
  let* r := db_query (λ d, inr (take 1 (rows (table_of d "banner")), d)) in
  match r with
  | inl _ => ret (Response 500 (error "Database error"))
  | inr [] => ret (Response 404 (error "No banner found"))
  | inr (r0 :: _) =>
      let imagePath := r0 !! "image_path" in
      let* r := db_query (delete_from "banner" any_row) in
      match r with
      | inl _ => ret (Response 500 (error "Failed to delete banner"))
      | inr _ =>
          match imagePath with
          | Some (SqlStr p) =>
              let* err := fs_unlink p in
              match err with
              | Some code =>
                  if bool_decide (code ≠ "ENOENT")
                  then ret (Response 500 (error "Failed to delete image file"))
                  else ret (Response 200 (message "Banner deleted successfully"))
              | None => ret (Response 200 (message "Banner deleted successfully"))
              end
          | _ => ret (Uncaught "TypeError")
          end
      end
  end.

(** ** Explore courses: [GET /explorecourse] *)

(** [name LIKE ?] *)
Definition name_like (pattern : string) (r : row) : Prop :=
  match r !! "name" with
  | Some (SqlStr name) => sql_like pattern name = true
  | _ => False
  end.

Global Instance name_like_dec pattern r : Decision (name_like pattern r).
Proof. unfold name_like. repeat case_match; apply _. Defined.

Definition get_explorecourse (req : request) : M outcome :=
  let page := or_default (parseInt (query req !! "page")) 1 in
  let limit := or_default (parseInt (query req !! "limit")) 10 in
  let search := query req !! "search" in
  let offset := times (minus_one page) limit in
  let* r :=
    (if truthy search
     then db_query (select_limit_offset "explorecourses"
                      (name_like ("%" +:+ default "" search +:+ "%")) limit offset)
     else db_query (select_limit_offset "explorecourses" any_row limit offset)) in
  match r with
  | inl err => ret (Response 500 (error err))
  | inr results =>
      ret (Response 200 (JObj [
        ("page", json_of_number page);
        ("limit", json_of_number limit);
        ("totalCourses", JNum (Z.of_nat (length results)));
        ("courses", JArr (json_of_row <$> results))]))
  end.

(** [POST /explorecourse] *)
Definition post_explorecourse (req : request) : M outcome :=
  upload_single req (λ req_file,
    let name := body req !! "name" in
    let description := body req !! "description" in
    let image := uploads_url <$> req_file in
    if negb (truthy name) || negb (truthy description) || negb (truthy image) then
      ret (Response 400 (error "All fields are required"))
    else
      let* r := db_query (insert_into "explorecourses"
                  [("name", to_sql name); ("description", to_sql description);
                   ("image", to_sql image)]) in
      match r with
      | inl err => ret (Response 500 (error err))
      | inr insertId =>
          ret (Response 201 (JObj ([("id", JNum insertId)] ++ member "name" name
                                     ++ member "description" description
                                     ++ member "image" image)))
      end).

(** [DELETE /explorecourse/:id] *)
Definition delete_explorecourse_id (id : Z) : M outcome :=
  let* r := db_query (select_from "explorecourses" (has_id id)) in
  match r with
  | inl err => ret (Response 500 (error err))
  | inr [] => ret (Response 404 (error "Course not found"))
  | inr (_ :: _) =>
      let* r := db_query (delete_from "explorecourses" (has_id id)) in
      match r with
      | inl err => ret (Response 500 (error err))
      | inr _ => ret (Response 200 (message "Course deleted successfully"))
      end
  end.

(** ** Prices: [GET /api/price], [POST /api/price] *)

Definition row_id (r : row) : Z :=
  match r !! "id" with
  | Some (SqlInt n) => n
  | _ => 0
  end.

(** The row [ORDER BY id DESC LIMIT 1] picks: the one with the greatest
    id, if there is a row. *)
Definition latest (rs : list row) : option row :=
  foldl (λ best r,
           match best with
           | Some b => if row_id b <? row_id r then Some r else best
           | None => Some r
           end) None rs.

(** [SELECT * FROM t ORDER BY id DESC LIMIT 1] *)
Definition select_latest (t : string) : statement (list row) :=
  λ d, inr (option_list (latest (rows (table_of d t))), d).

Definition get_api_price : M outcome :=
  let* r := db_query (select_latest "prices") in
  match r with
  | inl _ => ret (Response 500 (error "Failed to fetch price data"))
  | inr [] => ret (Response 200 (message "No price data found"))
  | inr (r0 :: _) => ret (Response 200 (json_of_row r0))
  end.

Definition post_api_price (req : request) : M outcome :=
  let originalPrice := body req !! "originalPrice" in
  let discount := body req !! "discount" in
  let duration := body req !! "duration" in
  let finalPrice := body req !! "finalPrice" in
  let emiOption := body req !! "emiOption" in
  if negb (truthy originalPrice) || negb (truthy discount) || negb (truthy duration)
     || negb (truthy finalPrice) || negb (truthy emiOption) then
    ret (Response 400 (error "All fields are required"))
  else
    let* r := db_query (insert_into "prices"
                [("original_price", to_sql originalPrice); ("discount", to_sql discount);
                 ("duration", to_sql duration); ("final_price", to_sql finalPrice);
                 ("emi_option", to_sql emiOption)]) in
    match r with
    | inl _ => ret (Response 500 (error "Failed to save price data"))
    | inr _ => ret (Response 200 (message "Price details updated successfully!"))
    end.

(** ** NEET details: [POST /api/neet-details] *)

Definition post_api_neet_details (req : request) : M outcome :=
  let address := body req !! "address" in
  let timing := body req !! "timing" in
  let contact := body req !! "contact" in
  let courseDetails := body req !! "courseDetails" in
  let price := body req !! "price" in
  if negb (truthy address) || negb (truthy timing) || negb (truthy contact)
     || negb (truthy courseDetails) || negb (truthy price) then
    ret (Response 400 (error "All fields are required!"))
  else
    let* r := db_query (insert_or_update_id1 "neet_details"
                [("address", to_sql address); ("timing", to_sql timing);
                 ("contact", to_sql contact); ("courseDetails", to_sql courseDetails);
                 ("price", to_sql price)]) in
    match r with
    | inl _ => ret (Response 500 (error "Failed to update details"))
    | inr _ => ret (Response 200 (message "✅ NEET details updated successfully!"))
    end.

(** ** Olympiad students: [PUT /api/students/:id] *)

Definition put_api_students_id (id : Z) (req : request) : M outcome :=
  upload_single req (λ req_file,
    let name := body req !! "name" in
    let rank := body req !! "rank" in
    let imageUrl := match req_file with
                    | Some filename => Some (uploads_url filename)
                    | None => body req !! "image"
                    end in
    let* r := db_query (update_set "olympiad_students"
                [("name", to_sql name); ("rank", to_sql rank); ("image", to_sql imageUrl)]
                (has_id id)) in
    match r with
    | inl _ => ret (Response 500 (error "Update failed"))
    | inr _ => ret (Response 200 (message "Student updated successfully"))
    end).

(** ** Olympiad courses: [PUT /olympiad/update-course/:id] *)

Definition olympiad_course_columns : list string :=
  ["name"; "language"; "grade"; "start_date"; "end_date"; "description";
   "price"; "weeks"; "classes"; "tests"].

Definition put_olympiad_update_course_id (id : Z) (req : request) : M outcome :=
  upload_single req (λ req_file,
    let image := uploads_url <$> req_file in
    let params : list (string * sqlval) :=
      (λ c, (c, to_sql (body req !! c))) <$> olympiad_course_columns in
    let params := if truthy image then params ++ [("image", to_sql image)]
                  else params in
    let* r := db_query (update_set "uniquer_olympiad_courses" params (has_id id)) in
    match r with
    | inl _ => ret (Response 500 (error "Database error"))
    | inr _ => ret (Response 200 (message "Olympiad course updated successfully"))
    end).

(** ** Blog banners: [POST /api/blog/upload-banner] *)

(** [process.env.PORT || 5000] *)
Definition PORT : string := if truthy env_PORT then default "" env_PORT else "5000".

Definition post_api_blog_upload_banner (req : request) : M outcome :=
  upload_single req (λ req_file,
    match req_file with
    | None => ret (Response 400 (message "No file uploaded"))
    | Some filename =>
        let imageUrl := "http://localhost:" +:+ PORT +:+ "/uploads/" +:+ filename in
        let* r := db_query (insert_into "blog_banners" [("imageUrl", SqlStr imageUrl)]) in
        match r with
        | inl err =>
            ret (Response 500 (JObj [("message", JStr "Database error"); ("error", JStr err)]))
        | inr _ =>
            ret (Response 200 (JObj [("message", JStr "Banner uploaded successfully");
                                     ("imageUrl", JStr imageUrl)]))
        end
    end).

(** ** JEE banners: [POST /api/jeebanner] *)

(** The handler reads [req.file.filename] before it checks [req.file]:
    without a file the read throws inside the handler, and the default
    error handler of Express answers 500. *)
Definition post_api_jeebanner (req : request) : M outcome :=
  upload_single req (λ req_file,
    let text := body req !! "text" in
    match req_file with
    | None => ret (Response 500 (JStr "TypeError"))
    | Some filename =>
        let imageUrl := "/uploads/" +:+ filename in
        if negb (truthy text) then
          ret (Response 400 (error "Text and image are required"))
        else
          let* r := db_query (insert_into "jeebanner"
                      [("text", to_sql text); ("image_url", SqlStr imageUrl)]) in
          match r with
          | inl err => ret (Response 500 (error err))
          | inr insertId =>
              ret (Response 200 (JObj [
                ("message", JStr "JeeBanner added successfully!");
                ("banner", JObj ([("id", JNum insertId)] ++ member "text" text
                                   ++ [("imageUrl", JStr imageUrl)]))]))
          end
    end).

(** ** Users: [POST /register], [POST /login] *)

(** [WHERE email = ?], compared as the strings are. *)
Definition has_email (email : string) (r : row) : Prop :=
  r !! "email" = Some (SqlStr email).

Global Instance has_email_dec email r : Decision (has_email email r).
Proof. unfold has_email. apply _. Defined.

(** [salt] is the salt [bcrypt.hash(password, 10)] draws. *)
Definition post_register (salt : string) (req : request) : M outcome :=
  let fullName := body req !! "fullName" in
  let email := body req !! "email" in
  let password := body req !! "password" in
  if negb (truthy fullName) || negb (truthy email) || negb (truthy password) then
    ret (Response 400 (error "All fields are required"))
  else
    let* r := db_query (select_from "users" (has_email (default "" email))) in
    match r with
    | inl err => ret (Response 500 (error err))
    | inr (_ :: _) => ret (Response 400 (error "Email already in use"))
    | inr [] =>
        let hashedPassword := bcrypt_hash (default "" password) salt in
        let* r := db_query (insert_into "users"
                    [("fullName", to_sql fullName); ("email", to_sql email);
                     ("password", SqlStr hashedPassword)]) in
        match r with
        | inl err => ret (Response 500 (error err))
        | inr _ => ret (Response 201 (message "User registered successfully"))
        end
    end.

(** [bcrypt.compare] rejects when the stored value is not a string, and
    the rejection of the asynchronous callback is handled nowhere. *)
Definition post_login (req : request) : M outcome :=
  let email := body req !! "email" in
  let password := body req !! "password" in
  if negb (truthy email) || negb (truthy password) then
    ret (Response 400 (error "All fields are required"))
  else
    let* r := db_query (select_from "users" (has_email (default "" email))) in
    match r with
    | inl err => ret (Response 500 (error err))
    | inr [] => ret (Response 400 (error "Invalid email or password"))
    | inr (user :: _) =>
        match user !! "password" with
        | Some (SqlStr hash) =>
            let isMatch := bcrypt_compare (default "" password) hash in
            if negb isMatch then
              ret (Response 400 (error "Invalid email or password"))
            else
              ret (Response 200 (JObj [("message", JStr "Login successful");
                                       ("user", json_of_row user)]))
        | _ => ret (Uncaught "Error: data and hash arguments required")
        end
    end.

(** ** Further handlers *)

(** [SELECT * FROM t ORDER BY id DESC] *)
Definition id_desc (a b : row) : Prop := row_id b ≤ row_id a.

Global Instance id_desc_dec a b : Decision (id_desc a b).
Proof. unfold id_desc. apply _. Defined.

Definition order_by_id_desc (rs : list row) : list row :=
  merge_sort id_desc rs.

Definition select_order_by_id_desc (t : string) : statement (list row) :=
  λ d, inr (order_by_id_desc (rows (table_of d t)), d).

(** [SELECT c1, c2, ... FROM t]: a row of the result has the named
    columns only, NULL where the stored row has no value. *)
Definition project (cols : list string) (r : row) : row :=
  list_to_map ((λ c, (c, default SqlNull (r !! c))) <$> cols).

(** [INSERT INTO t (id, cols) VALUES (n, ...)] with an explicit id: the
    key must be new. *)
Definition insert_with_id (t : string) (id : Z) (cols : list (string * sqlval))
    : statement unit :=
  λ d, let tb := table_of d t in
       if decide (Exists (has_id id) (rows tb)) then inl "ER_DUP_ENTRY"
       else
         let r : row := <["id" := SqlInt id]> (list_to_map cols) in
         inr (tt, <[t := Table (rows tb ++ [r]) (Z.max (auto_increment tb) (id + 1))]> d).

(** [GET /api/banners] *)
Definition get_api_banners : M outcome :=
  let* r := db_query (select_order_by_id_desc "banners") in
  match r with
  | inl err =>
      let* _ := console_error ("❌ Database Error: " +:+ err) in
      ret (Response 500 (error "Failed to fetch banners"))
  | inr results => ret (Response 200 (JArr (json_of_row <$> results)))
  end.

(** [GET /courses], the handler registered first under that path:
    [color] becomes [`bg-[${course.color}]`] and [icon] becomes
    [course.icon || "📘"]. *)
Definition format_course (course : row) : row :=
  <["icon" := if sql_truthy (course !! "icon")
              then default SqlNull (course !! "icon") else SqlStr "📘"]>
    (<["color" := SqlStr ("bg-[" +:+ sql_to_string (course !! "color") +:+ "]")]> course).

Definition get_courses : M outcome :=
  let* r := db_query (select_from "courses" any_row) in
  match r with
  | inl err => ret (Response 500 (JStr err))
  | inr results => ret (Response 200 (JArr (json_of_row <$> (format_course <$> results))))
  end.

(** [PUT /courses/:id] *)
Definition put_courses_id (id : Z) (req : request) : M outcome :=
  let name := body req !! "name" in
  let description := body req !! "description" in
  let* r := db_query (update_set "courses"
              [("name", to_sql name); ("description", to_sql description)]
              (has_id id)) in
  match r with
  | inl err => ret (Response 500 (JStr err))
  | inr _ =>
      ret (Response 200 (JObj ([("id", JNum id)] ++ member "name" name
                                 ++ member "description" description)))
  end.

(** [POST /students] *)
Definition post_students (req : request) : M outcome :=
  upload_single req (λ req_file,
    let name := body req !! "name" in
    let achievement := body req !! "achievement" in
    let photoPath := uploads_url <$> req_file in
    if negb (truthy name) || negb (truthy achievement) || negb (truthy photoPath) then
      ret (Response 400 (error "All fields are required"))
    else
      let* r := db_query (insert_into "students"
                  [("name", to_sql name); ("achievement", to_sql achievement);
                   ("photo", to_sql photoPath)]) in
      match r with
      | inl _ => ret (Response 500 (error "Error inserting student data"))
      | inr insertId =>
          ret (Response 200 (JObj ([("id", JNum insertId)] ++ member "name" name
                                     ++ member "achievement" achievement
                                     ++ member "photo" photoPath)))
      end).

(** [GET /api/title]: an empty table is given the default row first. *)
Definition get_api_title : M outcome :=
  let* r := db_query (λ d, inr (take 1 (project ["title"; "subtitle"]
                                           <$> rows (table_of d "titles")), d)) in
  match r with
  | inl _ => ret (Response 500 (error "Failed to fetch title data"))
  | inr [] =>
      let* r := db_query (insert_with_id "titles" 1
                  [("title", SqlStr "Default Title");
                   ("subtitle", SqlStr "Default Subtitle")]) in
      match r with
      | inl _ => ret (Response 500 (error "Failed to insert default title data"))
      | inr _ =>
          ret (Response 200 (JObj [("title", JStr "Default Title");
                                   ("subtitle", JStr "Default Subtitle")]))
      end
  | inr (r0 :: _) => ret (Response 200 (json_of_row r0))
  end.

(** [POST /api/title] *)
Definition post_api_title (req : request) : M outcome :=
  let title := body req !! "title" in
  let subtitle := body req !! "subtitle" in
  if negb (truthy title) || negb (truthy subtitle) then
    ret (Response 400 (error "Title and subtitle are required."))
  else
    let* r := db_query (update_set "titles"
                [("title", to_sql title); ("subtitle", to_sql subtitle)]
                (has_id 1)) in
    match r with
    | inl _ => ret (Response 500 (error "Failed to update title data"))
    | inr _ => ret (Response 200 (message "Title updated successfully!"))
    end.

(** [GET /api/banner] *)
Definition get_api_banner : M outcome :=
  let* r := db_query (λ d, inr (take 1 (rows (table_of d "banner")), d)) in
  match r with
  | inl _ => ret (Response 500 (error "Database error"))
  | inr [] => ret (Response 200 (JObj [("image_path", JNull)]))
  | inr (r0 :: _) =>
      ret (Response 200 (JObj [
        ("image_path",
         JStr ("http://localhost:5000/" +:+ sql_to_string (r0 !! "image_path")))]))
  end.

(** [POST /api/blogs] and [DELETE /api/blogs/:id] *)
Definition post_api_blogs (req : request) : M outcome :=
  upload_single req (λ req_file,
    let description := body req !! "description" in
    let imagePath := uploads_url <$> req_file in
    let* r := db_query (insert_into "blogs"
                [("image", to_sql imagePath); ("description", to_sql description)]) in
    match r with
    | inl err => ret (Response 500 (error err))
    | inr insertId =>
        ret (Response 201 (JObj [("message", JStr "Blog uploaded successfully");
                                 ("blogId", JNum insertId)]))
    end).

Definition delete_api_blogs_id (id : Z) : M outcome :=
  let* r := db_query (select_from "blogs" (has_id id)) in
  match r with
  | inl err => ret (Response 500 (error err))
  | inr [] => ret (Response 404 (error "Blog not found"))
  | inr (r0 :: _) =>
      let imagePath := r0 !! "image" in
      let* thrown :=
        (if sql_truthy imagePath
         then fs_unlink ("." +:+ sql_to_string imagePath)
         else ret None) in
      match thrown with
      | Some code => ret (Uncaught code)
      | None =>
          let* r := db_query (delete_from "blogs" (has_id id)) in
          match r with
          | inl err => ret (Response 500 (error err))
          | inr _ => ret (Response 200 (message "Blog deleted successfully"))
          end
      end
  end.

(** [s.replace(pattern, replacement)] with a string pattern: the first
    occurrence is replaced. *)
Fixpoint replace_first (pattern replacement s : string) : string :=
  if String.prefix pattern s
  then replacement +:+ String.substring (String.length pattern)
                          (String.length s - String.length pattern) s
  else match s with
       | EmptyString => EmptyString
       | String a s' => String a (replace_first pattern replacement s')
       end.

(** [POST /api/v1/banner/upload] and [DELETE /api/v1/banner/delete/:id] *)
Definition post_api_v1_banner_upload (req : request) : M outcome :=
  upload_single req (λ req_file,
    match req_file with
    | None => ret (Response 400 (error "No file uploaded."))
    | Some filename =>
        let imageUrl := uploads_url filename in
        let* r := db_query (insert_into "vidyarajan_banners"
                    [("image_url", SqlStr imageUrl)]) in
        match r with
        | inl err =>
            let* _ := console_error ("❌ Error inserting banner: " +:+ err) in
            ret (Response 500 (error "Failed to save banner."))
        | inr insertId =>
            ret (Response 200 (JObj [
              ("message", JStr "✅ Banner uploaded successfully");
              ("banner", JObj [("id", JNum insertId); ("image_url", JStr imageUrl)])]))
        end
    end).

(** [results[0].image_url.replace(...)] throws on a value that is not a
    string; the file is unlinked before the row is deleted, and a
    failure to unlink is printed only. *)
Definition delete_api_v1_banner_delete_id (id : Z) : M outcome :=
  let* r := db_query (select_from "vidyarajan_banners" (has_id id)) in
  match r with
  | inl _ | inr [] => ret (Response 404 (error "Banner not found."))
  | inr (r0 :: _) =>
      match r0 !! "image_url" with
      | Some (SqlStr image_url) =>
          let imagePath :=
            path_join [dirname; replace_first "/uploads" "uploads" image_url] in
          let* err := fs_unlink imagePath in
          let* _ := match err with
                    | Some code => console_error ("Failed to delete image file: " +:+ code)
                    | None => ret tt
                    end in
          let* r := db_query (delete_from "vidyarajan_banners" (has_id id)) in
          match r with
          | inl err =>
              let* _ := console_error ("❌ Error deleting banner: " +:+ err) in
              ret (Response 500 (error "Failed to delete banner."))
          | inr _ => ret (Response 200 (message "✅ Banner deleted successfully"))
          end
      | _ => ret (Uncaught "TypeError")
      end
  end.

(** [DELETE /api/blog/delete-banner/:id]: the file is looked for under
    [__dirname/uploads] by the last segment of the stored URL;
    [path.basename] throws on a value that is not a string, and a failure
    to unlink is printed only. *)
Definition delete_api_blog_delete_banner_id (id : Z) : M outcome :=
  let* r := db_query (select_from "blog_banners" (has_id id)) in
  match r with
  | inl _ | inr [] => ret (Response 404 (message "Banner not found"))
  | inr (r0 :: _) =>
      match r0 !! "imageUrl" with
      | Some (SqlStr imageUrl) =>
          let filePath := path_join [dirname; "uploads"; path_basename imageUrl] in
          let* err := fs_unlink filePath in
          let* _ := match err with
                    | Some code => console_error ("Error deleting file: " +:+ code)
                    | None => ret tt
                    end in
          let* r := db_query (delete_from "blog_banners" (has_id id)) in
          match r with
          | inl _ => ret (Response 500 (message "Error deleting from database"))
          | inr _ => ret (Response 200 (message "Banner deleted successfully"))
          end
      | _ => ret (Uncaught "TypeError")
      end
  end.

End Process.

(** ** The router *)

Inductive method : Type := GET | POST | PUT | DELETE.

Global Instance method_eq_dec : EqDecision method.
Proof. solve_decision. Defined.

(** A route: the method and the path of an [app.METHOD(path, ...)] call
    and the line of [server.js] it is on, which names its handler. *)
Record route : Type := Route {
  route_method : method;
  route_path : string;
  route_line : nat
}.

(** The routes in the order [server.js] registers them. *)
Definition routes : list route :=
  [Route POST "/login" 62;
   Route POST "/register" 90;
   Route POST "/api/banner" 120;
   Route GET "/api/banners" 136;
   Route DELETE "/api/banner/:id" 156;
   Route GET "/courses" 179;
   Route POST "/courses" 195;
   Route PUT "/courses/:id" 203;
   Route DELETE "/courses/:id" 212;
   Route GET "/explorecourse" 221;
   Route POST "/explorecourse" 253;
   Route DELETE "/explorecourse/:id" 280;
   Route GET "/bookfree/demo" 300;
   Route POST "/bookfree/demo" 309;
   Route DELETE "/bookfree/demo/:id" 325;
   Route GET "/newonvidyarajan" 336;
   Route POST "/newonvidyarajan" 345;
   Route DELETE "/newonvidyarajan/:id" 361;
   Route GET "/bestsellingproducts" 373;
   Route POST "/bestsellingproducts" 381;
   Route DELETE "/bestsellingproducts/:id" 400;
   Route GET "/students" 411;
   Route POST "/students" 423;
   Route DELETE "/students/:id" 441;
   Route GET "/stories" 467;
   Route POST "/stories" 475;
   Route DELETE "/stories/:id" 494;
   Route POST "/add-course" 505;
   Route GET "/get-courses" 524;
   Route DELETE "/delete-course/:id" 536;
   Route POST "/upload-assignment" 551;
   Route GET "/get-assignments" 570;
   Route DELETE "/delete-assignment/:id" 582;
   Route GET "/get-announcements" 596;
   Route POST "/add-announcement" 607;
   Route DELETE "/delete-announcement/:id" 623;
   Route POST "/messages" 636;
   Route GET "/messages" 654;
   Route GET "/api/details" 667;
   Route POST "/api/update" 676;
   Route POST "/api/v1/banner/upload" 693;
   Route GET "/api/v1/banner/all" 715;
   Route DELETE "/api/v1/banner/delete/:id" 734;
   Route GET "/api/title" 765;
   Route POST "/api/title" 795;
   Route GET "/api/price" 815;
   Route POST "/api/price" 827;
   Route GET "/api/banner" 860;
   Route POST "/api/banner/upload" 869;
   Route DELETE "/api/banner/delete" 886;
   Route GET "/api/neet-details" 907;
   Route POST "/api/neet-details" 925;
   Route GET "/neet/api/title" 955;
   Route POST "/neet/api/title" 970;
   Route GET "/api/neet-update-price" 995;
   Route POST "/api/neet-update-price" 1010;
   Route GET "/api/students" 1031;
   Route POST "/api/students" 1042;
   Route PUT "/api/students/:id" 1064;
   Route DELETE "/api/students/:id" 1083;
   Route POST "/add-course" 1098;
   Route GET "/courses" 1123;
   Route PUT "/update-course/:id" 1131;
   Route GET "/olympiad/courses" 1152;
   Route PUT "/olympiad/course/:id" 1160;
   Route GET "/testimonials" 1174;
   Route POST "/testimonials" 1182;
   Route PUT "/testimonials/:id" 1192;
   Route DELETE "/testimonials/:id" 1203;
   Route GET "/api/timetable" 1212;
   Route PUT "/api/timetable/:day" 1221;
   Route POST "/api/timetable/init" 1233;
   Route GET "/olympiad/courses" 1252;
   Route POST "/olympiad/add-course" 1260;
   Route PUT "/olympiad/update-course/:id" 1274;
   Route POST "/study-material-upload" 1295;
   Route GET "/study-materials" 1316;
   Route DELETE "/study-material/:id" 1328;
   Route POST "/api/blog/upload-banner" 1344;
   Route GET "/api/blog/banners" 1359;
   Route DELETE "/api/blog/delete-banner/:id" 1368;
   Route POST "/api/blogs" 1396;
   Route GET "/api/blogs" 1408;
   Route DELETE "/api/blogs/:id" 1416;
   Route POST "/api/profile" 1434;
   Route GET "/api/profile" 1449;
   Route DELETE "/api/profile/:id" 1459;
   Route POST "/api/testimonials" 1472;
   Route GET "/api/testimonials" 1482;
   Route DELETE "/api/testimonials/:id" 1491;
   Route GET "/api/jeebanners" 1502;
   Route POST "/api/jeebanner" 1510;
   Route DELETE "/api/jeebanner/:id" 1525].

Definition to_lower (c : ascii) : ascii :=
  let n := N_of_ascii c in
  if ((65 <=? n) && (n <=? 90))%N then ascii_of_N (n + 32) else c.

Fixpoint lower (s : string) : string :=
  match s with
  | EmptyString => EmptyString
  | String c s' => String (to_lower c) (lower s')
  end.

(** A segment [:name] of a route path matches any segment that is not
    empty; another segment matches itself, whatever the case of the
    letters. *)
Definition is_param (segment : string) : bool :=
  match segment with
  | String ":" _ => true
  | _ => false
  end.

Definition segment_matches (pattern segment : string) : bool :=
  if is_param pattern then negb (bool_decide (segment = ""))
  else bool_decide (lower pattern = lower segment).

Fixpoint segments_match (patterns segments : list string) : bool :=
  match patterns, segments with
  | [], [] => true
  | p :: patterns', s :: segments' =>
      segment_matches p s && segments_match patterns' segments'
  | _, _ => false
  end.

(** One slash at the end of the requested path is ignored. *)
Definition strip_trailing_slash (segments : list string) : list string :=
  match reverse segments with
  | "" :: (_ :: _) as rest => reverse rest
  | _ => segments
  end.

Definition route_matches (m : method) (path : string) (r : route) : bool :=
  bool_decide (route_method r = m)
  && segments_match (split_path (route_path r))
       (strip_trailing_slash (split_path path)).

(** Express hands a request to the first route that matches: the line
    of the handler that answers [m path], if there is one. *)
Definition dispatch (m : method) (path : string) : option nat :=
  route_line <$> List.find (route_matches m path) routes.

(** * Vocabulary of the properties *)

(** What the upload middleware leaves on disk before the handler runs. *)
Definition upload_key (cwd : string) (req : request) (f : upload) : string :=
  path_resolve cwd (path_join ["uploads/"; multer_filename req f]).

(** The error the upload middleware ends with, if it cannot store the
    file of the request. *)
Definition storage_error (cwd : string) (req : request) (f : upload)
    (w : world) : option string :=
  match fs w !! upload_dir cwd with
  | Some Dir =>
      if decide (fs w !! upload_key cwd req f = Some Dir) then Some "EISDIR"
      else None
  | Some (File _) => Some "ENOTDIR"
  | None => Some "ENOENT"
  end.

(** Validation before every side effect, for one request: the request
    is refused with status 400 and neither the tables nor the files
    change. *)
Definition refused_without_side_effect (h : M outcome) (w : world) : Prop :=
  (∃ b, (h w).1 = Response 400 b) ∧ db (h w).2 = db w ∧ fs (h w).2 = fs w.

(** The world of the examples: empty tables, no file, no failing
    statement. *)
Definition no_faults : world := World ∅ ∅ [] [].

(** The same world once the server has started in [/srv/app]: the
    upload directory is there. *)
Definition started : world := World ∅ {["/srv/app/uploads" := Dir]} [] [].

(** The rows of [t] once the rows that satisfy [p] are deleted. *)
Definition without_rows (t : string) (p : row → Prop) `{!∀ r, Decision (p r)}
    (d : gmap string table) : gmap string table :=
  <[t := Table (filter (λ r, ¬ p r) (rows (table_of d t)))
               (auto_increment (table_of d t))]> d.

(** The rows the [WHERE] clause of [GET /explorecourse] keeps, in
    storage order. *)
Definition explorecourse_found (sql_like : string → string → bool)
    (req : request) (d : gmap string table) : list row :=
  let rs := rows (table_of d "explorecourses") in
  if truthy (query req !! "search")
  then filter (name_like sql_like ("%" +:+ default "" (query req !! "search") +:+ "%")) rs
  else rs.

(** The row [POST /api/banner/upload] stores. *)
Definition banner_row (id : Z) (req : request) (f : upload) : row :=
  {["id" := SqlInt id;
    "image_path" := SqlStr ("uploads/" +:+ multer_filename req f)]}.

(** The columns [POST /api/price] stores. *)
Definition price_columns (req : request) : list (string * sqlval) :=
  [("original_price", to_sql (body req !! "originalPrice"));
   ("discount", to_sql (body req !! "discount"));
   ("duration", to_sql (body req !! "duration"));
   ("final_price", to_sql (body req !! "finalPrice"));
   ("emi_option", to_sql (body req !! "emiOption"))].

(** The columns [POST /api/neet-details] stores. *)
Definition neet_columns (req : request) : list (string * sqlval) :=
  [("address", to_sql (body req !! "address"));
   ("timing", to_sql (body req !! "timing"));
   ("contact", to_sql (body req !! "contact"));
   ("courseDetails", to_sql (body req !! "courseDetails"));
   ("price", to_sql (body req !! "price"))].

(** All the fields of a list are present and not empty. *)
Definition all_truthy (req : request) (fields : list string) : Prop :=
  Forall (λ k, truthy (body req !! k) = true) fields.

(** The fields [POST /api/price] and [POST /api/neet-details] require. *)
Definition price_fields : list string :=
  ["originalPrice"; "discount"; "duration"; "finalPrice"; "emiOption"].

Definition neet_fields : list string :=
  ["address"; "timing"; "contact"; "courseDetails"; "price"].

(** The row [POST /api/price] stores. *)
Definition price_row (id : Z) (req : request) : row :=
  <["id" := SqlInt id]> (list_to_map (price_columns req)).

(** A reference that names a scheme and a host. *)
Definition has_host (ref : string) : bool :=
  String.prefix "http://" ref || String.prefix "https://" ref.

(** The two answers of [POST /login] after the lookup. *)
Definition invalid_credentials : json := error "Invalid email or password".

Definition login_successful (user : row) : json :=
  JObj [("message", JStr "Login successful"); ("user", json_of_row user)].

(** The members of a JSON object. *)
Definition members (j : json) : list (string * json) :=
  match j with
  | JObj ms => ms
  | _ => []
  end.

(** The row [POST /register] stores. *)
Definition user_row (id : Z) (fullName email hashedPassword : string) : row :=
  {["id" := SqlInt id; "fullName" := SqlStr fullName; "email" := SqlStr email;
    "password" := SqlStr hashedPassword]}.

(** A stand-in for bcrypt in the examples: the hash is the salt, a
    colon and the password. *)
Definition toy_hash (password salt : string) : string :=
  salt +:+ ":" +:+ password.

Definition toy_compare (password hash : string) : bool :=
  bool_decide (hash = "NaCl:" +:+ password).

(** A registered user and a login request, for the examples. *)
Definition asha : row := user_row 1 "Asha Rao" "asha@example.com" "NaCl:secret".

Definition one_user : world := World {["users" := Table [asha] 2]} ∅ [] [].

Definition credentials (email password : string) : request :=
  Request {["fullName" := "Asha Rao"; "email" := email; "password" := password]}
          ∅ None 0.

(** The lines of the routes that stand behind an earlier route of the
    same method whose path matches whatever theirs matches. *)
Definition shadowed_routes : list nat := [886; 1098; 1123; 1252]%nat.

(** The table [titles] as [GET /api/title] and [POST /api/title] keep
    it: empty, or the one row of id 1. *)
Definition titles_ok (d : gmap string table) : Prop :=
  rows (table_of d "titles") = []
  ∨ ∃ r, rows (table_of d "titles") = [r] ∧ has_id 1 r.

(** The row [GET /api/title] inserts into an empty table, and what it
    answers then. *)
Definition default_title_row : row :=
  {["id" := SqlInt 1; "title" := SqlStr "Default Title";
    "subtitle" := SqlStr "Default Subtitle"]}.

Definition title_json (title subtitle : string) : json :=
  json_of_row {["title" := SqlStr title; "subtitle" := SqlStr subtitle]}.

(** The ids of a table are below its [AUTO_INCREMENT] value, as they
    are in a table filled through [INSERT] statements without an id. *)
Definition ids_below_next (tb : table) : Prop :=
  Forall (λ r, row_id r < auto_increment tb) (rows tb).

(** The row [POST /api/banner] stores. *)
Definition banners_row (id : Z) (text filename : string) : row :=
  {["id" := SqlInt id; "text" := SqlStr text;
    "image_url" := SqlStr ("/uploads/" +:+ filename)]}.

(** The character [c] occurs in the string. *)
Fixpoint occurs (c : ascii) (s : string) : bool :=
  match s with
  | EmptyString => false
  | String a s' => Ascii.eqb a c || occurs c s'
  end.

(** What [path.extname] returns: nothing, or a dot and what follows. *)
Definition extension_like (e : string) : Prop :=
  e = "" ∨ ∃ e', e = String dot e'.

(** The last character of a string. *)
Fixpoint last_char (s : string) : option ascii :=
  match s with
  | EmptyString => None
  | String a EmptyString => Some a
  | String _ s' => last_char s'
  end.

(** A name that is one segment of a path and stands for itself: not
    empty, without a slash, and neither [.] nor [..]. *)
Definition plain_name (name : string) : Prop :=
  occurs slash name = false ∧ name ≠ "" ∧ name ≠ "." ∧ name ≠ "..".

(** * Properties *)

(** ** Running statements *)

Lemma db_query_run {A} (stmt : statement A) (w : world) :
  faults w = [] →
  db_query stmt w =
    match stmt (db w) with
    | inl msg => (inl msg, w)
    | inr (a, d) => (inr a, set_db d w)
    end.
Proof. intros Hf. unfold db_query. by rewrite Hf. Qed.

Lemma table_of_insert d t tb : table_of (<[t := tb]> d) t = tb.
Proof. unfold table_of. by rewrite lookup_insert_eq. Qed.

Lemma multer_store_ok cwd filename content w :
  fs w !! upload_dir cwd = Some Dir →
  fs w !! path_resolve cwd (path_join ["uploads/"; filename]) ≠ Some Dir →
  multer_store cwd filename content w =
    (None, set_fs (<[path_resolve cwd (path_join ["uploads/"; filename]) := File content]> (fs w)) w).
Proof.
  intros Hdir Hk. unfold multer_store. rewrite Hdir.
  destruct (fs w !! path_resolve _ _) as [[]|]; congruence.
Qed.

Lemma multer_store_dir cwd filename content w :
  fs w !! upload_dir cwd = Some Dir →
  fs w !! path_resolve cwd (path_join ["uploads/"; filename]) = Some Dir →
  multer_store cwd filename content w = (Some "EISDIR", w).
Proof. intros Hdir Hk. unfold multer_store. by rewrite Hdir, Hk. Qed.

(** Without the upload directory nothing is stored. *)
Lemma multer_store_missing cwd filename content w :
  fs w !! upload_dir cwd ≠ Some Dir →
  multer_store cwd filename content w
    = (Some (match fs w !! upload_dir cwd with
             | Some _ => "ENOTDIR"
             | None => "ENOENT"
             end), w).
Proof.
  intros Hdir. unfold multer_store.
  by destruct (fs w !! upload_dir cwd) as [[]|].
Qed.

(** A file stored in the upload directory leaves the directory there. *)
Lemma upload_dir_stays cwd (k : string) (content : string) (w : world) :
  fs w !! upload_dir cwd = Some Dir → fs w !! k ≠ Some Dir →
  <[k := File content]> (fs w) !! upload_dir cwd = Some Dir.
Proof.
  intros Hdir Hk. rewrite lookup_insert_ne; [done|].
  intros ->. by rewrite Hdir in Hk.
Qed.

(** ** C1: incomplete create requests *)

(** C1, counterexample: [POST /api/banner] with an image and no text is
    refused with 400, but the image is already in the upload directory. *)
Lemma post_api_banner_refusal_keeps_upload :
  let req := Request ∅ ∅ (Some (Upload "sale.png" "PNG")) 1700000000000 in
  truthy (body req !! "text") = false ∧
  (post_api_banner "/srv/app" req started).1
    = Response 400 (error "Text and image are required.") ∧
  ¬ refused_without_side_effect (post_api_banner "/srv/app" req) started ∧
  fs started !! "/srv/app/uploads/1700000000000.png" = None ∧
  fs (post_api_banner "/srv/app" req started).2 !! "/srv/app/uploads/1700000000000.png"
    = Some (File "PNG").
Proof.
  split; [done|]. split; [reflexivity|]. split; [|split; reflexivity].
  intros (_ & _ & Hfs).
  apply (f_equal (λ m, m !! "/srv/app/uploads/1700000000000.png")) in Hfs.
  vm_compute in Hfs. discriminate.
Qed.

(** C1, as amended: when [POST /api/banner] lacks the text or the image
    it runs no statement, so no row is inserted.  Without a file it
    answers 400 and leaves the world as it was.  With a file and no
    text the upload middleware runs before the check: when it stores
    the file, the answer is 400 and the file stays in the upload
    directory; when it cannot store it (the upload directory is missing
    or is a file, or a directory has the name of the file), the answer
    is 500 and nothing is written.  [POST /api/banner/upload] and
    [POST /api/blog/upload-banner] without a file answer 400 and leave
    the world as it was. *)
Theorem incomplete_create_is_refused (cwd : string) (env_PORT : option string)
    (req : request) (w : world) :
  (truthy (body req !! "text") = false ∨ file req = None →
   db (post_api_banner cwd req w).2 = db w ∧
   faults (post_api_banner cwd req w).2 = faults w ∧
   match file req with
   | None =>
       post_api_banner cwd req w
         = (Response 400 (error "Text and image are required."), w)
   | Some f =>
       match storage_error cwd req f w with
       | Some code => post_api_banner cwd req w = (Response 500 (JStr code), w)
       | None =>
           post_api_banner cwd req w
             = (Response 400 (error "Text and image are required."),
                set_fs (<[upload_key cwd req f := File (data f)]> (fs w)) w)
       end
   end) ∧
  (file req = None →
   post_api_banner_upload cwd req w = (Response 400 (error "No file uploaded"), w) ∧
   post_api_blog_upload_banner cwd env_PORT req w
     = (Response 400 (message "No file uploaded"), w)).
Proof.
  split.
  - intros H. unfold post_api_banner, upload_single, upload_key, storage_error.
    destruct (file req) as [f|] eqn:Hfile.
    + destruct H as [Htext|]; [|done].
      unfold bind.
      destruct (fs w !! upload_dir cwd) as [[content|]|] eqn:Hdir.
      * rewrite multer_store_missing by (by rewrite Hdir). by rewrite Hdir.
      * unfold upload_key. case_decide as Hk.
        -- by rewrite (multer_store_dir _ _ _ _ Hdir Hk).
        -- rewrite (multer_store_ok _ _ _ _ Hdir Hk). cbn. by rewrite Htext.
      * rewrite multer_store_missing by (by rewrite Hdir). by rewrite Hdir.
    + by rewrite orb_true_r.
  - intros Hfile. unfold post_api_banner_upload, post_api_blog_upload_banner, upload_single.
    by rewrite Hfile.
Qed.

Lemma incomplete_create_is_refused_example :
  let with_file := Request ∅ ∅ (Some (Upload "sale.png" "PNG")) 1700000000000 in
  let without := Request {["text" := "Sale"]} ∅ None 1700000000000 in
  (truthy (body with_file !! "text") = false ∧ file without = None) ∧
  post_api_banner "/srv/app" with_file started
    = (Response 400 (error "Text and image are required."),
       set_fs (<["/srv/app/uploads/1700000000000.png" := File "PNG"]> (fs started))
         started) ∧
  post_api_banner "/srv/app" with_file no_faults
    = (Response 500 (JStr "ENOENT"), no_faults) ∧
  post_api_banner_upload "/srv/app" without started
    = (Response 400 (error "No file uploaded"), started).
Proof.
  intros with_file without. split; [by vm_compute|]. split; [|split].
  - destruct (incomplete_create_is_refused "/srv/app" None with_file started)
      as [H _].
    destruct (H (or_introl eq_refl)) as (_ & _ & H'). exact H'.
  - destruct (incomplete_create_is_refused "/srv/app" None with_file no_faults)
      as [H _].
    destruct (H (or_introl eq_refl)) as (_ & _ & H'). exact H'.
  - destruct (incomplete_create_is_refused "/srv/app" None without started)
      as [_ H].
    exact (proj1 (H eq_refl)).
Defined.

(** [POST /courses], which takes no file, checks nothing: a request
    without a name and a description inserts a row of NULLs. *)
Lemma post_courses_checks_nothing :
  let req := Request ∅ ∅ None 0 in
  (post_courses req no_faults).1 = Response 201 (JObj [("id", JNum 1)]) ∧
  ((λ r : row, (r !! "name", r !! "description")) <$>
     rows (table_of (db (post_courses req no_faults).2) "courses"))
    = [(Some SqlNull, Some SqlNull)].
Proof. by vm_compute. Qed.

(** [POST /api/jeebanner] without a file does not reach its check: the
    answer is 500, not 400. *)
Lemma post_api_jeebanner_without_file (cwd : string) (req : request) (w : world) :
  file req = None →
  post_api_jeebanner cwd req w = (Response 500 (JStr "TypeError"), w).
Proof.
  intros Hfile. unfold post_api_jeebanner, upload_single. by rewrite Hfile.
Qed.

(** ** C2 and C3: deleting a row and its file *)

Lemma filter_not_filter {A} (P : A → Prop) `{!∀ x, Decision (P x)} (l : list A) :
  filter P (filter (λ x, ¬ P x) l) = [].
Proof.
  induction l as [|x l IH]; [done|].
  rewrite filter_cons. case_decide as Hx; [|done].
  rewrite filter_cons. by case_decide.
Qed.

Lemma filter_not_id {A} (P : A → Prop) `{!∀ x, Decision (P x)} (l : list A) :
  filter P l = [] → filter (λ x, ¬ P x) l = l.
Proof.
  induction l as [|x l IH]; [done|].
  rewrite (filter_cons P). destruct (decide (P x)) as [|Hx]; [done|].
  intros Hl. rewrite filter_cons. rewrite decide_True by done.
  by rewrite IH.
Qed.

(** [DELETE /api/banner/:id] when no statement fails. *)
Lemma delete_api_banner_id_run (cwd dirname : string) (id : Z) (w : world) :
  faults w = [] →
  delete_api_banner_id cwd dirname id w =
    match filter (has_id id) (rows (table_of (db w) "banners")) with
    | [] => (Response 404 (error "Banner not found"), w)
    | r0 :: _ =>
        match r0 !! "image_url" with
        | Some (SqlStr image_url) =>
            let w1 := set_db (without_rows "banners" (has_id id) (db w)) w in
            let k := path_resolve cwd (path_join [dirname; "public"; image_url]) in
            (Response 200 (message "Banner deleted successfully!"),
             match fs w !! k with
             | Some (File _) => set_fs (delete k (fs w)) w1
             | Some Dir =>
                 World (db w1) (fs w) [] (console w ++ ["Error deleting image file: EISDIR"])
             | None =>
                 World (db w1) (fs w) [] (console w ++ ["Error deleting image file: ENOENT"])
             end)
        | _ => (Uncaught "TypeError", w)
        end
    end.
Proof.
  destruct w as [d f fl c]; cbn. intros ->.
  unfold delete_api_banner_id, bind, db_query; cbn.
  destruct (filter _ _) as [|r0 rest]; [done|].
  destruct (r0 !! "image_url") as [[| |image_url]|]; try done.
  cbn. unfold fs_unlink; cbn.
  by destruct (f !! _) as [[]|].
Qed.

Lemma filter_not_any_row (l : list row) : filter (λ r, ¬ any_row r) l = [].
Proof.
  induction l as [|r l IH]; [done|].
  rewrite filter_cons. by rewrite decide_False by (unfold any_row; tauto).
Qed.

(** What three delete handlers do on an existing row, when no
    statement fails:
    - [DELETE /explorecourse/:id] deletes the row and touches no file;
    - [DELETE /api/banner/:id] deletes the row and answers success
      whatever becomes of the file: it unlinks
      [__dirname/public/<image_url>], and a failure, the file being
      absent or any other, is printed on the console and not reported;
    - the handler registered for [DELETE /api/banner/delete] deletes the
      rows, then unlinks the stored path: it answers success when the
      file is removed or already absent, and 500 on another error, with
      the rows deleted all the same. *)
Lemma delete_row_then_file (cwd dirname : string) (id : Z) (w : world) :
  faults w = [] →
  (filter (has_id id) (rows (table_of (db w) "explorecourses")) ≠ [] →
   delete_explorecourse_id id w
     = (Response 200 (message "Course deleted successfully"),
        set_db (without_rows "explorecourses" (has_id id) (db w)) w)) ∧
  (∀ r0 rest image_url,
     filter (has_id id) (rows (table_of (db w) "banners")) = r0 :: rest →
     r0 !! "image_url" = Some (SqlStr image_url) →
     let k := path_resolve cwd (path_join [dirname; "public"; image_url]) in
     ∃ w',
       delete_api_banner_id cwd dirname id w
         = (Response 200 (message "Banner deleted successfully!"), w') ∧
       db w' = without_rows "banners" (has_id id) (db w) ∧
       match fs w !! k with
       | Some (File _) => fs w' = delete k (fs w) ∧ console w' = console w
       | Some Dir =>
           fs w' = fs w ∧
           console w' = console w ++ ["Error deleting image file: EISDIR"]
       | None =>
           fs w' = fs w ∧
           console w' = console w ++ ["Error deleting image file: ENOENT"]
       end) ∧
  (∀ r0 rest p,
     rows (table_of (db w) "banner") = r0 :: rest →
     r0 !! "image_path" = Some (SqlStr p) →
     let k := path_resolve cwd p in
     let w1 := set_db (without_rows "banner" any_row (db w)) w in
     rows (table_of (db w1) "banner") = [] ∧
     delete_api_banner_delete cwd w =
       match fs w !! k with
       | Some (File _) =>
           (Response 200 (message "Banner deleted successfully"),
            set_fs (delete k (fs w)) w1)
       | None => (Response 200 (message "Banner deleted successfully"), w1)
       | Some Dir => (Response 500 (error "Failed to delete image file"), w1)
       end).
Proof.
  intros Hf. split; [|split].
  - intros Hrow. destruct w as [d f fl c]; cbn in *; subst fl.
    unfold delete_explorecourse_id, bind, db_query; cbn.
    by destruct (filter _ _).
  - intros r0 rest image_url Hrow Hurl k.
    rewrite delete_api_banner_id_run by done. rewrite Hrow, Hurl. cbn.
    eexists; split; [done|]. fold k.
    by destruct (fs w !! k) as [[]|].
  - intros r0 rest p Hrow Hpath k w1. split.
    + unfold w1, without_rows; cbn. rewrite table_of_insert. cbn.
      apply filter_not_any_row.
    + subst k w1. destruct w as [d f fl c]; cbn in *; subst fl.
      unfold delete_api_banner_delete, bind, db_query; cbn.
      rewrite Hrow; cbn. rewrite Hpath; cbn.
      unfold fs_unlink; cbn. rewrite ?Hrow; cbn.
      by destruct (f !! _) as [[]|].
Qed.

(** C2, at the failing inputs.  A banner is created through
    [POST /api/banner] and deleted through [DELETE /api/banner/:id], by
    a server started in the directory of [server.js]: the answer is
    success and the row is gone, but the file is still in the upload
    directory; the handler looked for it under [public/uploads/] and
    printed the failure.  A student whose photo is already absent is
    deleted through [DELETE /students/:id]: [fs.unlinkSync] throws, no
    response is sent and the row stays.  A request
    [DELETE /api/banner/delete] is answered by the route of line 156,
    never by the handler written for it. *)
Theorem delete_leaves_file_or_row :
  let req := Request {["text" := "Sale"]} ∅
               (Some (Upload "sale.png" "PNG")) 1700000000000 in
  let w1 := (post_api_banner "/srv/app" req started).2 in
  let w2 := (delete_api_banner_id "/srv/app" "/srv/app" 1 w1).2 in
  let student : row :=
    {["id" := SqlInt 1; "name" := SqlStr "Asha";
      "photo" := SqlStr "/uploads/1600000000000.jpg"]} in
  let w := World {["students" := Table [student] 2]} (fs started) [] [] in
  (((λ r : row, r !! "image_url") <$> rows (table_of (db w1) "banners"))
     = [Some (SqlStr "/uploads/1700000000000.png")] ∧
   fs w1 !! "/srv/app/uploads/1700000000000.png" = Some (File "PNG") ∧
   (delete_api_banner_id "/srv/app" "/srv/app" 1 w1).1
     = Response 200 (message "Banner deleted successfully!") ∧
   rows (table_of (db w2) "banners") = [] ∧
   fs w2 !! "/srv/app/uploads/1700000000000.png" = Some (File "PNG") ∧
   console w2 = ["Error deleting image file: ENOENT"]) ∧
  (fs w !! "/srv/app/uploads/1600000000000.jpg" = None ∧
   delete_students_id "/srv/app" 1 w = (Uncaught "ENOENT", w)) ∧
  dispatch DELETE "/api/banner/delete" = Some 156%nat.
Proof. repeat split; vm_compute; reflexivity. Qed.

(** X6: [DELETE /students/:id] unlinks with [fs.unlinkSync] before it
    deletes the row: when the file is absent the exception ends the
    request, with no response and with the row still there. *)
Lemma delete_students_id_file_absent (cwd : string) (id : Z) (w : world)
    (r0 : row) (rest : list row) (photo : string) :
  faults w = [] →
  filter (has_id id) (rows (table_of (db w) "students")) = r0 :: rest →
  r0 !! "photo" = Some (SqlStr photo) → photo ≠ "" →
  fs w !! path_resolve cwd ("." +:+ photo) = None →
  (delete_students_id cwd id w).1 = Uncaught "ENOENT" ∧
  db (delete_students_id cwd id w).2 = db w.
Proof.
  intros Hf Hrow Hphoto Hne Hfile.
  destruct w as [d f fl c]; cbn in *; subst fl.
  unfold delete_students_id, bind, db_query; cbn.
  rewrite Hrow, Hphoto; cbn. rewrite bool_decide_true by done.
  unfold fs_unlink; cbn. by rewrite Hfile.
Qed.

(** C3, counterexample: [DELETE /courses/:id] on an id that no row has
    answers success. *)
Lemma delete_courses_id_missing_succeeds :
  filter (has_id 7) (rows (table_of (db no_faults) "courses")) = [] ∧
  (delete_courses_id 7 no_faults).1 = Response 200 (message "Course deleted") ∧
  (∀ b, (delete_courses_id 7 no_faults).1 ≠ Response 404 b).
Proof. by vm_compute. Qed.

(** C3, as amended: when no statement fails, [DELETE /api/banner/:id]
    on an id that no row has answers 404 and changes nothing, and so
    does a second deletion of an id that was just deleted;
    [DELETE /courses/:id] and [DELETE /testimonials/:id] run the
    [DELETE] statement unconditionally and answer success, with the rows
    of the table as they were. *)
Theorem delete_missing_id (cwd dirname : string) (id : Z) (w : world) :
  faults w = [] →
  (filter (has_id id) (rows (table_of (db w) "banners")) = [] →
   delete_api_banner_id cwd dirname id w
     = (Response 404 (error "Banner not found"), w)) ∧
  (∀ b w',
     delete_api_banner_id cwd dirname id w = (Response 200 b, w') →
     delete_api_banner_id cwd dirname id w'
       = (Response 404 (error "Banner not found"), w')) ∧
  (filter (has_id id) (rows (table_of (db w) "courses")) = [] →
   ∃ w',
     delete_courses_id id w = (Response 200 (message "Course deleted"), w') ∧
     rows (table_of (db w') "courses") = rows (table_of (db w) "courses") ∧
     fs w' = fs w) ∧
  (filter (has_id id) (rows (table_of (db w) "testimonials")) = [] →
   ∃ w',
     delete_testimonials_id id w
       = (Response 200 (message "Testimonial deleted successfully"), w') ∧
     rows (table_of (db w') "testimonials") = rows (table_of (db w) "testimonials") ∧
     fs w' = fs w).
Proof.
  intros Hf. repeat split.
  - intros Hrow. rewrite delete_api_banner_id_run by done. by rewrite Hrow.
  - intros b w'. rewrite delete_api_banner_id_run by done.
    destruct (filter _ _) as [|r0 rest] eqn:Hrow; [done|].
    destruct (r0 !! "image_url") as [[| |image_url]|]; try done.
    intros [= <- <-].
    destruct (fs w !! _) as [[]|];
      (rewrite delete_api_banner_id_run by done); cbn;
      unfold without_rows; rewrite table_of_insert; cbn;
      by rewrite filter_not_filter.
  - intros Hrow. destruct w as [d f fl c]; cbn in *; subst fl.
    unfold delete_courses_id, bind, db_query; cbn.
    eexists; split; [done|]. cbn. rewrite table_of_insert. cbn.
    by rewrite filter_not_id.
  - intros Hrow. destruct w as [d f fl c]; cbn in *; subst fl.
    unfold delete_testimonials_id, bind, db_query; cbn.
    eexists; split; [done|]. cbn. rewrite table_of_insert. cbn.
    by rewrite filter_not_id.
Qed.

Lemma delete_missing_id_example :
  let banner : row := {["id" := SqlInt 1; "image_url" := SqlStr "/uploads/17.png"]} in
  let w := World {["banners" := Table [banner] 2]} ∅ [] [] in
  (faults w = [] ∧ filter (has_id 5) (rows (table_of (db w) "banners")) = []) ∧
  delete_api_banner_id "/srv/app" "/srv/app" 5 w
    = (Response 404 (error "Banner not found"), w).
Proof.
  intros banner w. split; [by vm_compute|].
  apply (delete_missing_id "/srv/app" "/srv/app" 5 w eq_refl). by vm_compute.
Defined.

(** ** C4: pages of [GET /explorecourse] *)

Lemma set_db_id (w : world) : set_db (db w) w = w.
Proof. by destruct w. Qed.

Lemma filter_any_row (l : list row) : filter any_row l = l.
Proof.
  induction l as [|r l IH]; [done|].
  rewrite filter_cons, decide_True by done. by rewrite IH.
Qed.

(** C4, at the failing input: [page=-1] is not a positive integer, yet
    it is not replaced by page 1; the handler keeps -1, the offset is
    negative, the statement is rejected and the request ends in a 500
    error instead of the first page. *)
Theorem get_explorecourse_negative_page :
  let req := Request ∅ {["page" := "-1"]} None 0 in
  let absent := Request ∅ ∅ None 0 in
  or_default (parseInt (query req !! "page")) 1 = Finite (-1) ∧
  (get_explorecourse (λ _ _, true) req no_faults).1
    = Response 500 (error "ER_PARSE_ERROR") ∧
  (get_explorecourse (λ _ _, true) absent no_faults).1
    = Response 200 (JObj [("page", JNum 1); ("limit", JNum 10);
                          ("totalCourses", JNum 0); ("courses", JArr [])]).
Proof. by vm_compute. Qed.

(** What [parseInt] reads: the digits after white space, which may be
    U+00A0, and after a sign; nothing from a value without a digit; an
    integer above 2^53 as the double nearest to it; hexadecimal digits
    after [0x]; an infinity from 400 digits. *)
Lemma parseInt_reads :
  parseInt (Some " 12abc") = Finite 12 ∧
  parseInt (Some (String (ascii_of_nat 194) (String (ascii_of_nat 160) "2")))
    = Finite 2 ∧
  parseInt (Some "-7") = Finite (-7) ∧
  parseInt (Some "") = NaN ∧
  parseInt (Some "abc") = NaN ∧
  parseInt None = NaN ∧
  parseInt (Some "0x1f") = Finite 31 ∧
  parseInt (Some "9007199254740993") = Finite 9007199254740992 ∧
  parseInt (Some "9007199254740995") = Finite 9007199254740996 ∧
  parseInt (Some (String.concat "" (replicate 400 "9"))) = Infinite false ∧
  count_literal (Finite (2 ^ 63)) = inr 9223372036854776000 ∧
  count_literal (Finite (2 ^ 64)) = inl "ER_PARSE_ERROR".
Proof. repeat split; vm_compute; reflexivity. Qed.

Lemma round_double_safe (n : Z) : Z.abs n < 2 ^ 53 → round_double n = Finite n.
Proof.
  intros Hn. unfold round_double.
  by destruct (Z.ltb_spec (Z.abs n) (2 ^ 53)); [|lia].
Qed.

Lemma count_literal_safe (n : Z) :
  0 ≤ n < 2 ^ 53 → count_literal (Finite n) = inr n.
Proof.
  intros [H0 Hn]. unfold count_literal.
  destruct (Z.ltb_spec n 0); [lia|].
  by destruct (Z.ltb_spec n (2 ^ 53)); [|lia].
Qed.

(** X2: The pages of [GET /explorecourse] on the values it handles: [page]
    and [limit] default to 1 and 10 when they are absent or when
    [parseInt] reads them as [NaN] or as 0; with a page [p] and a limit
    [l] that are positive and small enough for the offset
    [(p - 1) * l] and the limit to be below 2^53, where the arithmetic
    of doubles is exact, and no failing statement, the answer is the
    slice of the found rows that starts at that offset and has at most
    [l] rows, in storage order, and [totalCourses] is the length of
    that slice; over 25 rows page 2 of size 10 is rows 11 to 20 and
    page 99 is empty. *)
Lemma get_explorecourse_page (sql_like : string → string → bool)
    (req : request) (w : world) :
  faults w = [] →
  let page := or_default (parseInt (query req !! "page")) 1 in
  let limit := or_default (parseInt (query req !! "limit")) 10 in
  let found := explorecourse_found sql_like req (db w) in
  (query req !! "page" = None ∨ parseInt (query req !! "page") = NaN
     ∨ parseInt (query req !! "page") = Finite 0 → page = Finite 1) ∧
  (query req !! "limit" = None ∨ parseInt (query req !! "limit") = NaN
     ∨ parseInt (query req !! "limit") = Finite 0 → limit = Finite 10) ∧
  (∀ p l : Z,
     page = Finite p → limit = Finite l →
     0 < p → 0 < l → (p - 1) * l < 2 ^ 53 → l < 2 ^ 53 →
     let results := take (Z.to_nat l) (drop (Z.to_nat ((p - 1) * l)) found) in
     get_explorecourse sql_like req w
       = (Response 200 (JObj [
            ("page", JNum p);
            ("limit", JNum l);
            ("totalCourses", JNum (Z.of_nat (length results)));
            ("courses", JArr (json_of_row <$> results))]), w) ∧
     (length found = 25%nat → p = 2 → l = 10 →
      length results = 10%nat ∧
      ∀ i : nat, (i < 10)%nat → results !! i = found !! (10 + i)%nat) ∧
     (length found = 25%nat → p = 99 → l = 10 → results = [])).
Proof.
  intros Hf page limit found.
  split; [|split].
  - intros [H|[H|H]]; subst page; rewrite H; done.
  - intros [H|[H|H]]; subst limit; rewrite H; done.
  - intros p l Hpage Hlimit Hp Hl Hoffset Hsafe results.
    split; [|split].
    + unfold get_explorecourse, bind. fold page limit. rewrite Hpage, Hlimit.
      assert (times (minus_one (Finite p)) (Finite l) = Finite ((p - 1) * l)) as ->.
      { unfold minus_one, times.
        rewrite (round_double_safe (p - 1)) by nia.
        apply round_double_safe. nia. }
      subst results found. unfold explorecourse_found.
      destruct (truthy (query req !! "search"));
        rewrite db_query_run by done;
        unfold select_limit_offset;
        rewrite !count_literal_safe by nia;
        rewrite set_db_id; cbn;
        by rewrite ?filter_any_row.
    + intros Hlen -> ->. subst results.
      change (Z.to_nat ((2 - 1) * 10)) with 10%nat.
      change (Z.to_nat 10) with 10%nat.
      split.
      * rewrite length_take, length_drop. lia.
      * intros i Hi. rewrite lookup_take_lt by lia. by rewrite lookup_drop.
    + intros Hlen -> ->. subst results.
      rewrite drop_ge; [apply take_nil|]. rewrite Hlen.
      change (Z.to_nat ((99 - 1) * 10)) with 980%nat. lia.
Qed.

Lemma get_explorecourse_page_example :
  let course (n : Z) : row := {["id" := SqlInt n; "name" := SqlStr "Physics"]} in
  let w := World {["explorecourses" := Table (course <$> [1; 2; 3]) 4]} ∅ [] [] in
  let req := Request ∅ {["page" := "2"; "limit" := "2"]} None 0 in
  (faults w = [] ∧ or_default (parseInt (query req !! "page")) 1 = Finite 2
   ∧ or_default (parseInt (query req !! "limit")) 10 = Finite 2) ∧
  get_explorecourse (λ _ _, true) req w
    = (Response 200 (JObj [
         ("page", JNum 2); ("limit", JNum 2); ("totalCourses", JNum 1);
         ("courses", JArr [json_of_row (course 3)])]), w).
Proof.
  intros course w req. split; [by vm_compute|].
  destruct (get_explorecourse_page (λ _ _, true) req w eq_refl)
    as (_ & _ & H).
  destruct (H 2 2 eq_refl eq_refl ltac:(lia) ltac:(lia) ltac:(lia) ltac:(lia))
    as (-> & _).
  by vm_compute.
Defined.

(** ** C5: singleton resources *)

Ltac use_truthy H :=
  unfold all_truthy, price_fields, neet_fields in H;
  repeat match type of H with
         | Forall _ (_ :: _) => apply Forall_cons in H; destruct H as [?Hk H]
         end;
  repeat match goal with
         | Hk : truthy _ = true |- _ => rewrite Hk; clear Hk
         end.

Lemma post_api_banner_upload_run (cwd : string) (req : request) (f : upload)
    (w : world) :
  faults w = [] → file req = Some f →
  fs w !! upload_dir cwd = Some Dir →
  fs w !! upload_key cwd req f ≠ Some Dir →
  ∃ w',
    post_api_banner_upload cwd req w
      = (Response 200 (JObj [
           ("message", JStr "Banner uploaded successfully");
           ("imagePath", JStr ("http://localhost:5000/" +:+ "uploads/"
                                 +:+ multer_filename req f))]), w') ∧
    faults w' = [] ∧
    rows (table_of (db w') "banner")
      = [banner_row (auto_increment (table_of (db w) "banner")) req f] ∧
    fs w' = <[upload_key cwd req f := File (data f)]> (fs w).
Proof.
  intros Hf Hfile Hdir Hk. destruct w as [d fsys fl c]; cbn in *; subst fl.
  unfold post_api_banner_upload, upload_single, bind. rewrite Hfile.
  rewrite multer_store_ok by done. cbn.
  unfold db_query; cbn. eexists; split; [done|]. cbn.
  rewrite !table_of_insert. cbn.
  by rewrite filter_not_any_row.
Qed.

Lemma post_api_price_run (req : request) (w : world) :
  faults w = [] → all_truthy req price_fields →
  post_api_price req w
    = (Response 200 (message "Price details updated successfully!"),
       set_db (<["prices" :=
                   Table (rows (table_of (db w) "prices")
                            ++ [<["id" := SqlInt (auto_increment (table_of (db w) "prices"))]>
                                  (list_to_map (price_columns req))])
                         (auto_increment (table_of (db w) "prices") + 1)]> (db w)) w).
Proof.
  intros Hf Hreq. destruct w as [d fsys fl c]; cbn in *; subst fl.
  unfold post_api_price. use_truthy Hreq. cbn.
  by unfold bind, db_query.
Qed.

Lemma post_api_neet_details_run (req : request) (w : world) :
  faults w = [] → all_truthy req neet_fields →
  ∃ d',
    post_api_neet_details req w
      = (Response 200 (message "✅ NEET details updated successfully!"),
         set_db d' w) ∧
    insert_or_update_id1 "neet_details" (neet_columns req) (db w) = inr (tt, d').
Proof.
  intros Hf Hreq. destruct w as [d fsys fl c]; cbn in *; subst fl.
  unfold post_api_neet_details. use_truthy Hreq. cbn.
  unfold bind, db_query; cbn. fold (neet_columns req).
  destruct (insert_or_update_id1 _ _ _) as [|[[] d']] eqn:Hstmt.
  - unfold insert_or_update_id1 in Hstmt. by case_decide.
  - by eexists.
Qed.

Lemma latest_elem_of (rs : list row) (b : row) : latest rs = Some b → b ∈ rs.
Proof.
  unfold latest. induction rs as [|r rs IH] using rev_ind; [done|].
  rewrite foldl_app; cbn. intros H. apply elem_of_app.
  destruct (foldl _ None rs) as [b'|] eqn:Hb.
  - destruct (row_id b' <? row_id r).
    + right. injection H as <-. apply list_elem_of_singleton. done.
    + left. apply IH. done.
  - right. injection H as <-. by apply list_elem_of_singleton.
Qed.

Lemma latest_snoc_greater (rs : list row) (r : row) :
  Forall (λ r', row_id r' < row_id r) rs → latest (rs ++ [r]) = Some r.
Proof.
  intros Hlt. unfold latest. rewrite foldl_app; cbn.
  destruct (foldl _ None rs) as [b|] eqn:Hb; [|done].
  apply latest_elem_of in Hb.
  rewrite Forall_forall in Hlt. apply Hlt in Hb.
  by apply Z.ltb_lt in Hb as ->.
Qed.

Lemma row_id_price_row (id : Z) (req : request) : row_id (price_row id req) = id.
Proof. unfold row_id, price_row. by rewrite lookup_insert_eq. Qed.

Lemma neet_upsert (req : request) (d : gmap string table) :
  (rows (table_of d "neet_details") = []
   ∨ ∃ r0, rows (table_of d "neet_details") = [r0] ∧ has_id 1 r0) →
  ∃ d' r,
    insert_or_update_id1 "neet_details" (neet_columns req) d = inr (tt, d') ∧
    rows (table_of d' "neet_details") = [r] ∧
    has_id 1 r ∧
    Forall (λ kv, r !! kv.1 = Some kv.2) (neet_columns req).
Proof.
  intros Hrows. unfold insert_or_update_id1.
  destruct Hrows as [Hrows|(r0 & Hrows & Hid)]; rewrite Hrows.
  - rewrite decide_False by (by intros ?%Exists_nil).
    do 2 eexists; split; [done|]. rewrite table_of_insert. cbn.
    split; [done|]. split; [done|].
    repeat constructor; cbn; by simplify_map_eq.
  - rewrite decide_True by (by constructor).
    do 2 eexists; split; [done|]. rewrite table_of_insert. cbn.
    rewrite decide_True by done.
    split; [done|]. unfold has_id in *. split.
    + by simplify_map_eq.
    + repeat constructor; cbn; by simplify_map_eq.
Qed.

(** C5, counterexample: two [POST /api/price] calls on an empty table
    leave two rows. *)
Lemma post_api_price_twice_two_rows :
  let price (p : string) :=
    Request {["originalPrice" := p; "discount" := "10"; "duration" := "12";
              "finalPrice" := "900"; "emiOption" := "yes"]} ∅ None 0 in
  let w1 := (post_api_price (price "1000") no_faults).2 in
  let w2 := (post_api_price (price "2000") w1).2 in
  (post_api_price (price "1000") no_faults).1
    = Response 200 (message "Price details updated successfully!") ∧
  (post_api_price (price "2000") w1).1
    = Response 200 (message "Price details updated successfully!") ∧
  length (rows (table_of (db w2) "prices")) = 2%nat.
Proof. by vm_compute. Qed.

(** C5, as amended: after two sequential successful calls,
    - [POST /api/banner/upload] (delete all, then insert), with the
      upload directory in place so that both files are stored, leaves
      exactly one row, with the path of the second file;
    - [POST /api/neet-details] (insert or update the row of id 1), on a
      table that holds nothing but that row, leaves exactly one row,
      with the columns of the second payload;
    - [POST /api/price] appends one row per call: the table has two rows
      more, and the last one, which is the row [GET /api/price] returns
      when the ids of the table are below its [AUTO_INCREMENT] value,
      holds the second payload. *)
Theorem singleton_after_two_calls (cwd : string) (req1 req2 : request)
    (w : world) :
  faults w = [] →
  (∀ f1 f2,
     file req1 = Some f1 → file req2 = Some f2 →
     fs w !! upload_dir cwd = Some Dir →
     fs w !! upload_key cwd req1 f1 ≠ Some Dir →
     fs w !! upload_key cwd req2 f2 ≠ Some Dir →
     let w1 := (post_api_banner_upload cwd req1 w).2 in
     let w2 := (post_api_banner_upload cwd req2 w1).2 in
     (post_api_banner_upload cwd req1 w).1
       = Response 200 (JObj [
           ("message", JStr "Banner uploaded successfully");
           ("imagePath", JStr ("http://localhost:5000/" +:+ "uploads/"
                                 +:+ multer_filename req1 f1))]) ∧
     (post_api_banner_upload cwd req2 w1).1
       = Response 200 (JObj [
           ("message", JStr "Banner uploaded successfully");
           ("imagePath", JStr ("http://localhost:5000/" +:+ "uploads/"
                                 +:+ multer_filename req2 f2))]) ∧
     ∃ id, rows (table_of (db w2) "banner") = [banner_row id req2 f2]) ∧
  (all_truthy req1 neet_fields → all_truthy req2 neet_fields →
   (rows (table_of (db w) "neet_details") = []
    ∨ ∃ r0, rows (table_of (db w) "neet_details") = [r0] ∧ has_id 1 r0) →
   let w1 := (post_api_neet_details req1 w).2 in
   let w2 := (post_api_neet_details req2 w1).2 in
   ∃ r, rows (table_of (db w2) "neet_details") = [r] ∧ has_id 1 r ∧
        Forall (λ kv, r !! kv.1 = Some kv.2) (neet_columns req2)) ∧
  (all_truthy req1 price_fields → all_truthy req2 price_fields →
   let w1 := (post_api_price req1 w).2 in
   let w2 := (post_api_price req2 w1).2 in
   let next := auto_increment (table_of (db w) "prices") in
   rows (table_of (db w2) "prices")
     = rows (table_of (db w) "prices")
         ++ [price_row next req1; price_row (next + 1) req2] ∧
   (Forall (λ r, row_id r < next) (rows (table_of (db w) "prices")) →
    (get_api_price w2).1 = Response 200 (json_of_row (price_row (next + 1) req2)))).
Proof.
  intros Hf. split; [|split].
  - intros f1 f2 Hfile1 Hfile2 Hdir Hk1 Hk2 w1 w2.
    destruct (post_api_banner_upload_run cwd req1 f1 w Hf Hfile1 Hdir Hk1)
      as (w1' & Hrun1 & Hf1 & _ & Hfs1).
    assert (w1 = w1') as -> by (unfold w1; by rewrite Hrun1).
    destruct (post_api_banner_upload_run cwd req2 f2 w1' Hf1 Hfile2)
      as (w2' & Hrun2 & _ & Hrows2 & _).
    { rewrite Hfs1. by apply upload_dir_stays. }
    { rewrite Hfs1. destruct (decide (upload_key cwd req1 f1 = upload_key cwd req2 f2)) as [->|].
      - by rewrite lookup_insert_eq.
      - by rewrite lookup_insert_ne. }
    unfold w2. rewrite Hrun1, Hrun2. split; [done|]. split; [done|]. by eexists.
  - intros Hreq1 Hreq2 Hrows w1 w2.
    destruct (post_api_neet_details_run req1 w Hf Hreq1) as (d1 & Hrun1 & Hd1).
    destruct (neet_upsert req1 (db w) Hrows) as (d1' & r1 & Hd1' & Hrows1 & Hid1 & _).
    rewrite Hd1 in Hd1'. injection Hd1' as <-.
    assert (w1 = set_db d1 w) as Hw1 by (unfold w1; by rewrite Hrun1).
    destruct (post_api_neet_details_run req2 w1) as (d2 & Hrun2 & Hd2);
      [by rewrite Hw1|done|].
    destruct (neet_upsert req2 (db w1)) as (d2' & r2 & Hd2' & Hrows2 & Hid2 & Hcols2).
    { right. exists r1. by rewrite Hw1. }
    rewrite Hd2 in Hd2'. injection Hd2' as <-.
    exists r2. unfold w2. by rewrite Hrun2.
  - intros Hreq1 Hreq2 w1 w2 next.
    assert (w1 = set_db (<["prices" :=
              Table (rows (table_of (db w) "prices") ++ [price_row next req1])
                    (next + 1)]> (db w)) w) as Hw1.
    { unfold w1. by rewrite post_api_price_run. }
    assert (rows (table_of (db w2) "prices")
            = rows (table_of (db w) "prices")
                ++ [price_row next req1; price_row (next + 1) req2]) as Hrows2.
    { unfold w2. rewrite post_api_price_run; [|by rewrite Hw1|done].
      cbn. rewrite table_of_insert. rewrite Hw1. cbn.
      rewrite table_of_insert. cbn. by rewrite <- app_assoc. }
    split; [done|]. intros Hlt.
    assert (faults w2 = []) as Hf2.
    { unfold w2. rewrite post_api_price_run; [|by rewrite Hw1|done].
      cbn. by rewrite Hw1. }
    unfold get_api_price, bind. rewrite db_query_run by done.
    unfold select_latest. rewrite Hrows2.
    replace (rows (table_of (db w) "prices")
               ++ [price_row next req1; price_row (next + 1) req2])
      with ((rows (table_of (db w) "prices") ++ [price_row next req1])
              ++ [price_row (next + 1) req2])
      by (by rewrite <- app_assoc).
    rewrite latest_snoc_greater; [done|].
    rewrite row_id_price_row. apply Forall_app. split.
    + eapply Forall_impl; [done|]. cbn. lia.
    + repeat constructor. rewrite row_id_price_row. lia.
Qed.

Lemma singleton_after_two_calls_example :
  let first := Request {["originalPrice" := "1000"; "discount" := "10";
                         "duration" := "12"; "finalPrice" := "900";
                         "emiOption" := "yes"]} ∅
                 (Some (Upload "old.png" "OLD")) 1700000000000 in
  let second := Request {["originalPrice" := "2000"; "discount" := "20";
                          "duration" := "6"; "finalPrice" := "1600";
                          "emiOption" := "no"]} ∅
                  (Some (Upload "new.jpg" "NEW")) 1700000000500 in
  let w := started in
  (faults w = [] ∧ all_truthy first price_fields ∧ all_truthy second price_fields
   ∧ fs w !! upload_dir "/srv/app" = Some Dir) ∧
  (∃ id, rows (table_of (db (post_api_banner_upload "/srv/app" second
                               (post_api_banner_upload "/srv/app" first w).2).2)
                 "banner")
         = [{["id" := SqlInt id; "image_path" := SqlStr "uploads/1700000000500.jpg"]}]) ∧
  rows (table_of (db (post_api_price second (post_api_price first w).2).2) "prices")
    = [price_row 1 first; price_row 2 second].
Proof.
  intros first second w.
  assert (all_truthy first price_fields) as H1 by (repeat constructor).
  assert (all_truthy second price_fields) as H2 by (repeat constructor).
  split; [done|].
  destruct (singleton_after_two_calls "/srv/app" first second w eq_refl)
    as (Hbanner & _ & Hprice).
  split.
  - apply (Hbanner (Upload "old.png" "OLD") (Upload "new.jpg" "NEW"));
      by vm_compute.
  - exact (proj1 (Hprice H1 H2)).
Defined.

(** ** C6: what is stored as the reference of a file *)

Lemma uploads_url_ne (filename : string) : uploads_url filename ≠ "".
Proof. done. Qed.

(** [POST /api/banner] stores the path under the upload prefix. *)
Lemma post_api_banner_stores_path (cwd : string) (req : request) (f : upload)
    (w : world) :
  faults w = [] → file req = Some f → truthy (body req !! "text") = true →
  fs w !! upload_dir cwd = Some Dir →
  fs w !! upload_key cwd req f ≠ Some Dir →
  ∃ r, rows (table_of (db (post_api_banner cwd req w).2) "banners")
         = rows (table_of (db w) "banners") ++ [r] ∧
       r !! "image_url" = Some (SqlStr ("/uploads/" +:+ multer_filename req f)).
Proof.
  intros Hf Hfile Htext Hdir Hk. destruct w as [d fsys fl c]; cbn in *; subst fl.
  unfold post_api_banner, upload_single, bind. rewrite Hfile.
  rewrite multer_store_ok by done. cbn. rewrite Htext. cbn.
  rewrite bool_decide_true by apply uploads_url_ne. cbn.
  unfold db_query; cbn. rewrite table_of_insert. cbn.
  eexists; split; [done|]. by simplify_map_eq.
Qed.

(** [POST /api/blog/upload-banner] stores the reference with the host
    of the machine it runs on. *)
Lemma post_api_blog_upload_banner_stores_url (cwd : string)
    (env_PORT : option string) (req : request) (f : upload) (w : world) :
  faults w = [] → file req = Some f →
  fs w !! upload_dir cwd = Some Dir →
  fs w !! upload_key cwd req f ≠ Some Dir →
  ∃ r, rows (table_of (db (post_api_blog_upload_banner cwd env_PORT req w).2)
               "blog_banners")
         = rows (table_of (db w) "blog_banners") ++ [r] ∧
       r !! "imageUrl"
         = Some (SqlStr ("http://localhost:" +:+ PORT env_PORT +:+ "/uploads/"
                           +:+ multer_filename req f)).
Proof.
  intros Hf Hfile Hdir Hk. destruct w as [d fsys fl c]; cbn in *; subst fl.
  unfold post_api_blog_upload_banner, upload_single, bind. rewrite Hfile.
  rewrite multer_store_ok by done. cbn.
  unfold db_query; cbn. rewrite table_of_insert. cbn.
  eexists; split; [done|]. by simplify_map_eq.
Qed.

(** C6, at the failing input, on a server started in [/srv/app]: a
    blog banner uploaded as [cover.png] is stored under the reference
    [http://localhost:5000/uploads/1700000000000.png], an absolute URL
    with a host, where [POST /api/banner] stores
    [/uploads/1700000000000.png] for the same file. *)
Theorem blog_banner_reference_has_host :
  let req := Request {["text" := "Sale"]} ∅
               (Some (Upload "cover.png" "PNG")) 1700000000000 in
  let blog := (post_api_blog_upload_banner "/srv/app" None req started).2 in
  let banner := (post_api_banner "/srv/app" req started).2 in
  (post_api_blog_upload_banner "/srv/app" None req started).1
    = Response 200 (JObj [
        ("message", JStr "Banner uploaded successfully");
        ("imageUrl", JStr "http://localhost:5000/uploads/1700000000000.png")]) ∧
  ((λ r : row, r !! "imageUrl") <$> rows (table_of (db blog) "blog_banners"))
    = [Some (SqlStr "http://localhost:5000/uploads/1700000000000.png")] ∧
  has_host "http://localhost:5000/uploads/1700000000000.png" = true ∧
  ((λ r : row, r !! "image_url") <$> rows (table_of (db banner) "banners"))
    = [Some (SqlStr "/uploads/1700000000000.png")] ∧
  has_host "/uploads/1700000000000.png" = false.
Proof. by vm_compute. Qed.

(** ** C7: replacing the file of a row *)




(** ** C8 and C9: registering and logging in *)

(** [POST /login] with an email and a password, when no statement fails. *)
Lemma post_login_run (bcrypt_compare : string → string → bool) (req : request)
    (email password : string) (w : world) :
  faults w = [] →
  body req !! "email" = Some email → email ≠ "" →
  body req !! "password" = Some password → password ≠ "" →
  post_login bcrypt_compare req w =
    match filter (has_email email) (rows (table_of (db w) "users")) with
    | [] => (Response 400 invalid_credentials, w)
    | user :: _ =>
        match user !! "password" with
        | Some (SqlStr hash) =>
            if bcrypt_compare password hash
            then (Response 200 (login_successful user), w)
            else (Response 400 invalid_credentials, w)
        | _ => (Uncaught "Error: data and hash arguments required", w)
        end
    end.
Proof.
  intros Hf Hemail He Hpassword Hp.
  destruct w as [d fsys fl c]; cbn in *; subst fl.
  unfold post_login. rewrite Hemail, Hpassword. cbn.
  rewrite !bool_decide_true by done. cbn.
  unfold bind, db_query; cbn.
  destruct (filter _ _) as [|user rest]; [done|].
  destruct (user !! "password") as [[| |hash]|]; try done.
  by destruct (bcrypt_compare password hash).
Qed.

(** C8: for a request that carries an email and a password and with no
    failing statement, [POST /register] (the full name given too)
    answers "Email already in use" and stores nothing when a row has
    the email, and otherwise stores one row with the email and the
    bcrypt hash of the password under the drawn salt; [POST /login]
    answers "Invalid email or password" when no row has the email and
    when [bcrypt.compare] rejects the password against the stored hash,
    and it succeeds exactly when a row has the email and [bcrypt.compare]
    accepts the password against the hash of the first such row. *)
Theorem register_and_login (bcrypt_hash : string → string → string)
    (bcrypt_compare : string → string → bool) (salt : string) (req : request)
    (email password : string) (w : world) :
  faults w = [] →
  body req !! "email" = Some email → email ≠ "" →
  body req !! "password" = Some password → password ≠ "" →
  let users := rows (table_of (db w) "users") in
  let known := filter (has_email email) users in
  (∀ fullName, body req !! "fullName" = Some fullName → fullName ≠ "" →
     (known ≠ [] →
      post_register bcrypt_hash salt req w
        = (Response 400 (error "Email already in use"), w)) ∧
     (known = [] →
      ∃ w',
        post_register bcrypt_hash salt req w
          = (Response 201 (message "User registered successfully"), w') ∧
        rows (table_of (db w') "users")
          = users ++ [user_row (auto_increment (table_of (db w) "users"))
                        fullName email (bcrypt_hash password salt)])) ∧
  (known = [] →
   post_login bcrypt_compare req w = (Response 400 invalid_credentials, w)) ∧
  (∀ user rest hash,
     known = user :: rest → user !! "password" = Some (SqlStr hash) →
     bcrypt_compare password hash = false →
     post_login bcrypt_compare req w = (Response 400 invalid_credentials, w)) ∧
  ((∃ b, (post_login bcrypt_compare req w).1 = Response 200 b) ↔
   (∃ user rest hash,
      known = user :: rest ∧ user !! "password" = Some (SqlStr hash) ∧
      bcrypt_compare password hash = true)).
Proof.
  intros Hf Hemail He Hpassword Hp users known.
  split; [|split; [|split]].
  - intros fullName Hname Hn.
    destruct w as [d fsys fl c]; cbn in *; subst fl.
    unfold post_register. rewrite Hname, Hemail, Hpassword. cbn.
    rewrite !bool_decide_true by done. cbn.
    unfold bind, db_query; cbn. fold users known.
    split; intros Hknown.
    + by destruct known.
    + rewrite Hknown. cbn. eexists; split; [done|]. cbn.
      rewrite table_of_insert. reflexivity.
  - intros Hknown. rewrite (post_login_run _ _ email password) by done.
    fold users known. by rewrite Hknown.
  - intros user rest hash Hknown Hhash Hcmp.
    rewrite (post_login_run _ _ email password) by done.
    fold users known. by rewrite Hknown, Hhash, Hcmp.
  - rewrite (post_login_run _ _ email password) by done.
    fold users known. split.
    + intros [b Hb]. destruct known as [|user rest]; [done|].
      destruct (user !! "password") as [[| |hash]|] eqn:Hhash; try done.
      destruct (bcrypt_compare password hash) eqn:Hcmp; [|done].
      by exists user, rest, hash.
    + intros (user & rest & hash & -> & -> & ->). by eexists.
Qed.

(** X3: A user who has just registered logs in with the same password, as
    long as [bcrypt.compare] accepts a password against its own hash. *)
Lemma register_then_login (bcrypt_hash : string → string → string)
    (bcrypt_compare : string → string → bool) (salt : string) (req : request)
    (fullName email password : string) (w : world) :
  (∀ p s, bcrypt_compare p (bcrypt_hash p s) = true) →
  faults w = [] →
  body req !! "fullName" = Some fullName → fullName ≠ "" →
  body req !! "email" = Some email → email ≠ "" →
  body req !! "password" = Some password → password ≠ "" →
  filter (has_email email) (rows (table_of (db w) "users")) = [] →
  ∃ user w',
    post_login bcrypt_compare req (post_register bcrypt_hash salt req w).2
      = (Response 200 (login_successful user), w') ∧
    user !! "password" = Some (SqlStr (bcrypt_hash password salt)).
Proof.
  intros Hbcrypt Hf Hname Hn Hemail He Hpassword Hp Hnew.
  destruct w as [d fsys fl c]; cbn in *; subst fl.
  unfold post_register. rewrite Hname, Hemail, Hpassword. cbn.
  rewrite !bool_decide_true by done. cbn.
  unfold bind, db_query; cbn. rewrite Hnew. cbn.
  rewrite (post_login_run _ _ email password) by done. cbn.
  rewrite table_of_insert. cbn. rewrite filter_app, Hnew. cbn.
  rewrite decide_True by (unfold has_email; by simplify_map_eq).
  rewrite lookup_insert_ne by done. rewrite lookup_insert_ne by done.
  rewrite lookup_insert_ne by done. rewrite lookup_insert_eq.
  rewrite Hbcrypt. do 2 eexists. split; [done|]. by simplify_map_eq.
Qed.

(** C9: a successful login answers with the whole row of the user, as
    it is stored, in the member [user]; the stored bcrypt hash is among
    its members. *)
Theorem login_returns_stored_row (bcrypt_compare : string → string → bool)
    (req : request) (email password : string) (w : world)
    (user : row) (rest : list row) (hash : string) :
  faults w = [] →
  body req !! "email" = Some email → email ≠ "" →
  body req !! "password" = Some password → password ≠ "" →
  filter (has_email email) (rows (table_of (db w) "users")) = user :: rest →
  user !! "password" = Some (SqlStr hash) →
  bcrypt_compare password hash = true →
  post_login bcrypt_compare req w
    = (Response 200 (JObj [("message", JStr "Login successful");
                           ("user", json_of_row user)]), w) ∧
  user ∈ rows (table_of (db w) "users") ∧
  (∀ column value,
     user !! column = Some value →
     (column, json_of_sql value) ∈ members (json_of_row user)) ∧
  ("password", JStr hash) ∈ members (json_of_row user).
Proof.
  intros Hf Hemail He Hpassword Hp Hknown Hhash Hcmp.
  assert (∀ column value, user !! column = Some value →
            (column, json_of_sql value) ∈ members (json_of_row user)) as Hall.
  { intros column value Hcol. cbn.
    apply (list_elem_of_fmap_2 (prod_map id json_of_sql) _ (column, value)).
    by apply elem_of_map_to_list. }
  split; [|split; [|split]].
  - rewrite (post_login_run _ _ email password) by done.
    by rewrite Hknown, Hhash, Hcmp.
  - eapply list_elem_of_filter. rewrite Hknown. by left.
  - done.
  - by apply (Hall "password" (SqlStr hash)).
Qed.

Lemma register_and_login_example :
  let req := credentials "asha@example.com" "secret" in
  (faults one_user = [] ∧ body req !! "email" = Some "asha@example.com"
   ∧ body req !! "password" = Some "secret") ∧
  post_register toy_hash "NaCl" req one_user
    = (Response 400 (error "Email already in use"), one_user) ∧
  (∃ b, (post_login toy_compare req one_user).1 = Response 200 b) ∧
  post_login toy_compare (credentials "asha@example.com" "guess") one_user
    = (Response 400 invalid_credentials, one_user).
Proof.
  intros req.
  assert (body req !! "email" = Some "asha@example.com") as He
    by reflexivity.
  assert (body req !! "password" = Some "secret") as Hp by reflexivity.
  assert (body (credentials "asha@example.com" "guess") !! "email"
          = Some "asha@example.com") as He' by reflexivity.
  assert (body (credentials "asha@example.com" "guess") !! "password"
          = Some "guess") as Hp' by reflexivity.
  split; [done|].
  destruct (register_and_login toy_hash toy_compare "NaCl" req
              "asha@example.com" "secret" one_user eq_refl He
              ltac:(discriminate) Hp ltac:(discriminate))
    as (Hregister & _ & _ & Hlogin).
  destruct (register_and_login toy_hash toy_compare "NaCl"
              (credentials "asha@example.com" "guess")
              "asha@example.com" "guess" one_user eq_refl He'
              ltac:(discriminate) Hp' ltac:(discriminate))
    as (_ & _ & Hreject & _).
  split; [|split].
  - apply (Hregister "Asha Rao"); [reflexivity|discriminate|].
    intros H. apply (f_equal length) in H. vm_compute in H. discriminate.
  - apply Hlogin. exists asha, [], "NaCl:secret". repeat split; reflexivity.
  - apply (Hreject asha [] "NaCl:secret"); reflexivity.
Defined.

Lemma login_returns_stored_row_example :
  let req := credentials "asha@example.com" "secret" in
  (faults one_user = [] ∧ body req !! "email" = Some "asha@example.com"
   ∧ body req !! "password" = Some "secret"
   ∧ toy_compare "secret" "NaCl:secret" = true) ∧
  post_login toy_compare req one_user
    = (Response 200 (JObj [("message", JStr "Login successful");
                           ("user", json_of_row asha)]), one_user) ∧
  ("password", JStr "NaCl:secret") ∈ members (json_of_row asha).
Proof.
  intros req.
  assert (body req !! "email" = Some "asha@example.com") as He
    by reflexivity.
  assert (body req !! "password" = Some "secret") as Hp by reflexivity.
  assert (toy_compare "secret" "NaCl:secret" = true) as Hc by reflexivity.
  assert (filter (has_email "asha@example.com") (rows (table_of (db one_user) "users"))
          = [asha]) as Hrow by reflexivity.
  assert (asha !! "password" = Some (SqlStr "NaCl:secret")) as Hhash
    by reflexivity.
  split; [done|].
  destruct (login_returns_stored_row toy_compare req "asha@example.com" "secret"
              one_user asha [] "NaCl:secret" eq_refl He ltac:(discriminate)
              Hp ltac:(discriminate) Hrow Hhash Hc)
    as (H & _ & _ & Hmember).
  split; [exact H|exact Hmember].
Defined.

(** ** C10: updating an olympiad course without a file *)

(** C10: [PUT /olympiad/update-course/:id] without a file, when no
    statement fails, answers success and changes no file; a row of
    another id is left as it is; in a row of that id the column [image]
    is left as it is, each of the ten listed columns takes the value of
    the request (NULL when the request lacks it), and every other column
    is left as it is. *)
Theorem update_course_without_file_keeps_image (cwd : string) (id : Z)
    (req : request) (w : world) :
  faults w = [] → file req = None →
  ∃ w',
    put_olympiad_update_course_id cwd id req w
      = (Response 200 (message "Olympiad course updated successfully"), w') ∧
    fs w' = fs w ∧
    Forall2 (λ r r' : row,
               if decide (has_id id r) then
                 r' !! "image" = r !! "image" ∧
                 (∀ c, c ∈ olympiad_course_columns →
                       r' !! c = Some (to_sql (body req !! c))) ∧
                 (∀ c, c ∉ olympiad_course_columns → r' !! c = r !! c)
               else r' = r)
      (rows (table_of (db w) "uniquer_olympiad_courses"))
      (rows (table_of (db w') "uniquer_olympiad_courses")).
Proof.
  intros Hf Hfile. destruct w as [d fsys fl c]; cbn in *; subst fl.
  unfold put_olympiad_update_course_id, upload_single, bind. rewrite Hfile.
  cbn. unfold db_query; cbn.
  eexists; split; [done|]. cbn. split; [done|].
  rewrite table_of_insert. cbn.
  apply Forall2_fmap_r, Forall_Forall2_diag, Forall_forall.
  intros r _. cbn. case_decide; [|done].
  split; [by simplify_map_eq|]. split.
  - intros col Hcol. unfold olympiad_course_columns in Hcol.
    repeat (apply elem_of_cons in Hcol as [->|Hcol]; [by simplify_map_eq|]).
    by apply elem_of_nil in Hcol.
  - intros col Hcol. unfold olympiad_course_columns in Hcol.
    rewrite !lookup_insert_ne; [done|..];
      intros <-; apply Hcol; set_solver.
Qed.

Lemma update_course_without_file_keeps_image_example :
  let course : row :=
    {["id" := SqlInt 1; "name" := SqlStr "Maths Olympiad";
      "image" := SqlStr "/uploads/1600000000000.png"]} in
  let w := World {["uniquer_olympiad_courses" := Table [course] 2]} ∅ [] [] in
  let req := Request {["name" := "Science Olympiad"; "price" := "499"]} ∅ None 0 in
  (faults w = [] ∧ file req = None) ∧
  (put_olympiad_update_course_id "/srv/app" 1 req w).1
    = Response 200 (message "Olympiad course updated successfully") ∧
  ∃ r', rows (table_of (db (put_olympiad_update_course_id "/srv/app" 1 req w).2)
                "uniquer_olympiad_courses") = [r'] ∧
        r' !! "image" = Some (SqlStr "/uploads/1600000000000.png") ∧
        r' !! "name" = Some (SqlStr "Science Olympiad") ∧
        r' !! "price" = Some (SqlStr "499") ∧
        r' !! "weeks" = Some SqlNull.
Proof.
  intros course w req. split; [done|].
  destruct (update_course_without_file_keeps_image "/srv/app" 1 req w eq_refl eq_refl)
    as (w' & Hrun & _ & Hrows).
  rewrite Hrun. split; [done|]. cbn.
  change (rows (table_of (db w) "uniquer_olympiad_courses")) with [course] in Hrows.
  apply Forall2_cons_inv_l in Hrows as (r' & rest & Hr' & Hrest & ->).
  apply Forall2_nil_inv_l in Hrest as ->.
  rewrite decide_True in Hr' by reflexivity.
  destruct Hr' as (Himage & Hcols & _).
  exists r'. split; [done|].
  rewrite Himage, !Hcols by (unfold olympiad_course_columns; set_solver).
  repeat split; reflexivity.
Defined.

(** * Further properties *)

(** ** The router *)

Global Instance route_eq_dec : EqDecision route.
Proof. solve_decision. Defined.

Lemma find_first {A} (f : A → bool) (l : list A) (x : A) :
  List.find f l = Some x →
  ∃ k, l !! k = Some x ∧ f x = true ∧ Forall (λ y, f y = false) (take k l).
Proof.
  induction l as [|a l IH]; [done|]. cbn.
  destruct (f a) eqn:Ha.
  - intros [= <-]. exists 0%nat. by repeat split.
  - intros (k & Hk & Hx & Hbefore)%IH. exists (S k). repeat split; [done..|].
    cbn. by constructor.
Qed.

(** A route that comes after a route matching at least what it matches
    is never the first match. *)
Lemma find_skips_shadowed {A} (f : A → bool) (l : list A) (i j : nat) (a b x : A) :
  l !! i = Some a → (i < j)%nat → b ∉ take j l →
  (f b = true → f a = true) →
  List.find f l = Some x → x ≠ b.
Proof.
  intros Ha Hij Hb Hshadow (k & Hk & Hx & Hbefore)%find_first ->.
  assert (j ≤ k)%nat as Hjk.
  { destruct (decide (j ≤ k)%nat); [done|]. exfalso. apply Hb.
    apply list_elem_of_lookup. exists k. rewrite lookup_take_lt by lia. done. }
  rewrite Forall_forall in Hbefore.
  assert (f a = false) as Hfa.
  { apply Hbefore. apply list_elem_of_lookup. exists i.
    rewrite lookup_take_lt by lia. done. }
  rewrite Hshadow in Hfa; done.
Qed.

Lemma lower_nonempty (s : string) : lower s ≠ "" → s ≠ "".
Proof. by destruct s. Qed.

(** Whatever [/api/banner/delete] matches, [/api/banner/:id] matches. *)
Lemma banner_delete_is_banner_id (m : method) (path : string) :
  route_matches m path (Route DELETE "/api/banner/delete" 886) = true →
  route_matches m path (Route DELETE "/api/banner/:id" 156) = true.
Proof.
  unfold route_matches. cbn [route_method route_path].
  intros [Hm Hsegs]%andb_prop. rewrite Hm. cbn [andb].
  change (split_path "/api/banner/delete") with [""; "api"; "banner"; "delete"] in Hsegs.
  change (split_path "/api/banner/:id") with [""; "api"; "banner"; ":id"].
  destruct (strip_trailing_slash (split_path path))
    as [|s0 [|s1 [|s2 [|s3 [|s4 rest]]]]]; try done.
  all: cbn [segments_match] in *;
    repeat match goal with
           | H : _ && _ = true |- _ => apply andb_prop in H as [? ?]
           end; try done.
  repeat (apply andb_true_intro; split); try done.
  unfold segment_matches in *. cbn [is_param] in *.
  apply negb_true_iff, bool_decide_eq_false.
  apply lower_nonempty.
  match goal with
  | H : bool_decide (lower "delete" = lower s3) = true |- _ =>
      apply bool_decide_eq_true in H; rewrite <- H
  end.
  done.
Qed.

Lemma route_of_line_unique :
  Forall (λ b, Forall (λ x, route_line x = route_line b → x = b) routes) routes.
Proof. apply (bool_decide_unpack _). by vm_compute. Qed.

(** X1: Four routes never get a request: [DELETE /api/banner/delete] stands
    behind [DELETE /api/banner/:id], and the second [POST /add-course],
    [GET /courses] and [GET /olympiad/courses] stand behind the first
    ones.  Every other route answers at least the request for its own
    path. *)
Theorem dispatch_skips_shadowed_routes :
  (∀ m path line, dispatch m path = Some line → line ∉ shadowed_routes) ∧
  Forall (λ r, route_line r ∉ shadowed_routes →
               dispatch (route_method r) (route_path r) = Some (route_line r))
    routes.
Proof.
  split.
  - intros m path line Hline Hdead. unfold dispatch in Hline.
    destruct (List.find _ routes) as [x|] eqn:Hfind; [|done].
    injection Hline as <-.
    assert (x ∈ routes) as Hx.
    { apply find_first in Hfind as (k & Hk & _). by eapply list_elem_of_lookup_2. }
    pose proof route_of_line_unique as Huniq. rewrite Forall_forall in Huniq.
    unfold shadowed_routes in Hdead.
    repeat (apply elem_of_cons in Hdead as [Hdead|Hdead]);
      [..|by apply elem_of_nil in Hdead].
    + apply (find_skips_shadowed _ routes 4 49
               (Route DELETE "/api/banner/:id" 156)
               (Route DELETE "/api/banner/delete" 886) x) in Hfind;
        [|reflexivity|lia|by apply (bool_decide_unpack _); vm_compute
         |apply banner_delete_is_banner_id].
      apply Hfind.
      assert (Route DELETE "/api/banner/delete" 886 ∈ routes) as Hb
        by (by apply (bool_decide_unpack _); vm_compute).
      specialize (Huniq _ Hb). rewrite Forall_forall in Huniq.
      by apply Huniq.
    + apply (find_skips_shadowed _ routes 27 60
               (Route POST "/add-course" 505)
               (Route POST "/add-course" 1098) x) in Hfind;
        [|reflexivity|lia|by apply (bool_decide_unpack _); vm_compute|done].
      apply Hfind.
      assert (Route POST "/add-course" 1098 ∈ routes) as Hb
        by (by apply (bool_decide_unpack _); vm_compute).
      specialize (Huniq _ Hb). rewrite Forall_forall in Huniq.
      by apply Huniq.
    + apply (find_skips_shadowed _ routes 5 61
               (Route GET "/courses" 179)
               (Route GET "/courses" 1123) x) in Hfind;
        [|reflexivity|lia|by apply (bool_decide_unpack _); vm_compute|done].
      apply Hfind.
      assert (Route GET "/courses" 1123 ∈ routes) as Hb
        by (by apply (bool_decide_unpack _); vm_compute).
      specialize (Huniq _ Hb). rewrite Forall_forall in Huniq.
      by apply Huniq.
    + apply (find_skips_shadowed _ routes 63 72
               (Route GET "/olympiad/courses" 1152)
               (Route GET "/olympiad/courses" 1252) x) in Hfind;
        [|reflexivity|lia|by apply (bool_decide_unpack _); vm_compute|done].
      apply Hfind.
      assert (Route GET "/olympiad/courses" 1252 ∈ routes) as Hb
        by (by apply (bool_decide_unpack _); vm_compute).
      specialize (Huniq _ Hb). rewrite Forall_forall in Huniq.
      by apply Huniq.
  - apply (bool_decide_unpack _). by vm_compute.
Qed.

Lemma dispatch_skips_shadowed_routes_example :
  dispatch DELETE "/api/banner/delete" = Some 156%nat ∧
  156%nat ∉ shadowed_routes.
Proof.
  assert (dispatch DELETE "/api/banner/delete" = Some 156%nat) as H
    by reflexivity.
  split; [exact H|].
  exact (proj1 dispatch_skips_shadowed_routes DELETE "/api/banner/delete" 156%nat H).
Defined.

(** ** Users *)

(** X4: [POST /login] only reads: whatever the request, the stored rows and
    the scripted failures, it leaves the tables, the files and the
    console as they were; and a request without an email or without a
    password is refused before any statement runs. *)
Theorem post_login_only_reads (bcrypt_compare : string → string → bool)
    (req : request) (w : world) :
  db (post_login bcrypt_compare req w).2 = db w ∧
  fs (post_login bcrypt_compare req w).2 = fs w ∧
  console (post_login bcrypt_compare req w).2 = console w ∧
  (truthy (body req !! "email") = false ∨ truthy (body req !! "password") = false →
   post_login bcrypt_compare req w
     = (Response 400 (error "All fields are required"), w)).
Proof.
  assert (truthy (body req !! "email") = false
            ∨ truthy (body req !! "password") = false →
          post_login bcrypt_compare req w
            = (Response 400 (error "All fields are required"), w)) as Hrefused.
  { intros H. unfold post_login.
    destruct H as [-> | ->]; [done|]. by rewrite orb_true_r. }
  destruct (truthy (body req !! "email")) eqn:He;
    [|rewrite Hrefused by auto; done].
  destruct (truthy (body req !! "password")) eqn:Hp;
    [|rewrite Hrefused by auto; done].
  repeat split; [..|by intros [|]];
    unfold post_login; rewrite He, Hp; cbn;
    destruct w as [d f fl c]; unfold bind, db_query; cbn;
    destruct fl as [|[msg|] fl]; cbn; try done;
    destruct (filter _ _) as [|user rest]; try done;
    destruct (user !! "password") as [[| |hash]|]; try done;
    by destruct (bcrypt_compare _ hash).
Qed.

Lemma post_login_only_reads_example :
  let req := Request {["email" := "asha@example.org"]} ∅ None 0 in
  truthy (body req !! "password") = false ∧
  post_login toy_compare req one_user
    = (Response 400 (error "All fields are required"), one_user).
Proof.
  intros req.
  assert (truthy (body req !! "password") = false) as Hp by reflexivity.
  split; [exact Hp|].
  destruct (post_login_only_reads toy_compare req one_user) as (_ & _ & _ & H).
  apply H. by right.
Defined.

(** A user who has just registered logs in with the same password, as
    the example of the stand-in for bcrypt shows. *)
Lemma register_then_login_example :
  let req := credentials "ravi@example.com" "hunter2" in
  ((∀ p : string, toy_compare p (toy_hash p "NaCl") = true) ∧ faults one_user = [] ∧
   filter (has_email "ravi@example.com") (rows (table_of (db one_user) "users")) = []) ∧
  ∃ user w',
    post_login toy_compare req (post_register toy_hash "NaCl" req one_user).2
      = (Response 200 (login_successful user), w') ∧
    user !! "password" = Some (SqlStr "NaCl:hunter2").
Proof.
  intros req.
  assert (∀ p : string, toy_compare p (toy_hash p "NaCl") = true) as Hbcrypt.
  { intros p. unfold toy_compare, toy_hash. by apply bool_decide_eq_true. }
  assert (filter (has_email "ravi@example.com")
            (rows (table_of (db one_user) "users")) = []) as Hnew by reflexivity.
  split; [done|].
  apply (register_then_login (λ p _, toy_hash p "NaCl") toy_compare "NaCl" req
           "Asha Rao" "ravi@example.com" "hunter2" one_user);
    [intros p _; apply Hbcrypt|reflexivity|reflexivity|discriminate|reflexivity
    |discriminate|reflexivity|discriminate|exact Hnew].
Defined.

(** ** Courses *)

(** X5: [POST /courses] refuses nothing: whatever the body, when the
    statement does not fail it answers 201 with the new id and appends
    one row, with NULL in place of a field the request lacks. *)
Theorem post_courses_accepts_any_body (req : request) (w : world) :
  faults w = [] →
  let next := auto_increment (table_of (db w) "courses") in
  ∃ w' r,
    post_courses req w
      = (Response 201 (JObj ([("id", JNum next)] ++ member "name" (body req !! "name")
                               ++ member "description" (body req !! "description"))),
         w') ∧
    rows (table_of (db w') "courses") = rows (table_of (db w) "courses") ++ [r] ∧
    r !! "id" = Some (SqlInt next) ∧
    r !! "name" = Some (to_sql (body req !! "name")) ∧
    r !! "description" = Some (to_sql (body req !! "description")) ∧
    fs w' = fs w.
Proof.
  intros Hf next. destruct w as [d f fl c]; cbn in *; subst fl.
  unfold post_courses, bind, db_query; cbn.
  do 2 eexists. split; [done|]. cbn. rewrite table_of_insert. cbn.
  split; [done|]. by simplify_map_eq.
Qed.

Lemma post_courses_accepts_any_body_example :
  let req := Request {["name" := "Algebra"]} ∅ None 0 in
  faults no_faults = [] ∧
  ∃ (w' : world) (r : row),
    post_courses req no_faults
      = (Response 201 (JObj [("id", JNum 1); ("name", JStr "Algebra")]), w') ∧
    r !! "description" = Some SqlNull.
Proof.
  intros req. split; [done|].
  destruct (post_courses_accepts_any_body req no_faults eq_refl)
    as (w' & r & Hrun & _ & _ & _ & Hdescription & _).
  exists w', r. split; [exact Hrun|exact Hdescription].
Defined.

(** ** Student stories *)

Lemma delete_students_id_file_absent_example :
  let student : row :=
    {["id" := SqlInt 1; "name" := SqlStr "Asha";
      "photo" := SqlStr "/uploads/1600000000000.png"]} in
  let w := World {["students" := Table [student] 2]} ∅ [] [] in
  (faults w = [] ∧ fs w !! path_resolve "/srv/app" "./uploads/1600000000000.png" = None) ∧
  (delete_students_id "/srv/app" 1 w).1 = Uncaught "ENOENT" ∧
  db (delete_students_id "/srv/app" 1 w).2 = db w.
Proof.
  intros student w. split; [done|].
  apply (delete_students_id_file_absent "/srv/app" 1 w student []
           "/uploads/1600000000000.png"); [reflexivity..|discriminate|reflexivity].
Defined.

(** X7: [DELETE /students/:id] removes the photo before the row: when the
    [SELECT] succeeds and the [DELETE] statement fails, the answer is
    500, the photo is gone and the row is still there. *)
Theorem delete_students_id_row_outlives_photo (cwd : string) (id : Z)
    (w : world) (r0 : row) (rest : list row) (photo content msg : string)
    (later : list (option string)) :
  faults w = None :: Some msg :: later →
  filter (has_id id) (rows (table_of (db w) "students")) = r0 :: rest →
  r0 !! "photo" = Some (SqlStr photo) → photo ≠ "" →
  fs w !! path_resolve cwd ("." +:+ photo) = Some (File content) →
  (delete_students_id cwd id w).1 = Response 500 (error "Error deleting student") ∧
  db (delete_students_id cwd id w).2 = db w ∧
  fs (delete_students_id cwd id w).2 = delete (path_resolve cwd ("." +:+ photo)) (fs w).
Proof.
  intros Hf Hrow Hphoto Hne Hfile.
  destruct w as [d f fl c]; cbn in *; subst fl.
  unfold delete_students_id, bind, db_query; cbn.
  rewrite Hrow, Hphoto; cbn. rewrite bool_decide_true by done.
  unfold fs_unlink; cbn. by rewrite Hfile.
Qed.

Lemma delete_students_id_row_outlives_photo_example :
  let student : row :=
    {["id" := SqlInt 1; "name" := SqlStr "Asha";
      "photo" := SqlStr "/uploads/1600000000000.png"]} in
  let w := World {["students" := Table [student] 2]}
                 {["/srv/app/uploads/1600000000000.png" := File "PNG"]}
                 [None; Some "ER_LOCK_WAIT_TIMEOUT"] [] in
  (faults w = [None; Some "ER_LOCK_WAIT_TIMEOUT"]
   ∧ fs w !! path_resolve "/srv/app" "./uploads/1600000000000.png" = Some (File "PNG")) ∧
  (delete_students_id "/srv/app" 1 w).1
    = Response 500 (error "Error deleting student") ∧
  fs (delete_students_id "/srv/app" 1 w).2
    = delete (path_resolve "/srv/app" "./uploads/1600000000000.png") (fs w).
Proof.
  intros student w. split; [done|].
  destruct (delete_students_id_row_outlives_photo "/srv/app" 1 w student []
              "/uploads/1600000000000.png" "PNG" "ER_LOCK_WAIT_TIMEOUT" [])
    as (H1 & _ & H2); [reflexivity..|discriminate|reflexivity|].
  split; [exact H1|exact H2].
Defined.

(** ** The current banner *)

(** X8: [POST /api/banner/upload] is not one step: when the file is
    stored in the upload directory, the [DELETE] succeeds and the
    [INSERT] fails, the answer is 500, the old rows
    are gone, no row is stored and the new file is in the upload
    directory. *)
Theorem post_api_banner_upload_insert_fails (cwd : string) (req : request)
    (f : upload) (w : world) (msg : string) (later : list (option string)) :
  faults w = None :: Some msg :: later → file req = Some f →
  fs w !! upload_dir cwd = Some Dir →
  fs w !! upload_key cwd req f ≠ Some Dir →
  (post_api_banner_upload cwd req w).1 = Response 500 (error "Failed to save image") ∧
  rows (table_of (db (post_api_banner_upload cwd req w).2) "banner") = [] ∧
  fs (post_api_banner_upload cwd req w).2
    = <[upload_key cwd req f := File (data f)]> (fs w).
Proof.
  intros Hf Hfile Hdir Hk. destruct w as [d fsys fl c]; cbn in *; subst fl.
  unfold post_api_banner_upload, upload_single, bind. rewrite Hfile.
  rewrite multer_store_ok by done. cbn.
  unfold db_query; cbn. rewrite table_of_insert. cbn.
  by rewrite filter_not_any_row.
Qed.

Lemma post_api_banner_upload_insert_fails_example :
  let old : row := {["id" := SqlInt 1; "image_path" := SqlStr "uploads/1600000000000.png"]} in
  let f := Upload "new.png" "NEW" in
  let req := Request ∅ ∅ (Some f) 1700000000000 in
  let w := World {["banner" := Table [old] 2]} (fs started) [None; Some "ER_DATA_TOO_LONG"] [] in
  (faults w = [None; Some "ER_DATA_TOO_LONG"] ∧ file req = Some f
   ∧ fs w !! upload_dir "/srv/app" = Some Dir
   ∧ fs w !! upload_key "/srv/app" req f ≠ Some Dir) ∧
  (post_api_banner_upload "/srv/app" req w).1
    = Response 500 (error "Failed to save image") ∧
  rows (table_of (db (post_api_banner_upload "/srv/app" req w).2) "banner") = [].
Proof.
  intros old f req w.
  assert (fs w !! upload_dir "/srv/app" = Some Dir) as Hdir by reflexivity.
  assert (fs w !! upload_key "/srv/app" req f ≠ Some Dir) as Hk by (by vm_compute).
  split; [done|].
  destruct (post_api_banner_upload_insert_fails "/srv/app" req f w
              "ER_DATA_TOO_LONG" [] eq_refl eq_refl Hdir Hk) as (H1 & H2 & _).
  split; [exact H1|exact H2].
Defined.

(** X9: With the upload directory in place and no failing statement,
    [POST /api/banner/upload] succeeds, and [GET /api/banner] then
    answers the URL the upload answered. *)
Theorem banner_upload_then_get (cwd : string) (req : request) (f : upload)
    (w : world) :
  faults w = [] → file req = Some f →
  fs w !! upload_dir cwd = Some Dir →
  fs w !! upload_key cwd req f ≠ Some Dir →
  let url := "http://localhost:5000/" +:+ "uploads/" +:+ multer_filename req f in
  let w1 := (post_api_banner_upload cwd req w).2 in
  (post_api_banner_upload cwd req w).1
    = Response 200 (JObj [("message", JStr "Banner uploaded successfully");
                          ("imagePath", JStr url)]) ∧
  get_api_banner w1 = (Response 200 (JObj [("image_path", JStr url)]), w1).
Proof.
  intros Hf Hfile Hdir Hk url w1.
  destruct (post_api_banner_upload_run cwd req f w Hf Hfile Hdir Hk)
    as (w' & Hrun & Hf' & Hrows & _).
  subst w1. rewrite Hrun. split; [done|]. cbn.
  unfold get_api_banner, bind. rewrite db_query_run by done.
  rewrite Hrows, set_db_id. cbn. unfold banner_row. by simplify_map_eq.
Qed.

Lemma banner_upload_then_get_example :
  let f := Upload "hero.jpg" "JPG" in
  let req := Request ∅ ∅ (Some f) 1700000000000 in
  (faults started = [] ∧ file req = Some f
   ∧ fs started !! upload_dir "/srv/app" = Some Dir
   ∧ fs started !! upload_key "/srv/app" req f ≠ Some Dir) ∧
  (get_api_banner (post_api_banner_upload "/srv/app" req started).2).1
    = Response 200 (JObj [("image_path",
                           JStr "http://localhost:5000/uploads/1700000000000.jpg")]).
Proof.
  intros f req.
  assert (fs started !! upload_dir "/srv/app" = Some Dir) as Hdir by reflexivity.
  assert (fs started !! upload_key "/srv/app" req f ≠ Some Dir) as Hk
    by (by vm_compute).
  split; [done|].
  destruct (banner_upload_then_get "/srv/app" req f started eq_refl eq_refl Hdir Hk)
    as [_ ->].
  reflexivity.
Defined.

(** ** Titles *)

Lemma filter_nil_Forall {A} (P : A → Prop) `{!∀ x, Decision (P x)} (l : list A) :
  filter P l = [] → Forall (λ x, ¬ P x) l.
Proof.
  induction l as [|x l IH]; [by constructor|].
  rewrite filter_cons. case_decide; [done|]. intros Hl. constructor; auto.
Qed.

Lemma update_set_rows (t : string) (cols : list (string * sqlval))
    (p : row → Prop) `{!∀ r, Decision (p r)} (d d' : gmap string table) :
  update_set t cols p d = inr (tt, d') →
  rows (table_of d' t)
    = (λ r, if decide (p r) then set_columns cols r else r) <$> rows (table_of d t).
Proof. unfold update_set. intros [= <-]. by rewrite table_of_insert. Qed.

(** [POST /api/title] with a title and a subtitle, when the statement
    does not fail. *)
Lemma post_api_title_run (req : request) (title subtitle : string) (w : world) :
  faults w = [] →
  body req !! "title" = Some title → title ≠ "" →
  body req !! "subtitle" = Some subtitle → subtitle ≠ "" →
  ∃ w',
    post_api_title req w = (Response 200 (message "Title updated successfully!"), w') ∧
    faults w' = [] ∧
    rows (table_of (db w') "titles")
      = (λ r, if decide (has_id 1 r)
              then <["subtitle" := SqlStr subtitle]> (<["title" := SqlStr title]> r)
              else r) <$> rows (table_of (db w) "titles").
Proof.
  intros Hf Ht Hte Hs Hse. destruct w as [d f fl c]; cbn in *; subst fl.
  unfold post_api_title. rewrite Ht, Hs. cbn. rewrite !bool_decide_true by done.
  cbn. unfold bind, db_query; cbn. eexists. split; [done|]. cbn.
  by rewrite table_of_insert.
Qed.

(** X10: The handlers of [/api/title] keep the table empty or at the one row
    of id 1, whatever the request and whatever fails; and after a
    [GET /api/title] whose statements do not fail the table is not
    empty. *)
Theorem titles_stay_single (req : request) (w : world) :
  titles_ok (db w) →
  titles_ok (db (get_api_title w).2) ∧
  titles_ok (db (post_api_title req w).2) ∧
  (faults w = [] → rows (table_of (db (get_api_title w).2) "titles") ≠ []).
Proof.
  intros Hok. destruct w as [d f fl c]; cbn in *.
  assert (titles_ok (db (get_api_title (World d f fl c)).2)
          ∧ (fl = [] → rows (table_of (db (get_api_title (World d f fl c)).2) "titles")
                         ≠ [])) as [Hget Hfull].
  { unfold get_api_title, bind, db_query; cbn.
    destruct Hok as [Hrows|(r & Hrows & Hid)].
    - assert (¬ Exists (has_id 1) (rows (table_of d "titles"))) as Hnone
        by (rewrite Hrows; by intros ?%Exists_nil).
      destruct fl as [|[msg|] [|[msg'|] fl]]; cbn; rewrite ?Hrows; cbn;
        unfold titles_ok, insert_with_id; cbn;
        rewrite ?decide_False by done; cbn;
        rewrite ?table_of_insert, ?Hrows; cbn;
        (split; [|done]); try (by left); right; by eexists.
    - destruct fl as [|[msg|] fl]; cbn; rewrite ?Hrows; cbn;
        unfold titles_ok; cbn; rewrite ?Hrows;
        (split; [|done]); right; by eexists. }
  split; [done|]. split; [|done].
  unfold post_api_title.
  destruct (negb _ || negb _); [done|].
  unfold bind, db_query; cbn.
  destruct fl as [|[msg|] fl]; cbn; try done;
    unfold titles_ok; rewrite table_of_insert; cbn;
    (destruct Hok as [Hrows|(r & Hrows & Hid)]; rewrite Hrows; cbn;
     [by left|right; rewrite decide_True by done; eexists; split; [done|];
              unfold has_id in *; by simplify_map_eq]).
Qed.

Lemma titles_stay_single_example :
  titles_ok (db no_faults) ∧
  rows (table_of (db (get_api_title no_faults).2) "titles") = [default_title_row].
Proof.
  assert (titles_ok (db no_faults)) as Hok by (by left).
  split; [exact Hok|].
  destruct (titles_stay_single (Request ∅ ∅ None 0) no_faults Hok)
    as ([Hrows|(r & Hrows & _)] & _ & Hfull).
  - by destruct (Hfull eq_refl).
  - reflexivity.
Defined.

(** X11: A title posted before the table has its row is lost:
    [POST /api/title] on the empty table answers success and stores
    nothing, and the next [GET /api/title] answers the default title. *)
Theorem post_api_title_on_empty_table_is_lost (req : request)
    (title subtitle : string) (w : world) :
  faults w = [] →
  body req !! "title" = Some title → title ≠ "" →
  body req !! "subtitle" = Some subtitle → subtitle ≠ "" →
  rows (table_of (db w) "titles") = [] →
  let w1 := (post_api_title req w).2 in
  (post_api_title req w).1 = Response 200 (message "Title updated successfully!") ∧
  rows (table_of (db w1) "titles") = [] ∧
  (get_api_title w1).1
    = Response 200 (JObj [("title", JStr "Default Title");
                          ("subtitle", JStr "Default Subtitle")]).
Proof.
  intros Hf Ht Hte Hs Hse Hrows w1.
  destruct (post_api_title_run req title subtitle w) as (w' & Hrun & Hf' & Hrows');
    [done..|].
  subst w1. rewrite Hrun. cbn. rewrite Hrows in Hrows'. cbn in Hrows'.
  split; [done|]. split; [done|].
  destruct w' as [d' f' fl' c']; cbn in *; subst fl'.
  unfold get_api_title, bind, db_query; cbn. rewrite Hrows'. cbn.
  unfold insert_with_id. rewrite Hrows'.
  by rewrite decide_False by (by intros ?%Exists_nil).
Qed.

Lemma post_api_title_on_empty_table_is_lost_example :
  let req := Request {["title" := "JEE 2025"; "subtitle" := "Crash course"]} ∅ None 0 in
  (faults no_faults = [] ∧ body req !! "title" = Some "JEE 2025"
   ∧ body req !! "subtitle" = Some "Crash course"
   ∧ rows (table_of (db no_faults) "titles") = []) ∧
  (get_api_title (post_api_title req no_faults).2).1
    = Response 200 (JObj [("title", JStr "Default Title");
                          ("subtitle", JStr "Default Subtitle")]).
Proof.
  intros req.
  assert (body req !! "title" = Some "JEE 2025") as Ht by reflexivity.
  assert (body req !! "subtitle" = Some "Crash course") as Hs by reflexivity.
  split; [done|].
  destruct (post_api_title_on_empty_table_is_lost req "JEE 2025" "Crash course"
              no_faults eq_refl Ht ltac:(discriminate) Hs ltac:(discriminate) eq_refl)
    as (_ & _ & H).
  exact H.
Defined.

(** X12: Once the table has its row, a posted title is what the next
    [GET /api/title] answers: from a table that is empty or holds the
    row of id 1, [GET], [POST], [GET] ends with the posted title and
    subtitle. *)
Theorem title_posted_then_read (req : request) (title subtitle : string)
    (w : world) :
  faults w = [] → titles_ok (db w) →
  body req !! "title" = Some title → title ≠ "" →
  body req !! "subtitle" = Some subtitle → subtitle ≠ "" →
  let w1 := (get_api_title w).2 in
  let w2 := (post_api_title req w1).2 in
  (get_api_title w2).1 = Response 200 (title_json title subtitle).
Proof.
  intros Hf Hok Ht Hte Hs Hse w1 w2.
  assert (faults w1 = [] ∧ ∃ r, rows (table_of (db w1) "titles") = [r] ∧ has_id 1 r)
    as (Hf1 & r & Hrows1 & Hid).
  { subst w1. destruct w as [d f fl c]; cbn in *; subst fl.
    unfold get_api_title, bind, db_query; cbn.
    destruct Hok as [Hrows|(r & Hrows & Hid)]; rewrite Hrows; cbn.
    - unfold insert_with_id. rewrite Hrows.
      rewrite decide_False by (by intros ?%Exists_nil). cbn.
      split; [done|]. rewrite table_of_insert. cbn. by eexists.
    - split; [done|]. rewrite Hrows. by eexists. }
  destruct (post_api_title_run req title subtitle w1) as (w' & Hrun & Hf' & Hrows');
    [done..|].
  subst w2. rewrite Hrun. cbn. rewrite Hrows1 in Hrows'. cbn in Hrows'.
  rewrite decide_True in Hrows' by done.
  destruct w' as [d' f' fl' c']; cbn in *; subst fl'.
  unfold get_api_title, bind, db_query; cbn. rewrite Hrows'. cbn.
  unfold title_json, project. cbn. by simplify_map_eq.
Qed.

Lemma title_posted_then_read_example :
  let req := Request {["title" := "JEE 2025"; "subtitle" := "Crash course"]} ∅ None 0 in
  (faults no_faults = [] ∧ titles_ok (db no_faults)
   ∧ body req !! "title" = Some "JEE 2025"
   ∧ body req !! "subtitle" = Some "Crash course") ∧
  (get_api_title (post_api_title req (get_api_title no_faults).2).2).1
    = Response 200 (title_json "JEE 2025" "Crash course").
Proof.
  intros req.
  assert (titles_ok (db no_faults)) as Hok by (by left).
  assert (body req !! "title" = Some "JEE 2025") as Ht by reflexivity.
  assert (body req !! "subtitle" = Some "Crash course") as Hs by reflexivity.
  split; [done|].
  exact (title_posted_then_read req "JEE 2025" "Crash course" no_faults eq_refl Hok
           Ht ltac:(discriminate) Hs ltac:(discriminate)).
Defined.

(** ** Olympiad students *)

(** X13: [PUT /api/students/:id] without a file writes [req.body.image] into
    the column [image], and NULL when the request has no such field:
    unlike [PUT /olympiad/update-course/:id], an update that sends no
    image erases the stored reference.  The other rows and the files
    are left as they are. *)
Theorem put_api_students_id_without_file (cwd : string) (id : Z)
    (req : request) (w : world) :
  faults w = [] → file req = None →
  ∃ w',
    put_api_students_id cwd id req w
      = (Response 200 (message "Student updated successfully"), w') ∧
    fs w' = fs w ∧
    Forall2 (λ r r' : row,
               if decide (has_id id r) then
                 r' !! "image" = Some (to_sql (body req !! "image")) ∧
                 r' !! "name" = Some (to_sql (body req !! "name")) ∧
                 r' !! "rank" = Some (to_sql (body req !! "rank")) ∧
                 (∀ c, c ∉ ["name"; "rank"; "image"] → r' !! c = r !! c)
               else r' = r)
      (rows (table_of (db w) "olympiad_students"))
      (rows (table_of (db w') "olympiad_students")).
Proof.
  intros Hf Hfile. destruct w as [d fsys fl c]; cbn in *; subst fl.
  unfold put_api_students_id, upload_single, bind. rewrite Hfile.
  cbn. unfold db_query; cbn.
  eexists; split; [done|]. cbn. split; [done|].
  rewrite table_of_insert. cbn.
  apply Forall2_fmap_r, Forall_Forall2_diag, Forall_forall.
  intros r _. cbn. case_decide; [|done].
  repeat split; try by simplify_map_eq.
  intros col Hcol.
  rewrite !lookup_insert_ne; [done|..]; intros <-; apply Hcol; set_solver.
Qed.

Lemma put_api_students_id_without_file_example :
  let student : row :=
    {["id" := SqlInt 1; "name" := SqlStr "Asha"; "rank" := SqlStr "3";
      "image" := SqlStr "/uploads/1600000000000.png"]} in
  let w := World {["olympiad_students" := Table [student] 2]} ∅ [] [] in
  let req := Request {["name" := "Asha"; "rank" := "1"]} ∅ None 0 in
  (faults w = [] ∧ file req = None) ∧
  ∃ r', rows (table_of (db (put_api_students_id "/srv/app" 1 req w).2)
                "olympiad_students") = [r'] ∧
        r' !! "image" = Some SqlNull ∧ r' !! "rank" = Some (SqlStr "1").
Proof.
  intros student w req. split; [done|].
  destruct (put_api_students_id_without_file "/srv/app" 1 req w eq_refl eq_refl)
    as (w' & Hrun & _ & Hrows).
  rewrite Hrun. cbn.
  change (rows (table_of (db w) "olympiad_students")) with [student] in Hrows.
  apply Forall2_cons_inv_l in Hrows as (r' & rest & Hr' & Hrest & ->).
  apply Forall2_nil_inv_l in Hrest as ->.
  rewrite decide_True in Hr' by reflexivity.
  destruct Hr' as (Himage & _ & Hrank & _).
  exists r'. split; [done|]. rewrite Himage, Hrank. split; reflexivity.
Defined.

(** X14: An update of an id that no row has is not refused: with the
    upload directory in place and no failing statement,
    [PUT /api/students/:id] answers success, changes no row, and the
    file that came with the request stays in the upload directory,
    referred to by no row of the table. *)
Theorem put_api_students_id_missing_row (cwd : string) (id : Z) (req : request)
    (f : upload) (w : world) :
  faults w = [] → file req = Some f →
  fs w !! upload_dir cwd = Some Dir →
  fs w !! upload_key cwd req f ≠ Some Dir →
  filter (has_id id) (rows (table_of (db w) "olympiad_students")) = [] →
  let w' := (put_api_students_id cwd id req w).2 in
  (put_api_students_id cwd id req w).1
    = Response 200 (message "Student updated successfully") ∧
  rows (table_of (db w') "olympiad_students")
    = rows (table_of (db w) "olympiad_students") ∧
  fs w' = <[upload_key cwd req f := File (data f)]> (fs w).
Proof.
  intros Hf Hfile Hdir Hk Hnone w'. subst w'.
  destruct w as [d fsys fl c]; cbn in *; subst fl.
  unfold put_api_students_id, upload_single, bind. rewrite Hfile.
  rewrite multer_store_ok by done. cbn.
  unfold db_query; cbn. split; [done|]. split; [|done].
  rewrite table_of_insert. cbn.
  apply filter_nil_Forall in Hnone.
  induction Hnone as [|r l Hr Hl IH]; [done|].
  cbn. rewrite decide_False by done. by rewrite IH.
Qed.

Lemma put_api_students_id_missing_row_example :
  let f := Upload "new.png" "NEW" in
  let req := Request {["name" := "Asha"; "rank" := "1"]} ∅ (Some f) 1700000000000 in
  (faults started = [] ∧ file req = Some f
   ∧ fs started !! upload_dir "/srv/app" = Some Dir
   ∧ fs started !! upload_key "/srv/app" req f ≠ Some Dir
   ∧ filter (has_id 9) (rows (table_of (db started) "olympiad_students")) = []) ∧
  (put_api_students_id "/srv/app" 9 req started).1
    = Response 200 (message "Student updated successfully") ∧
  fs (put_api_students_id "/srv/app" 9 req started).2
    !! "/srv/app/uploads/1700000000000.png" = Some (File "NEW").
Proof.
  intros f req.
  assert (fs started !! upload_dir "/srv/app" = Some Dir) as Hdir by reflexivity.
  assert (fs started !! upload_key "/srv/app" req f ≠ Some Dir) as Hk
    by (by vm_compute).
  split; [done|].
  destruct (put_api_students_id_missing_row "/srv/app" 9 req f started
              eq_refl eq_refl Hdir Hk eq_refl) as (H1 & _ & H2).
  split; [exact H1|]. rewrite H2. reflexivity.
Defined.

(** ** Listing banners *)

Global Instance id_desc_total : Total id_desc.
Proof. intros a b. unfold id_desc. lia. Qed.

Global Instance id_desc_trans : Transitive id_desc.
Proof. intros a b c. unfold id_desc. lia. Qed.

Lemma has_id_row_id (id : Z) (r : row) : has_id id r → row_id r = id.
Proof. unfold has_id, row_id. by intros ->. Qed.

(** A row whose id is above all the others comes first under
    [ORDER BY id DESC]. *)
Lemma order_by_id_desc_snoc (rs : list row) (new : row) :
  Forall (λ r, row_id r < row_id new) rs →
  ∃ rest, order_by_id_desc (rs ++ [new]) = new :: rest ∧ rest ≡ₚ rs.
Proof.
  intros Hlt. unfold order_by_id_desc.
  pose proof (merge_sort_Permutation id_desc (rs ++ [new])) as Hperm.
  pose proof (StronglySorted_merge_sort id_desc (rs ++ [new])) as Hsorted.
  destruct (merge_sort id_desc (rs ++ [new])) as [|x rest].
  { apply Permutation_nil_l in Hperm. by destruct rs. }
  assert (x = new) as ->.
  { assert (x ∈ rs ++ [new]) as Hx by (rewrite <- Hperm; by left).
    apply elem_of_app in Hx as [Hx|Hx]; [|by apply list_elem_of_singleton in Hx].
    exfalso. rewrite Forall_forall in Hlt. apply Hlt in Hx.
    assert (new ∈ x :: rest) as Hnew
      by (rewrite Hperm; apply elem_of_app; right; by left).
    apply elem_of_cons in Hnew as [->|Hnew]; [lia|].
    apply StronglySorted_inv in Hsorted as [_ Hall].
    rewrite Forall_forall in Hall. apply Hall in Hnew.
    unfold id_desc in Hnew. lia. }
  exists rest. split; [done|].
  apply (Permutation_cons_inv (a := new)).
  rewrite Hperm. by rewrite Permutation_app_comm.
Qed.

(** [POST /api/banner] with a text and an image, when nothing fails. *)
Lemma post_api_banner_run (cwd : string) (req : request) (f : upload)
    (text : string) (w : world) :
  faults w = [] → file req = Some f →
  body req !! "text" = Some text → text ≠ "" →
  fs w !! upload_dir cwd = Some Dir →
  fs w !! upload_key cwd req f ≠ Some Dir →
  let next := auto_increment (table_of (db w) "banners") in
  ∃ w',
    post_api_banner cwd req w
      = (Response 200 (JObj [
           ("message", JStr "Banner saved successfully!");
           ("banner", JObj [("id", JNum next); ("text", JStr text);
                            ("imageUrl", JStr ("/uploads/" +:+ multer_filename req f))])]),
         w') ∧
    faults w' = [] ∧
    rows (table_of (db w') "banners")
      = rows (table_of (db w) "banners")
          ++ [banners_row next text (multer_filename req f)] ∧
    fs w' = <[upload_key cwd req f := File (data f)]> (fs w).
Proof.
  intros Hf Hfile Htext Hne Hdir Hk next. destruct w as [d fsys fl c]; cbn in *; subst fl.
  unfold post_api_banner, upload_single, bind. rewrite Hfile.
  rewrite multer_store_ok by done. cbn. rewrite Htext. cbn.
  rewrite bool_decide_true by done. cbn.
  rewrite bool_decide_true by apply uploads_url_ne. cbn.
  unfold db_query; cbn. eexists. split; [done|]. cbn.
  by rewrite table_of_insert.
Qed.

(** X15: A banner that has just been created, its file stored in the
    upload directory, is the first of the list [GET /api/banners]
    answers, and the banners that were there follow it. *)
Theorem created_banner_is_listed_first (cwd : string) (req : request)
    (f : upload) (text : string) (w : world) :
  faults w = [] → file req = Some f →
  body req !! "text" = Some text → text ≠ "" →
  fs w !! upload_dir cwd = Some Dir →
  fs w !! upload_key cwd req f ≠ Some Dir →
  ids_below_next (table_of (db w) "banners") →
  let next := auto_increment (table_of (db w) "banners") in
  let w1 := (post_api_banner cwd req w).2 in
  ∃ rest,
    (get_api_banners w1).1
      = Response 200 (JArr (json_of_row (banners_row next text (multer_filename req f))
                              :: (json_of_row <$> rest))) ∧
    rest ≡ₚ rows (table_of (db w) "banners").
Proof.
  intros Hf Hfile Htext Hne Hdir Hk Hids next w1.
  destruct (post_api_banner_run cwd req f text w) as (w' & Hrun & Hf' & Hrows & _);
    [done..|].
  subst w1. rewrite Hrun. cbn.
  destruct (order_by_id_desc_snoc (rows (table_of (db w) "banners"))
              (banners_row next text (multer_filename req f))) as (rest & Hsort & Hperm).
  { eapply Forall_impl; [exact Hids|]. intros r Hr. cbn in Hr.
    replace (row_id (banners_row _ _ _)) with next; [done|].
    symmetry. apply has_id_row_id. unfold has_id, banners_row. by simplify_map_eq. }
  exists rest. split; [|done].
  unfold get_api_banners, bind. rewrite db_query_run by done.
  unfold select_order_by_id_desc. rewrite Hrows. subst next.
  by rewrite Hsort.
Qed.

Lemma created_banner_is_listed_first_example :
  let old : row := banners_row 1 "Old" "1600000000000.png" in
  let w := World {["banners" := Table [old] 2]} (fs started) [] [] in
  let f := Upload "sale.png" "PNG" in
  let req := Request {["text" := "Sale"]} ∅ (Some f) 1700000000000 in
  (faults w = [] ∧ file req = Some f ∧ body req !! "text" = Some "Sale"
   ∧ fs w !! upload_dir "/srv/app" = Some Dir
   ∧ fs w !! upload_key "/srv/app" req f ≠ Some Dir
   ∧ ids_below_next (table_of (db w) "banners")) ∧
  ∃ rest,
    (get_api_banners (post_api_banner "/srv/app" req w).2).1
      = Response 200 (JArr (json_of_row (banners_row 2 "Sale" "1700000000000.png")
                              :: (json_of_row <$> rest))) ∧
    rest ≡ₚ [old].
Proof.
  intros old w f req.
  assert (body req !! "text" = Some "Sale") as Htext by reflexivity.
  assert (fs w !! upload_dir "/srv/app" = Some Dir) as Hdir by reflexivity.
  assert (fs w !! upload_key "/srv/app" req f ≠ Some Dir) as Hk by (by vm_compute).
  assert (ids_below_next (table_of (db w) "banners")) as Hids.
  { repeat constructor. }
  split; [done|].
  exact (created_banner_is_listed_first "/srv/app" req f "Sale" w eq_refl eq_refl
           Htext ltac:(discriminate) Hdir Hk Hids).
Defined.

Lemma filter_has_id_next (rs : list row) (next : Z) :
  Forall (λ r, row_id r < next) rs → filter (has_id next) rs = [].
Proof.
  induction 1 as [|r rs Hr _ IH]; [done|].
  rewrite filter_cons, decide_False; [done|].
  intros ?%has_id_row_id. lia.
Qed.

(** X16: A banner created through [POST /api/banner], its file stored in
    the upload directory, and deleted through [DELETE /api/banner/:id]
    with the id it was given leaves the table
    with the rows it had, and [GET /api/banners] answers what it
    answered before the two requests. *)
Theorem banner_created_then_deleted (cwd dirname : string) (req : request)
    (f : upload) (text : string) (w : world) :
  faults w = [] → file req = Some f →
  body req !! "text" = Some text → text ≠ "" →
  fs w !! upload_dir cwd = Some Dir →
  fs w !! upload_key cwd req f ≠ Some Dir →
  ids_below_next (table_of (db w) "banners") →
  let next := auto_increment (table_of (db w) "banners") in
  let w1 := (post_api_banner cwd req w).2 in
  let w2 := (delete_api_banner_id cwd dirname next w1).2 in
  (delete_api_banner_id cwd dirname next w1).1
    = Response 200 (message "Banner deleted successfully!") ∧
  rows (table_of (db w2) "banners") = rows (table_of (db w) "banners") ∧
  (get_api_banners w2).1 = (get_api_banners w).1.
Proof.
  intros Hf Hfile Htext Hne Hdir Hk Hids next w1 w2.
  destruct (post_api_banner_run cwd req f text w) as (w' & Hrun & Hf' & Hrows & _);
    [done..|].
  assert (w1 = w') as -> by (unfold w1; by rewrite Hrun).
  fold next in Hrows.
  assert (filter (has_id next) (rows (table_of (db w') "banners"))
          = [banners_row next text (multer_filename req f)]) as Hfound.
  { rewrite Hrows, filter_app, filter_has_id_next by done.
    rewrite filter_cons, decide_True; [done|].
    unfold has_id, banners_row. by simplify_map_eq. }
  assert (filter (λ r, ¬ has_id next r) (rows (table_of (db w') "banners"))
          = rows (table_of (db w) "banners")) as Hleft.
  { rewrite Hrows, filter_app, filter_not_id by (by apply filter_has_id_next).
    rewrite filter_cons, decide_False, app_nil_r; [done|].
    intros Hnot. apply Hnot. unfold has_id, banners_row. by simplify_map_eq. }
  assert ((delete_api_banner_id cwd dirname next w').1
            = Response 200 (message "Banner deleted successfully!")
          ∧ faults w2 = []
          ∧ rows (table_of (db w2) "banners") = rows (table_of (db w) "banners"))
    as (Hout & Hf2 & Hrows2).
  { subst w2. rewrite delete_api_banner_id_run by done. rewrite Hfound.
    assert (banners_row next text (multer_filename req f) !! "image_url"
            = Some (SqlStr ("/uploads/" +:+ multer_filename req f))) as ->
      by (unfold banners_row; by simplify_map_eq).
    cbn. split; [done|].
    destruct (fs w' !! _) as [[]|]; cbn; unfold without_rows;
      rewrite table_of_insert; cbn; by rewrite Hleft, ?Hf'. }
  split; [done|]. split; [done|].
  unfold get_api_banners, bind. rewrite !db_query_run by done.
  unfold select_order_by_id_desc. by rewrite Hrows2.
Qed.

Lemma banner_created_then_deleted_example :
  let old : row := banners_row 1 "Old" "1600000000000.png" in
  let w := World {["banners" := Table [old] 2]} (fs started) [] [] in
  let f := Upload "sale.png" "PNG" in
  let req := Request {["text" := "Sale"]} ∅ (Some f) 1700000000000 in
  (faults w = [] ∧ file req = Some f ∧ body req !! "text" = Some "Sale"
   ∧ fs w !! upload_dir "/srv/app" = Some Dir
   ∧ fs w !! upload_key "/srv/app" req f ≠ Some Dir
   ∧ ids_below_next (table_of (db w) "banners")) ∧
  rows (table_of (db (delete_api_banner_id "/srv/app" "/srv/app" 2
                        (post_api_banner "/srv/app" req w).2).2) "banners")
    = [old].
Proof.
  intros old w f req.
  assert (body req !! "text" = Some "Sale") as Htext by reflexivity.
  assert (fs w !! upload_dir "/srv/app" = Some Dir) as Hdir by reflexivity.
  assert (fs w !! upload_key "/srv/app" req f ≠ Some Dir) as Hk by (by vm_compute).
  assert (ids_below_next (table_of (db w) "banners")) as Hids.
  { repeat constructor. }
  split; [done|].
  destruct (banner_created_then_deleted "/srv/app" "/srv/app" req f "Sale" w
              eq_refl eq_refl Htext ltac:(discriminate) Hdir Hk Hids) as (_ & H & _).
  exact H.
Defined.

(** ** Names of stored files *)

Lemma occurs_app (c : ascii) (s1 s2 : string) :
  occurs c (s1 +:+ s2) = occurs c s1 || occurs c s2.
Proof.
  induction s1 as [|a s1 IH]; [done|]. simpl. rewrite IH. by rewrite orb_assoc.
Qed.

Lemma split_path_nonempty (s : string) : split_path s ≠ [].
Proof.
  destruct s as [|a s]; [done|]. cbn.
  destruct (Ascii.eqb a slash); [done|]. by destruct (split_path s).
Qed.

Lemma split_path_no_slash (s : string) :
  occurs slash s = false → split_path s = [s].
Proof.
  induction s as [|a s IH]; [done|]. cbn.
  intros [Ha Hs]%orb_false_elim. rewrite Ha. by rewrite IH.
Qed.

Lemma split_path_segments (s : string) :
  Forall (λ seg, occurs slash seg = false) (split_path s).
Proof.
  induction s as [|a s IH]; [by repeat constructor|]. cbn.
  destruct (Ascii.eqb a slash) eqn:Ha; [by constructor|].
  pose proof (split_path_nonempty s).
  destruct (split_path s) as [|seg rest]; [done|].
  apply Forall_cons in IH as [Hseg Hrest]. constructor; [|done].
  cbn. by rewrite Ha.
Qed.

Lemma split_path_app (s1 s2 : string) :
  split_path (s1 +:+ String slash s2) = split_path s1 ++ split_path s2.
Proof.
  induction s1 as [|a s1 IH]; [done|]. simpl.
  destruct (Ascii.eqb a slash); [by rewrite IH|].
  rewrite IH. pose proof (split_path_nonempty s1).
  by destruct (split_path s1).
Qed.

Lemma last_dot_suffix_spec (s e : string) :
  last_dot_suffix s = Some e →
  (∃ e', e = String dot e') ∧ (occurs slash s = false → occurs slash e = false).
Proof.
  revert e. induction s as [|a s IH]; [done|]. intros e. cbn.
  destruct (last_dot_suffix s) as [e0|].
  - intros [= <-]. destruct (IH e0 eq_refl) as [Hdot Hslash].
    split; [done|]. intros [_ Hs]%orb_false_elim. auto.
  - destruct (Ascii.eqb a dot) eqn:Ha; [|done]. intros [= <-].
    apply Ascii.eqb_eq in Ha as ->. split; [by eexists|done].
Qed.

(** [path.extname] returns nothing or a dot and what follows, and never
    a slash. *)
Lemma path_extname_spec (p : string) :
  extension_like (path_extname p) ∧ occurs slash (path_extname p) = false.
Proof.
  unfold path_extname, extension_like.
  destruct (reverse _) as [|base rest] eqn:Hsegs; [by split; [left|]|].
  assert (occurs slash base = false) as Hbase.
  { pose proof (split_path_segments p) as Hall. rewrite Forall_forall in Hall.
    apply Hall.
    assert (base ∈ reverse (filter (λ seg, seg ≠ "") (split_path p))) as Hin
      by (rewrite Hsegs; by left).
    apply elem_of_reverse, list_elem_of_filter in Hin. tauto. }
  destruct (last_dot_suffix base) as [e|] eqn:Hext; [|by split; [left|]].
  apply last_dot_suffix_spec in Hext as [Hdot Hslash].
  destruct (_ || _); [by split; [left|]|]. split; [by right|auto].
Qed.

Lemma pretty_N_go_chars (c : ascii) (x : N) (s : string) :
  occurs c (pretty_N_go x s) = true →
  occurs c s = true ∨ occurs c "0123456789" = true.
Proof.
  revert s. induction (N.lt_wf_0 x) as [x _ IH]; intros s.
  assert (x = 0 ∨ 0 < x)%N as [->|Hx] by lia.
  { rewrite pretty_N_go_0. auto. }
  rewrite pretty_N_go_step by done.
  intros [Hc|Hc]%IH; [|by right|by apply N.div_lt].
  cbn in Hc. apply orb_prop in Hc as [Hc|Hc]; [|by left].
  right. apply Ascii.eqb_eq in Hc as <-.
  unfold pretty_N_char. by repeat case_match.
Qed.

Lemma pretty_N_go_nonempty (x : N) (s : string) :
  s ≠ "" → pretty_N_go x s ≠ "".
Proof.
  revert s. induction (N.lt_wf_0 x) as [x _ IH]; intros s Hs.
  assert (x = 0 ∨ 0 < x)%N as [->|Hx] by lia.
  { by rewrite pretty_N_go_0. }
  rewrite pretty_N_go_step by done. apply IH; [by apply N.div_lt|done].
Qed.

(** The decimal notation of an integer: not empty, made of digits and
    of the minus sign. *)
Lemma pretty_Z_chars (c : ascii) (n : Z) :
  occurs c (pretty n) = true → occurs c "-0123456789" = true.
Proof.
  assert (∀ p : positive, occurs c (pretty p) = true →
                          occurs c "0123456789" = true) as Hpos.
  { intros p. unfold pretty, pretty_positive, pretty, pretty_N.
    rewrite decide_False by done. by intros [?|?]%pretty_N_go_chars. }
  assert (∀ s, occurs c s = true → occurs c ("-" +:+ s) = true) as Hdash.
  { intros s Hs. change ("-" +:+ s) with (String "-" s).
    cbn [occurs]. rewrite Hs. by rewrite orb_true_r. }
  unfold pretty, pretty_Z. destruct n as [|p|p].
  - intros H. cbn [occurs] in H. rewrite orb_false_r in H.
    apply Ascii.eqb_eq in H as <-. done.
  - intros H%Hpos. by apply (Hdash "0123456789").
  - intros H. change ("-" +:+ pretty p) with (String "-" (pretty p)) in H.
    cbn [occurs] in H. apply orb_prop in H as [H|H%Hpos].
    + apply Ascii.eqb_eq in H as <-. done.
    + by apply (Hdash "0123456789").
Qed.

Lemma pretty_Z_nonempty (n : Z) : pretty n ≠ "".
Proof.
  unfold pretty, pretty_Z. destruct n as [|p|p]; [done| |done].
  unfold pretty, pretty_positive, pretty, pretty_N.
  rewrite decide_False by done. rewrite pretty_N_go_step by done.
  by apply pretty_N_go_nonempty.
Qed.

Lemma pretty_Z_free (c : ascii) (n : Z) :
  occurs c "-0123456789" = false → occurs c (pretty n) = false.
Proof.
  intros Hc. destruct (occurs c (pretty n)) eqn:H; [|done].
  apply pretty_Z_chars in H. congruence.
Qed.

(** A prefix without a dot and an extension are read back from their
    concatenation. *)
Lemma app_extension_inj (s1 s2 e1 e2 : string) :
  occurs dot s1 = false → occurs dot s2 = false →
  extension_like e1 → extension_like e2 →
  s1 +:+ e1 = s2 +:+ e2 → s1 = s2 ∧ e1 = e2.
Proof.
  revert s2. induction s1 as [|a s1 IH]; intros s2 H1 H2 He1 He2 Heq.
  - destruct s2 as [|b s2]; [done|]. cbn in *.
    apply orb_false_elim in H2 as [Hb _].
    destruct He1 as [->|[e' ->]]; [done|].
    injection Heq as <- _. by rewrite Ascii.eqb_refl in Hb.
  - cbn in H1. apply orb_false_elim in H1 as [Ha H1].
    destruct s2 as [|b s2].
    + cbn in Heq. destruct He2 as [->|[e' ->]]; [done|].
      injection Heq as -> _. by rewrite Ascii.eqb_refl in Ha.
    + cbn in H2. apply orb_false_elim in H2 as [_ H2].
      cbn in Heq. injection Heq as -> Heq.
      destruct (IH s2 H1 H2 He1 He2 Heq) as [-> ->]. done.
Qed.

(** X17: The name a stored file gets is the same for two uploads exactly
    when they are handled in the same millisecond and the names they
    come with have the same extension. *)
Theorem multer_filename_same_iff (req1 req2 : request) (f1 f2 : upload) :
  multer_filename req1 f1 = multer_filename req2 f2
  ↔ now req1 = now req2
    ∧ path_extname (originalname f1) = path_extname (originalname f2).
Proof.
  unfold multer_filename. split.
  - intros Heq.
    apply app_extension_inj in Heq as [Hnow Hext];
      [|by apply pretty_Z_free|by apply pretty_Z_free
       |apply path_extname_spec|apply path_extname_spec].
    by apply (inj pretty) in Hnow.
  - by intros [-> ->].
Qed.

Lemma multer_filename_same_iff_example :
  let first := Request ∅ ∅ None 1700000000000 in
  let second := Request {["text" := "Sale"]} ∅ None 1700000000000 in
  (now first = now second
   ∧ path_extname "summer.png" = path_extname "winter.final.png") ∧
  multer_filename first (Upload "summer.png" "A")
    = multer_filename second (Upload "winter.final.png" "B").
Proof.
  intros first second.
  assert (now first = now second
          ∧ path_extname (originalname (Upload "summer.png" "A"))
            = path_extname (originalname (Upload "winter.final.png" "B"))) as H
    by (split; reflexivity).
  split; [exact H|].
  exact (proj2 (multer_filename_same_iff first second (Upload "summer.png" "A")
                  (Upload "winter.final.png" "B")) H).
Defined.

(** X18: Two banners created one after the other in the same
    millisecond from files with the same extension, with the upload
    directory in place, share one stored file: both rows refer to it,
    and it holds the content of the second upload. *)
Theorem same_millisecond_uploads_collide (cwd : string) (req1 req2 : request)
    (f1 f2 : upload) (text1 text2 : string) (w : world) :
  faults w = [] →
  file req1 = Some f1 → body req1 !! "text" = Some text1 → text1 ≠ "" →
  file req2 = Some f2 → body req2 !! "text" = Some text2 → text2 ≠ "" →
  fs w !! upload_dir cwd = Some Dir →
  fs w !! upload_key cwd req1 f1 ≠ Some Dir →
  now req1 = now req2 →
  path_extname (originalname f1) = path_extname (originalname f2) →
  let w2 := (post_api_banner cwd req2 (post_api_banner cwd req1 w).2).2 in
  ∃ first second : row,
    rows (table_of (db w2) "banners")
      = rows (table_of (db w) "banners") ++ [first; second] ∧
    first !! "text" = Some (SqlStr text1) ∧
    second !! "text" = Some (SqlStr text2) ∧
    first !! "image_url" = second !! "image_url" ∧
    fs w2 = <[upload_key cwd req1 f1 := File (data f2)]> (fs w).
Proof.
  intros Hf Hfile1 Htext1 Hne1 Hfile2 Htext2 Hne2 Hdir Hk Hnow Hext w2.
  assert (multer_filename req1 f1 = multer_filename req2 f2) as Hname
    by (unfold multer_filename; by rewrite Hnow, Hext).
  assert (upload_key cwd req1 f1 = upload_key cwd req2 f2) as Hkey
    by (unfold upload_key; by rewrite Hname).
  destruct (post_api_banner_run cwd req1 f1 text1 w)
    as (w1 & Hrun1 & Hf1 & Hrows1 & Hfs1); [done..|].
  destruct (post_api_banner_run cwd req2 f2 text2 w1)
    as (w2' & Hrun2 & _ & Hrows2 & Hfs2); [done|done|done|done| | |].
  { rewrite Hfs1. by apply upload_dir_stays. }
  { rewrite Hfs1, <- Hkey. by rewrite lookup_insert_eq. }
  subst w2. rewrite Hrun1. cbn. rewrite Hrun2. cbn.
  do 2 eexists. split.
  { rewrite Hrows2, Hrows1. by rewrite <- app_assoc. }
  split; [unfold banners_row; by simplify_map_eq|].
  split; [unfold banners_row; by simplify_map_eq|].
  split.
  - unfold banners_row. rewrite Hname. by simplify_map_eq.
  - rewrite Hfs2, Hfs1, <- Hkey. by rewrite insert_insert_eq.
Qed.

Lemma same_millisecond_uploads_collide_example :
  let f1 := Upload "summer.png" "SUMMER" in
  let f2 := Upload "winter.png" "WINTER" in
  let req1 := Request {["text" := "Summer"]} ∅ (Some f1) 1700000000000 in
  let req2 := Request {["text" := "Winter"]} ∅ (Some f2) 1700000000000 in
  (faults started = [] ∧ now req1 = now req2
   ∧ path_extname (originalname f1) = path_extname (originalname f2)
   ∧ fs started !! upload_dir "/srv/app" = Some Dir
   ∧ fs started !! upload_key "/srv/app" req1 f1 ≠ Some Dir) ∧
  fs (post_api_banner "/srv/app" req2 (post_api_banner "/srv/app" req1 started).2).2
    = {["/srv/app/uploads" := Dir;
        "/srv/app/uploads/1700000000000.png" := File "WINTER"]}.
Proof.
  intros f1 f2 req1 req2.
  assert (fs started !! upload_dir "/srv/app" = Some Dir) as Hdir by reflexivity.
  assert (fs started !! upload_key "/srv/app" req1 f1 ≠ Some Dir) as Hk
    by (by vm_compute).
  assert (body req1 !! "text" = Some "Summer") as Ht1 by reflexivity.
  assert (body req2 !! "text" = Some "Winter") as Ht2 by reflexivity.
  split; [done|].
  destruct (same_millisecond_uploads_collide "/srv/app" req1 req2 f1 f2
              "Summer" "Winter" started eq_refl eq_refl Ht1 ltac:(discriminate)
              eq_refl Ht2 ltac:(discriminate) Hdir Hk eq_refl eq_refl)
    as (first & second & _ & _ & _ & _ & Hfs).
  rewrite Hfs. reflexivity.
Defined.

(** ** Paths of stored files *)

Lemma normalize_segments_app (above : bool) (stack l1 l2 : list string) :
  normalize_segments above stack (l1 ++ l2)
    = normalize_segments above
        (reverse (normalize_segments above stack l1)) l2.
Proof.
  revert stack. induction l1 as [|seg l1 IH]; intros stack.
  - cbn [app normalize_segments]. by rewrite reverse_involutive.
  - cbn [app normalize_segments].
    destruct (_ || _); [apply IH|].
    destruct (bool_decide (seg = "..")); [|apply IH].
    destruct stack as [|top stack]; [destruct above; apply IH|].
    destruct (bool_decide (top = "..")); apply IH.
Qed.

Lemma rev_app_last (s acc : string) (a : ascii) :
  last_char s = Some a → ∃ rest, String.rev_app s acc = String a rest.
Proof.
  revert acc. induction s as [|b s IH]; [done|]. intros acc Hlast. cbn.
  destruct s as [|c s]; [injection Hlast as ->; by eexists|].
  by apply IH.
Qed.

Lemma has_trailing_slash_last (s : string) :
  has_trailing_slash s
    = match last_char s with
      | Some a => Ascii.eqb a slash
      | None => false
      end.
Proof.
  unfold has_trailing_slash, String.rev.
  destruct (last_char s) as [a|] eqn:Hlast.
  - by destruct (rev_app_last s "" a Hlast) as [rest ->].
  - destruct s as [|b s]; [done|]. exfalso.
    clear -Hlast. revert b Hlast. induction s as [|c s IH]; intros b; [done|].
    cbn. apply IH.
Qed.

Lemma last_char_app (s1 s2 : string) :
  s2 ≠ "" → last_char (s1 +:+ s2) = last_char s2.
Proof.
  intros Hs2. induction s1 as [|a s1 IH]; [done|]. simpl.
  destruct (s1 +:+ s2) eqn:Happ; [|done].
  destruct s1; [by subst|done].
Qed.

Lemma last_char_occurs (s : string) (a : ascii) :
  last_char s = Some a → occurs a s = true.
Proof.
  induction s as [|b s IH]; [done|]. cbn [last_char occurs].
  destruct s as [|c s].
  - intros [= ->]. by rewrite Ascii.eqb_refl.
  - intros H%IH. rewrite H. by rewrite orb_true_r.
Qed.

Lemma plain_name_no_trailing_slash (prefix name : string) :
  plain_name name → has_trailing_slash (prefix +:+ name) = false.
Proof.
  intros (Hslash & Hne & _). rewrite has_trailing_slash_last, last_char_app by done.
  destruct (last_char name) as [a|] eqn:Hlast; [|done].
  destruct (Ascii.eqb a slash) eqn:Ha; [|done].
  apply Ascii.eqb_eq in Ha as ->. apply last_char_occurs in Hlast. congruence.
Qed.

(** The name multer gives a file is a plain name. *)
Lemma multer_filename_plain (req : request) (f : upload) :
  plain_name (multer_filename req f).
Proof.
  unfold plain_name, multer_filename.
  destruct (path_extname_spec (originalname f)) as [_ Hext].
  split; [by rewrite occurs_app, pretty_Z_free, Hext|].
  pose proof (pretty_Z_nonempty (now req)) as Hne.
  pose proof (pretty_Z_chars "." (now req)) as Hdot.
  destruct (pretty (now req)) as [|a digits]; [done|].
  assert (a ≠ "."%char) as Ha.
  { intros ->. cbn [occurs] in Hdot. rewrite Ascii.eqb_refl in Hdot.
    by specialize (Hdot eq_refl). }
  simpl. repeat split; intros [=]; done.
Qed.

Lemma normalize_plain (above : bool) (stack : list string) (name : string) :
  plain_name name →
  normalize_segments above stack [name] = reverse (name :: stack).
Proof.
  intros (_ & H1 & H2 & H3). cbn.
  by rewrite !bool_decide_false by done.
Qed.

(** [path.join("uploads/", name)] *)
Lemma path_join_uploads (name : string) :
  plain_name name → path_join ["uploads/"; name] = "uploads/" +:+ name.
Proof.
  intros Hname. pose proof Hname as (Hslash & Hne & Hdot & Hdots).
  unfold path_join.
  rewrite (filter_cons _ "uploads/"), decide_True by done.
  rewrite (filter_cons _ name), decide_True by done.
  rewrite filter_nil.
  change (String.concat "/" ["uploads/"; name]) with ("uploads//" +:+ name).
  rewrite bool_decide_false by done.
  unfold path_normalize. rewrite bool_decide_false by done.
  rewrite plain_name_no_trailing_slash by done.
  change (is_absolute ("uploads//" +:+ name)) with false. cbn [negb].
  change ("uploads//" +:+ name)
    with ("uploads" +:+ String slash ("" +:+ String slash name)).
  rewrite !split_path_app, (split_path_no_slash name) by done.
  change (split_path "uploads" ++ split_path "" ++ [name])
    with (["uploads"; ""] ++ [name]).
  rewrite normalize_segments_app.
  change (reverse (normalize_segments true [] ["uploads"; ""])) with ["uploads"].
  rewrite normalize_plain by done.
  change (String.concat "/" (reverse [name; "uploads"])) with ("uploads/" +:+ name).
  by rewrite bool_decide_false by done.
Qed.

(** Where a stored file lies: [uploads/<name>] under the working
    directory. *)
Lemma upload_key_resolve (cwd : string) (req : request) (f : upload) :
  upload_key cwd req f
    = path_resolve cwd ("uploads/" +:+ multer_filename req f).
Proof.
  unfold upload_key. by rewrite path_join_uploads by apply multer_filename_plain.
Qed.

(** [`.${reference}`] for the reference [/uploads/<name>] names the
    stored file. *)
Lemma dot_reference_resolve (cwd : string) (req : request) (f : upload) :
  path_resolve cwd ("." +:+ uploads_url (multer_filename req f))
    = upload_key cwd req f.
Proof.
  rewrite upload_key_resolve. unfold path_resolve, uploads_url.
  pose proof (multer_filename_plain req f) as Hname.
  pose proof Hname as (Hslash & _).
  set (name := multer_filename req f) in *.
  change (is_absolute ("." +:+ "/uploads/" +:+ name)) with false.
  change (is_absolute ("uploads/" +:+ name)) with false. cbn iota.
  change (cwd +:+ "/" +:+ "." +:+ "/uploads/" +:+ name)
    with (cwd +:+ String slash ("." +:+ String slash ("uploads" +:+ String slash name))).
  change (cwd +:+ "/" +:+ "uploads/" +:+ name)
    with (cwd +:+ String slash ("uploads" +:+ String slash name)).
  rewrite !split_path_app, (split_path_no_slash name) by done.
  change (split_path ".") with ["."]. change (split_path "uploads") with ["uploads"].
  rewrite (normalize_segments_app _ _ (split_path cwd) (["."] ++ ["uploads"] ++ [name])).
  rewrite (normalize_segments_app _ _ (split_path cwd) (["uploads"] ++ [name])).
  done.
Qed.

(** ** Creating and deleting a row with its file *)

(** X19: A student created through [POST /students], the photo stored in
    the upload directory, and deleted through [DELETE /students/:id]
    with the id it was given is gone with its
    photo: the table has the rows it had, and the upload directory has
    no file under the name the photo was stored under. *)
Theorem student_created_then_deleted (cwd : string) (req : request)
    (f : upload) (name achievement : string) (w : world) :
  faults w = [] → file req = Some f →
  body req !! "name" = Some name → name ≠ "" →
  body req !! "achievement" = Some achievement → achievement ≠ "" →
  fs w !! upload_dir cwd = Some Dir →
  fs w !! upload_key cwd req f ≠ Some Dir →
  ids_below_next (table_of (db w) "students") →
  let next := auto_increment (table_of (db w) "students") in
  let w1 := (post_students cwd req w).2 in
  let w2 := (delete_students_id cwd next w1).2 in
  fs w1 !! upload_key cwd req f = Some (File (data f)) ∧
  (delete_students_id cwd next w1).1
    = Response 200 (message "✅ Student deleted successfully") ∧
  rows (table_of (db w2) "students") = rows (table_of (db w) "students") ∧
  fs w2 = delete (upload_key cwd req f) (fs w).
Proof.
  intros Hf Hfile Hname Hn Hach Ha Hdir Hk Hids next w1 w2.
  subst w2 w1. destruct w as [d fsys fl c]; cbn in *; subst fl.
  unfold post_students, upload_single, bind. rewrite Hfile.
  rewrite multer_store_ok by done. cbn. rewrite Hname, Hach. cbn.
  rewrite ?bool_decide_true by first [done|apply uploads_url_ne]. cbn.
  unfold db_query; cbn. fold (upload_key cwd req f).
  split; [by rewrite lookup_insert_eq|].
  unfold delete_students_id, bind, db_query; cbn.
  rewrite table_of_insert. cbn.
  rewrite filter_app, filter_has_id_next by done.
  rewrite filter_cons, decide_True by (unfold has_id; by simplify_map_eq).
  cbn. rewrite lookup_insert_ne by done. rewrite lookup_insert_ne by done.
  rewrite lookup_insert_ne by done. rewrite lookup_insert_eq. cbn.
  rewrite ?bool_decide_true by first [done|apply uploads_url_ne].
  unfold fs_unlink. cbn. rewrite dot_reference_resolve.
  rewrite lookup_insert_eq. cbn. rewrite !table_of_insert. cbn.
  split; [done|]. split.
  - rewrite filter_app, filter_not_id by (by apply filter_has_id_next).
    rewrite filter_cons, decide_False, app_nil_r; [done|].
    intros Hnot. apply Hnot. unfold has_id. by simplify_map_eq.
  - by rewrite delete_insert_eq.
Qed.

Lemma student_created_then_deleted_example :
  let f := Upload "asha.jpg" "JPG" in
  let req := Request {["name" := "Asha"; "achievement" := "AIR 12"]} ∅ (Some f)
               1700000000000 in
  (faults started = [] ∧ file req = Some f ∧ body req !! "name" = Some "Asha"
   ∧ body req !! "achievement" = Some "AIR 12"
   ∧ fs started !! upload_dir "/srv/app" = Some Dir
   ∧ fs started !! upload_key "/srv/app" req f ≠ Some Dir
   ∧ ids_below_next (table_of (db started) "students")) ∧
  (delete_students_id "/srv/app" 1 (post_students "/srv/app" req started).2).1
    = Response 200 (message "✅ Student deleted successfully") ∧
  fs (delete_students_id "/srv/app" 1 (post_students "/srv/app" req started).2).2
    = delete (upload_key "/srv/app" req f) (fs started).
Proof.
  intros f req.
  assert (body req !! "name" = Some "Asha") as Hn by reflexivity.
  assert (body req !! "achievement" = Some "AIR 12") as Ha by reflexivity.
  assert (fs started !! upload_dir "/srv/app" = Some Dir) as Hdir by reflexivity.
  assert (fs started !! upload_key "/srv/app" req f ≠ Some Dir) as Hk
    by (by vm_compute).
  assert (ids_below_next (table_of (db started) "students")) as Hids
    by constructor.
  split; [done|].
  destruct (student_created_then_deleted "/srv/app" req f "Asha" "AIR 12" started
              eq_refl eq_refl Hn ltac:(discriminate) Ha ltac:(discriminate) Hdir Hk Hids)
    as (_ & H1 & _ & H2).
  split; [exact H1|exact H2].
Defined.

(** X20: A blog created through [POST /api/blogs] and deleted through
    [DELETE /api/blogs/:id] with the id it was given is gone: the table
    has the rows it had; with an image, which the upload directory is
    there to take, the stored file is removed; without one, no file is
    touched and the deletion still succeeds. *)
Theorem blog_created_then_deleted (cwd : string) (req : request) (w : world) :
  faults w = [] →
  (∀ f, file req = Some f →
        fs w !! upload_dir cwd = Some Dir ∧
        fs w !! upload_key cwd req f ≠ Some Dir) →
  ids_below_next (table_of (db w) "blogs") →
  let next := auto_increment (table_of (db w) "blogs") in
  let w1 := (post_api_blogs cwd req w).2 in
  let w2 := (delete_api_blogs_id cwd next w1).2 in
  (post_api_blogs cwd req w).1
    = Response 201 (JObj [("message", JStr "Blog uploaded successfully");
                          ("blogId", JNum next)]) ∧
  (delete_api_blogs_id cwd next w1).1
    = Response 200 (message "Blog deleted successfully") ∧
  rows (table_of (db w2) "blogs") = rows (table_of (db w) "blogs") ∧
  fs w2 = match file req with
          | Some f => delete (upload_key cwd req f) (fs w)
          | None => fs w
          end.
Proof.
  intros Hf Hk Hids next w1 w2.
  subst w2 w1. destruct w as [d fsys fl c]; cbn in *; subst fl.
  unfold post_api_blogs, upload_single, bind.
  destruct (file req) as [f|] eqn:Hfile.
  - destruct (Hk f eq_refl) as [Hdir Hkey].
    rewrite multer_store_ok by done. cbn.
    unfold db_query; cbn. fold (upload_key cwd req f).
    split; [done|].
    unfold delete_api_blogs_id, bind, db_query; cbn.
    rewrite table_of_insert. cbn.
    rewrite filter_app, filter_has_id_next by done.
    rewrite filter_cons, decide_True by (unfold has_id; by simplify_map_eq).
    cbn. rewrite lookup_insert_ne by done. rewrite lookup_insert_eq. cbn.
    rewrite ?bool_decide_true by first [done|apply uploads_url_ne].
    unfold fs_unlink. cbn. rewrite dot_reference_resolve.
    rewrite lookup_insert_eq. cbn. rewrite !table_of_insert. cbn.
    split; [done|]. split.
    + rewrite filter_app, filter_not_id by (by apply filter_has_id_next).
      rewrite filter_cons, decide_False, app_nil_r; [done|].
      intros Hnot. apply Hnot. unfold has_id. by simplify_map_eq.
    + by rewrite delete_insert_eq.
  - cbn. unfold db_query; cbn. split; [done|].
    unfold delete_api_blogs_id, bind, db_query; cbn.
    rewrite table_of_insert. cbn.
    rewrite filter_app, filter_has_id_next by done.
    rewrite filter_cons, decide_True by (unfold has_id; by simplify_map_eq).
    cbn. rewrite lookup_insert_ne by done. rewrite lookup_insert_eq. cbn.
    rewrite !table_of_insert. cbn.
    split; [done|]. split; [|done].
    rewrite filter_app, filter_not_id by (by apply filter_has_id_next).
    rewrite filter_cons, decide_False, app_nil_r; [done|].
    intros Hnot. apply Hnot. unfold has_id. by simplify_map_eq.
Qed.

Lemma blog_created_then_deleted_example :
  let f := Upload "results.png" "PNG" in
  let req := Request {["description" := "Results are out"]} ∅ (Some f)
               1700000000000 in
  (faults started = [] ∧ file req = Some f
   ∧ fs started !! upload_dir "/srv/app" = Some Dir
   ∧ fs started !! upload_key "/srv/app" req f ≠ Some Dir
   ∧ ids_below_next (table_of (db started) "blogs")) ∧
  (delete_api_blogs_id "/srv/app" 1 (post_api_blogs "/srv/app" req started).2).1
    = Response 200 (message "Blog deleted successfully") ∧
  rows (table_of (db (delete_api_blogs_id "/srv/app" 1
                        (post_api_blogs "/srv/app" req started).2).2) "blogs") = [] ∧
  fs (delete_api_blogs_id "/srv/app" 1 (post_api_blogs "/srv/app" req started).2).2
    = delete (upload_key "/srv/app" req f) (fs started).
Proof.
  intros f req.
  assert (fs started !! upload_dir "/srv/app" = Some Dir) as Hdir by reflexivity.
  assert (fs started !! upload_key "/srv/app" req f ≠ Some Dir) as Hk
    by (by vm_compute).
  assert (ids_below_next (table_of (db started) "blogs")) as Hids by constructor.
  split; [done|].
  destruct (blog_created_then_deleted "/srv/app" req started eq_refl
              ltac:(intros f' [= <-]; by split) Hids) as (_ & H1 & H2 & H3).
  split; [exact H1|]. split; [exact H2|exact H3].
Defined.

(** ** The banners of [/api/v1/banner] *)

Lemma normalize_segments_plain (stack segs : list string) :
  Forall plain_name stack → Forall (λ seg, occurs slash seg = false) segs →
  Forall plain_name (normalize_segments false stack segs).
Proof.
  intros Hstack Hsegs. revert stack Hstack.
  induction Hsegs as [|seg segs Hseg _ IH]; intros stack Hstack.
  - by apply Forall_reverse.
  - cbn [normalize_segments].
    destruct (bool_decide (seg = "")) eqn:He; [by apply IH|].
    destruct (bool_decide (seg = ".")) eqn:Hd; [by apply IH|].
    apply bool_decide_eq_false in He, Hd. cbn [orb].
    destruct (bool_decide (seg = "..")) eqn:Hdd.
    + destruct stack as [|top stack]; [by apply IH|].
      apply Forall_cons in Hstack as [Htop Hstack].
      rewrite bool_decide_false by apply Htop. by apply IH.
    + apply bool_decide_eq_false in Hdd. apply IH. by constructor.
Qed.

Lemma normalize_segments_plain_id (above : bool) (stack segs : list string) :
  Forall plain_name segs →
  normalize_segments above stack segs = reverse stack ++ segs.
Proof.
  intros Hsegs. revert stack.
  induction Hsegs as [|seg segs (_ & He & Hd & Hdd) _ IH]; intros stack.
  - cbn. by rewrite app_nil_r.
  - cbn [normalize_segments]. rewrite !bool_decide_false by done. cbn [orb].
    rewrite IH, reverse_cons. by rewrite <- app_assoc.
Qed.

Lemma split_path_concat (segs : list string) :
  segs ≠ [] → Forall (λ seg, occurs slash seg = false) segs →
  split_path (String.concat "/" segs) = segs.
Proof.
  intros Hne Hsegs. induction Hsegs as [|seg segs Hseg Hsegs IH]; [done|].
  destruct segs as [|seg' segs]; [by apply split_path_no_slash|].
  change (String.concat "/" (seg :: seg' :: segs))
    with (seg +:+ String slash (String.concat "/" (seg' :: segs))).
  rewrite split_path_app, split_path_no_slash, IH by done. done.
Qed.

Lemma concat_plain_nonempty (segs : list string) :
  segs ≠ [] → Forall plain_name segs → String.concat "/" segs ≠ "".
Proof.
  intros Hne Hsegs. destruct Hsegs as [|seg segs (_ & He & _) _]; [done|].
  destruct segs as [|seg' segs]; [done|].
  change (String.concat "/" (seg :: seg' :: segs))
    with (seg +:+ String slash (String.concat "/" (seg' :: segs))).
  by destruct seg.
Qed.

Lemma substring_all (s : string) :
  String.substring 0 (String.length s) s = s.
Proof. induction s as [|a s IH]; [done|]. cbn. by rewrite IH. Qed.

(** The reference [/uploads/<name>] with its leading slash taken off. *)
Lemma replace_first_uploads (name : string) :
  replace_first "/uploads" "uploads" (uploads_url name) = "uploads/" +:+ name.
Proof.
  unfold uploads_url.
  change (replace_first "/uploads" "uploads" ("/uploads/" +:+ name))
    with ("uploads" +:+ String slash
            (String.substring 0 (String.length name) name)).
  by rewrite substring_all.
Qed.

(** [path.join(__dirname, "uploads/<name>")] for an absolute [__dirname]
    names [uploads/<name>] under [__dirname], whatever the working
    directory. *)
Lemma path_join_dirname_uploads (cwd dirname name : string) :
  is_absolute dirname = true → plain_name name →
  path_resolve cwd (path_join [dirname; "uploads/" +:+ name])
    = path_resolve dirname ("uploads/" +:+ name).
Proof.
  intros Habs Hname. pose proof Hname as (Hslash & Hne & _).
  assert (dirname ≠ "") as Hd by (by destruct dirname).
  set (N := normalize_segments false [] (split_path dirname)).
  assert (Forall plain_name (N ++ ["uploads"; name])) as Hplain.
  { apply Forall_app. split.
    - unfold N. apply normalize_segments_plain; [done|apply split_path_segments].
    - constructor; [by repeat split|]. constructor; [done|constructor]. }
  assert (normalize_segments false []
            (split_path (dirname +:+ String slash ("uploads" +:+ String slash name)))
          = N ++ ["uploads"; name]) as Hnorm.
  { rewrite !split_path_app, (split_path_no_slash name) by done.
    change (split_path "uploads" ++ [name]) with ["uploads"; name].
    rewrite normalize_segments_app. fold N.
    rewrite normalize_segments_plain_id, reverse_involutive; [done|].
    constructor; [by repeat split|]. constructor; [done|constructor]. }
  assert (path_join [dirname; "uploads/" +:+ name]
          = String slash (String.concat "/" (N ++ ["uploads"; name]))) as ->.
  { unfold path_join.
    rewrite (filter_cons _ dirname), decide_True by done.
    rewrite (filter_cons _ ("uploads/" +:+ name)), decide_True by done.
    rewrite filter_nil.
    change (String.concat "/" [dirname; "uploads/" +:+ name])
      with (dirname +:+ String slash ("uploads" +:+ String slash name)).
    rewrite bool_decide_false by (by destruct dirname).
    unfold path_normalize. rewrite bool_decide_false by (by destruct dirname).
    assert (is_absolute (dirname +:+ String slash ("uploads" +:+ String slash name))
            = true) as -> by (by destruct dirname).
    assert (has_trailing_slash
              (dirname +:+ String slash ("uploads" +:+ String slash name)) = false)
      as ->.
    { rewrite has_trailing_slash_last, last_char_app by done.
      change (String slash ("uploads" +:+ String slash name))
        with ("/uploads/" +:+ name).
      rewrite <- has_trailing_slash_last.
      by apply plain_name_no_trailing_slash. }
    cbn [negb]. rewrite Hnorm.
    rewrite bool_decide_false; [done|].
    apply concat_plain_nonempty; [by destruct N|done]. }
  unfold path_resolve. cbn [is_absolute]. rewrite Ascii.eqb_refl.
  change (is_absolute ("uploads/" +:+ name)) with false. cbn iota.
  change (dirname +:+ "/" +:+ "uploads/" +:+ name)
    with (dirname +:+ String slash ("uploads" +:+ String slash name)).
  rewrite Hnorm. cbn [split_path]. rewrite Ascii.eqb_refl.
  rewrite split_path_concat; [|by destruct N|].
  - cbn [normalize_segments]. rewrite bool_decide_true by done. cbn [orb].
    by rewrite normalize_segments_plain_id by done.
  - eapply Forall_impl; [exact Hplain|]. by intros seg (? & _).
Qed.

(** X21: A banner uploaded through [POST /api/v1/banner/upload] and deleted
    through [DELETE /api/v1/banner/delete/:id] with the id it was given
    is gone with its file, when the server runs in the directory of
    [server.js] and so has its upload directory: the table has the rows
    it had, the stored file is removed and nothing is printed. *)
Theorem v1_banner_created_then_deleted (dirname : string) (req : request)
    (f : upload) (w : world) :
  is_absolute dirname = true →
  faults w = [] → file req = Some f →
  fs w !! upload_dir dirname = Some Dir →
  fs w !! upload_key dirname req f ≠ Some Dir →
  ids_below_next (table_of (db w) "vidyarajan_banners") →
  let next := auto_increment (table_of (db w) "vidyarajan_banners") in
  let w1 := (post_api_v1_banner_upload dirname req w).2 in
  let w2 := (delete_api_v1_banner_delete_id dirname dirname next w1).2 in
  (post_api_v1_banner_upload dirname req w).1
    = Response 200 (JObj [
        ("message", JStr "✅ Banner uploaded successfully");
        ("banner", JObj [("id", JNum next);
                         ("image_url", JStr (uploads_url (multer_filename req f)))])]) ∧
  fs w1 !! upload_key dirname req f = Some (File (data f)) ∧
  (delete_api_v1_banner_delete_id dirname dirname next w1).1
    = Response 200 (message "✅ Banner deleted successfully") ∧
  rows (table_of (db w2) "vidyarajan_banners")
    = rows (table_of (db w) "vidyarajan_banners") ∧
  fs w2 = delete (upload_key dirname req f) (fs w) ∧
  console w2 = console w.
Proof.
  intros Habs Hf Hfile Hdir Hk Hids next w1 w2.
  subst w2 w1. destruct w as [d fsys fl c]; cbn in *; subst fl.
  unfold post_api_v1_banner_upload, upload_single, bind. rewrite Hfile.
  rewrite multer_store_ok by done. cbn.
  unfold db_query; cbn. fold (upload_key dirname req f).
  split; [done|]. split; [by rewrite lookup_insert_eq|].
  unfold delete_api_v1_banner_delete_id, bind, db_query; cbn.
  rewrite table_of_insert. cbn.
  rewrite filter_app, filter_has_id_next by done.
  rewrite filter_cons, decide_True by (unfold has_id; by simplify_map_eq).
  cbn. rewrite lookup_insert_ne by done. rewrite lookup_insert_eq.
  rewrite replace_first_uploads. unfold fs_unlink.
  rewrite path_join_dirname_uploads by (done || apply multer_filename_plain).
  rewrite <- upload_key_resolve. cbn.
  rewrite lookup_insert_eq. cbn. rewrite !table_of_insert. cbn.
  split; [done|]. split; [|split; [|done]].
  - rewrite filter_app, filter_not_id by (by apply filter_has_id_next).
    rewrite filter_cons, decide_False, app_nil_r; [done|].
    intros Hnot. apply Hnot. unfold has_id. by simplify_map_eq.
  - by rewrite delete_insert_eq.
Qed.

Lemma v1_banner_created_then_deleted_example :
  let f := Upload "sale.png" "PNG" in
  let req := Request ∅ ∅ (Some f) 1700000000000 in
  (is_absolute "/srv/app" = true ∧ faults started = [] ∧ file req = Some f
   ∧ fs started !! upload_dir "/srv/app" = Some Dir
   ∧ fs started !! upload_key "/srv/app" req f ≠ Some Dir
   ∧ ids_below_next (table_of (db started) "vidyarajan_banners")) ∧
  (delete_api_v1_banner_delete_id "/srv/app" "/srv/app" 1
     (post_api_v1_banner_upload "/srv/app" req started).2).1
    = Response 200 (message "✅ Banner deleted successfully") ∧
  fs (delete_api_v1_banner_delete_id "/srv/app" "/srv/app" 1
        (post_api_v1_banner_upload "/srv/app" req started).2).2
    = delete (upload_key "/srv/app" req f) (fs started).
Proof.
  intros f req.
  assert (fs started !! upload_dir "/srv/app" = Some Dir) as Hdir by reflexivity.
  assert (fs started !! upload_key "/srv/app" req f ≠ Some Dir) as Hk
    by (by vm_compute).
  assert (ids_below_next (table_of (db started) "vidyarajan_banners")) as Hids
    by constructor.
  split; [done|].
  destruct (v1_banner_created_then_deleted "/srv/app" req f started
              eq_refl eq_refl eq_refl Hdir Hk Hids) as (_ & _ & H1 & _ & H2 & _).
  split; [exact H1|exact H2].
Defined.


(** ** The [public] directory of [DELETE /api/banner/:id] *)

Lemma split_path_concat_inj (segs1 segs2 : list string) :
  segs1 ≠ [] → segs2 ≠ [] →
  Forall (λ seg, occurs slash seg = false) segs1 →
  Forall (λ seg, occurs slash seg = false) segs2 →
  String.concat "/" segs1 = String.concat "/" segs2 → segs1 = segs2.
Proof.
  intros H1 H2 Hs1 Hs2 Heq.
  rewrite <- (split_path_concat segs1), <- (split_path_concat segs2) by done.
  by rewrite Heq.
Qed.

Lemma normalize_segments_empty (above : bool) (stack segs : list string) :
  normalize_segments above stack ("" :: segs)
    = normalize_segments above stack segs.
Proof. reflexivity. Qed.

(** Under an absolute directory, a path of plain segments resolves to
    the segments of the directory followed by them, and the result is
    the same from every working directory. *)
Lemma path_resolve_under (cwd dirname tail : string) (segs : list string) :
  is_absolute dirname = true →
  tail ≠ "" → has_trailing_slash tail = false →
  segs ≠ [] → Forall plain_name segs →
  (∀ stack, normalize_segments false stack (split_path tail)
              = reverse stack ++ segs) →
  path_resolve cwd (path_normalize (dirname +:+ String slash tail))
    = String slash
        (String.concat "/"
           (normalize_segments false [] (split_path dirname) ++ segs)).
Proof.
  intros Habs Htail Htrail Hne Hsegs Hnorm.
  set (N := normalize_segments false [] (split_path dirname)).
  assert (Forall plain_name (N ++ segs)) as Hplain.
  { apply Forall_app. split; [|done].
    unfold N. apply normalize_segments_plain; [done|apply split_path_segments]. }
  assert (N ++ segs ≠ []) as Hne' by (destruct N; [done|discriminate]).
  unfold path_normalize. rewrite bool_decide_false by (by destruct dirname).
  assert (is_absolute (dirname +:+ String slash tail) = true) as ->
    by (by destruct dirname).
  assert (has_trailing_slash (dirname +:+ String slash tail) = false) as ->.
  { rewrite has_trailing_slash_last, last_char_app by done.
    rewrite has_trailing_slash_last in Htrail.
    destruct tail as [|a tail]; [done|]. exact Htrail. }
  cbn [negb].
  rewrite split_path_app, normalize_segments_app. fold N.
  rewrite Hnorm, reverse_involutive.
  rewrite bool_decide_false by (by apply concat_plain_nonempty).
  change ("/" +:+ String.concat "/" (N ++ segs))
    with (String slash (String.concat "/" (N ++ segs))).
  unfold path_resolve. cbn [is_absolute]. rewrite Ascii.eqb_refl.
  cbn [split_path]. rewrite Ascii.eqb_refl.
  rewrite split_path_concat; [|done|].
  - cbn [normalize_segments]. rewrite bool_decide_true by done. cbn [orb].
    by rewrite normalize_segments_plain_id by done.
  - eapply Forall_impl; [exact Hplain|]. by intros seg (? & _).
Qed.

(** [path.join(__dirname, "public", "/uploads/<name>")] *)
Lemma public_reference_resolve (cwd dirname name : string) :
  is_absolute dirname = true → plain_name name →
  path_resolve cwd (path_join [dirname; "public"; uploads_url name])
    = String slash
        (String.concat "/"
           (normalize_segments false [] (split_path dirname)
              ++ ["public"; "uploads"; name])).
Proof.
  intros Habs Hname. pose proof Hname as (Hslash & Hne & _).
  unfold path_join, uploads_url.
  rewrite (filter_cons _ dirname), decide_True by (by destruct dirname).
  rewrite (filter_cons _ "public"), decide_True by done.
  rewrite (filter_cons _ ("/uploads/" +:+ name)), decide_True by done.
  rewrite filter_nil.
  change (String.concat "/" [dirname; "public"; "/uploads/" +:+ name])
    with (dirname +:+ String slash ("public//uploads/" +:+ name)).
  rewrite bool_decide_false by (by destruct dirname).
  apply path_resolve_under; [done|done| |done| |].
  - by apply plain_name_no_trailing_slash.
  - constructor; [by repeat split|].
    constructor; [by repeat split|]. constructor; [done|constructor].
  - intros stack.
    change ("public//uploads/" +:+ name)
      with ("public" +:+ String slash ("" +:+ String slash
              ("uploads" +:+ String slash name))).
    rewrite !split_path_app, (split_path_no_slash name) by done.
    change (split_path "public" ++ split_path "" ++ split_path "uploads" ++ [name])
      with (["public"] ++ [""] ++ ["uploads"; name]).
    rewrite (normalize_segments_app _ _ ["public"]).
    rewrite (normalize_segments_plain_id _ _ ["public"])
      by (constructor; [by repeat split|constructor]).
    change ([""] ++ ["uploads"; name]) with ("" :: ["uploads"; name]).
    rewrite normalize_segments_empty.
    rewrite normalize_segments_plain_id, reverse_involutive.
    + by rewrite <- app_assoc.
    + constructor; [by repeat split|]. constructor; [done|constructor].
Qed.

(** Where a stored file lies when the working directory is absolute. *)
Lemma upload_key_absolute (dirname : string) (req : request) (f : upload) :
  is_absolute dirname = true →
  upload_key dirname req f
    = String slash
        (String.concat "/"
           (normalize_segments false [] (split_path dirname)
              ++ ["uploads"; multer_filename req f])).
Proof.
  intros Habs. pose proof (multer_filename_plain req f) as Hname.
  pose proof Hname as (Hslash & _).
  rewrite upload_key_resolve. unfold path_resolve.
  change (is_absolute ("uploads/" +:+ multer_filename req f)) with false. cbn iota.
  change (dirname +:+ "/" +:+ "uploads/" +:+ multer_filename req f)
    with (dirname +:+ String slash ("uploads" +:+ String slash (multer_filename req f))).
  rewrite !split_path_app, (split_path_no_slash (multer_filename req f)) by done.
  change (split_path "uploads" ++ [multer_filename req f])
    with ["uploads"; multer_filename req f].
  rewrite normalize_segments_app.
  rewrite normalize_segments_plain_id, reverse_involutive; [done|].
  constructor; [by repeat split|]. constructor; [done|constructor].
Qed.

(** The file [DELETE /api/banner/:id] looks for is never the file
    [POST /api/banner] stored. *)
Lemma public_reference_misses_upload (dirname : string) (req : request)
    (f : upload) :
  is_absolute dirname = true →
  path_resolve dirname
    (path_join [dirname; "public"; uploads_url (multer_filename req f)])
    ≠ upload_key dirname req f.
Proof.
  intros Habs. pose proof (multer_filename_plain req f) as Hname.
  pose proof Hname as (Hslash & _).
  rewrite public_reference_resolve, upload_key_absolute by done.
  intros [= Heq].
  assert (Forall (λ seg, occurs slash seg = false)
            (normalize_segments false [] (split_path dirname))) as HN.
  { eapply Forall_impl;
      [apply normalize_segments_plain; [done|apply split_path_segments]|].
    by intros seg (? & _). }
  apply split_path_concat_inj in Heq.
  - apply (f_equal length) in Heq. rewrite !length_app in Heq. cbn in Heq. lia.
  - by destruct (normalize_segments _ _ _).
  - by destruct (normalize_segments _ _ _).
  - apply Forall_app. split; [done|]. by repeat constructor.
  - apply Forall_app. split; [done|]. by repeat constructor.
Qed.

(** X22: A banner created through [POST /api/banner] and deleted through
    [DELETE /api/banner/:id], by a server that runs in the directory of
    [server.js] and so has its upload directory: the deletion answers
    success and the row is removed,
    but the stored file stays in the upload directory, since the handler
    looks for it under [public]. *)
Theorem deleted_banner_leaves_file (dirname : string) (req : request)
    (f : upload) (text : string) (w : world) :
  is_absolute dirname = true →
  faults w = [] → file req = Some f →
  body req !! "text" = Some text → text ≠ "" →
  fs w !! upload_dir dirname = Some Dir →
  fs w !! upload_key dirname req f ≠ Some Dir →
  ids_below_next (table_of (db w) "banners") →
  let next := auto_increment (table_of (db w) "banners") in
  let w1 := (post_api_banner dirname req w).2 in
  let w2 := (delete_api_banner_id dirname dirname next w1).2 in
  (delete_api_banner_id dirname dirname next w1).1
    = Response 200 (message "Banner deleted successfully!") ∧
  rows (table_of (db w2) "banners") = rows (table_of (db w) "banners") ∧
  fs w2 !! upload_key dirname req f = Some (File (data f)).
Proof.
  intros Habs Hf Hfile Htext Hne Hdir Hk Hids next w1 w2.
  destruct (post_api_banner_run dirname req f text w)
    as (w' & Hrun & Hf' & Hrows & Hfs); [done..|].
  assert (w1 = w') as -> by (unfold w1; by rewrite Hrun).
  fold next in Hrows.
  assert (filter (has_id next) (rows (table_of (db w') "banners"))
          = [banners_row next text (multer_filename req f)]) as Hfound.
  { rewrite Hrows, filter_app, filter_has_id_next by done.
    rewrite filter_cons, decide_True; [done|].
    unfold has_id, banners_row. by simplify_map_eq. }
  assert (filter (λ r, ¬ has_id next r) (rows (table_of (db w') "banners"))
          = rows (table_of (db w) "banners")) as Hleft.
  { rewrite Hrows, filter_app, filter_not_id by (by apply filter_has_id_next).
    rewrite filter_cons, decide_False, app_nil_r; [done|].
    intros Hnot. apply Hnot. unfold has_id, banners_row. by simplify_map_eq. }
  pose proof (public_reference_misses_upload dirname req f Habs) as Hmiss.
  subst w2. rewrite delete_api_banner_id_run by done. rewrite Hfound.
  assert (banners_row next text (multer_filename req f) !! "image_url"
          = Some (SqlStr (uploads_url (multer_filename req f)))) as ->
    by (unfold banners_row, uploads_url; by simplify_map_eq).
  cbn. split; [done|].
  destruct (fs w' !! _) as [[]|]; cbn; unfold without_rows;
    rewrite table_of_insert; cbn; rewrite Hleft; (split; [done|]).
  - rewrite lookup_delete_ne by done. by rewrite Hfs, lookup_insert_eq.
  - by rewrite Hfs, lookup_insert_eq.
  - by rewrite Hfs, lookup_insert_eq.
Qed.

Lemma deleted_banner_leaves_file_example :
  let f := Upload "sale.png" "PNG" in
  let req := Request {["text" := "Sale"]} ∅ (Some f) 1700000000000 in
  (is_absolute "/srv/app" = true ∧ faults started = [] ∧ file req = Some f
   ∧ body req !! "text" = Some "Sale"
   ∧ fs started !! upload_dir "/srv/app" = Some Dir
   ∧ fs started !! upload_key "/srv/app" req f ≠ Some Dir
   ∧ ids_below_next (table_of (db started) "banners")) ∧
  rows (table_of (db (delete_api_banner_id "/srv/app" "/srv/app" 1
                        (post_api_banner "/srv/app" req started).2).2)
          "banners") = [] ∧
  fs (delete_api_banner_id "/srv/app" "/srv/app" 1
        (post_api_banner "/srv/app" req started).2).2
    !! upload_key "/srv/app" req f = Some (File "PNG").
Proof.
  intros f req.
  assert (body req !! "text" = Some "Sale") as Ht by reflexivity.
  assert (fs started !! upload_dir "/srv/app" = Some Dir) as Hdir by reflexivity.
  assert (fs started !! upload_key "/srv/app" req f ≠ Some Dir) as Hk
    by (by vm_compute).
  assert (ids_below_next (table_of (db started) "banners")) as Hids
    by constructor.
  split; [done|].
  destruct (deleted_banner_leaves_file "/srv/app" req f "Sale" started
              eq_refl eq_refl eq_refl Ht ltac:(discriminate) Hdir Hk Hids)
    as (_ & H1 & H2).
  split; [exact H1|exact H2].
Defined.

(** ** Blog banners *)

Lemma string_app_assoc (s1 s2 s3 : string) :
  (s1 +:+ s2) +:+ s3 = s1 +:+ (s2 +:+ s3).
Proof.
  induction s1 as [|a s1 IH]; [done|].
  change (String a ((s1 +:+ s2) +:+ s3) = String a (s1 +:+ (s2 +:+ s3))).
  by rewrite IH.
Qed.

(** The last segment of a path that ends in a plain name is that name. *)
Lemma path_basename_app (prefix name : string) :
  plain_name name → path_basename (prefix +:+ String slash name) = name.
Proof.
  intros (Hslash & Hne & _). unfold path_basename.
  rewrite split_path_app, (split_path_no_slash name), filter_app by done.
  rewrite (filter_cons _ name), decide_True, filter_nil by done.
  by rewrite last_snoc.
Qed.

Lemma path_join_dirname_uploads_name (cwd dirname name : string) :
  is_absolute dirname = true → plain_name name →
  path_resolve cwd (path_join [dirname; "uploads"; name])
    = path_resolve dirname ("uploads/" +:+ name).
Proof.
  intros Habs Hname. pose proof Hname as (_ & Hne & _).
  rewrite <- (path_join_dirname_uploads cwd dirname name) by done.
  unfold path_join.
  rewrite (filter_cons _ dirname), decide_True by (by destruct dirname).
  rewrite (filter_cons _ "uploads"), decide_True by done.
  rewrite (filter_cons _ name), decide_True by done.
  rewrite (filter_cons _ dirname), decide_True by (by destruct dirname).
  rewrite (filter_cons _ ("uploads/" +:+ name)), decide_True by done.
  by rewrite !filter_nil.
Qed.

(** X23: A blog banner uploaded through [POST /api/blog/upload-banner] and
    deleted through [DELETE /api/blog/delete-banner/:id] with the id it
    was given is gone with its file, when the server runs in the
    directory of [server.js] and so has its upload directory: the
    stored URL names a host and a port,
    and the handler finds the file by the last segment of it, whatever
    the port is. *)
Theorem blog_banner_created_then_deleted (dirname : string)
    (env_PORT : option string) (req : request) (f : upload) (w : world) :
  is_absolute dirname = true →
  faults w = [] → file req = Some f →
  fs w !! upload_dir dirname = Some Dir →
  fs w !! upload_key dirname req f ≠ Some Dir →
  ids_below_next (table_of (db w) "blog_banners") →
  let next := auto_increment (table_of (db w) "blog_banners") in
  let w1 := (post_api_blog_upload_banner dirname env_PORT req w).2 in
  let w2 := (delete_api_blog_delete_banner_id dirname dirname next w1).2 in
  fs w1 !! upload_key dirname req f = Some (File (data f)) ∧
  (delete_api_blog_delete_banner_id dirname dirname next w1).1
    = Response 200 (message "Banner deleted successfully") ∧
  rows (table_of (db w2) "blog_banners") = rows (table_of (db w) "blog_banners") ∧
  fs w2 = delete (upload_key dirname req f) (fs w) ∧
  console w2 = console w.
Proof.
  intros Habs Hf Hfile Hdir Hk Hids next w1 w2.
  subst w2 w1. destruct w as [d fsys fl c]; cbn in *; subst fl.
  unfold post_api_blog_upload_banner, upload_single, bind. rewrite Hfile.
  rewrite multer_store_ok by done. cbn.
  unfold db_query; cbn. fold (upload_key dirname req f).
  split; [by rewrite lookup_insert_eq|].
  unfold delete_api_blog_delete_banner_id, bind, db_query; cbn.
  rewrite table_of_insert. cbn.
  rewrite filter_app, filter_has_id_next by done.
  rewrite filter_cons, decide_True by (unfold has_id; by simplify_map_eq).
  cbn. rewrite lookup_insert_ne by done. rewrite lookup_insert_eq.
  assert ("http://localhost:" +:+ PORT env_PORT +:+ "/uploads/" +:+ multer_filename req f
          = (("http://localhost:" +:+ PORT env_PORT) +:+ "/uploads")
              +:+ String slash (multer_filename req f)) as ->
    by (by rewrite !string_app_assoc).
  rewrite path_basename_app by apply multer_filename_plain.
  unfold fs_unlink.
  rewrite path_join_dirname_uploads_name by (done || apply multer_filename_plain).
  rewrite <- upload_key_resolve. cbn.
  rewrite lookup_insert_eq. cbn. rewrite !table_of_insert. cbn.
  split; [done|]. split; [|split; [|done]].
  - rewrite filter_app, filter_not_id by (by apply filter_has_id_next).
    rewrite filter_cons, decide_False, app_nil_r; [done|].
    intros Hnot. apply Hnot. unfold has_id. by simplify_map_eq.
  - by rewrite delete_insert_eq.
Qed.

Lemma blog_banner_created_then_deleted_example :
  let f := Upload "cover.png" "PNG" in
  let req := Request ∅ ∅ (Some f) 1700000000000 in
  (is_absolute "/srv/app" = true ∧ faults started = [] ∧ file req = Some f
   ∧ fs started !! upload_dir "/srv/app" = Some Dir
   ∧ fs started !! upload_key "/srv/app" req f ≠ Some Dir
   ∧ ids_below_next (table_of (db started) "blog_banners")) ∧
  (delete_api_blog_delete_banner_id "/srv/app" "/srv/app" 1
     (post_api_blog_upload_banner "/srv/app" (Some "8080") req started).2).1
    = Response 200 (message "Banner deleted successfully") ∧
  fs (delete_api_blog_delete_banner_id "/srv/app" "/srv/app" 1
        (post_api_blog_upload_banner "/srv/app" (Some "8080") req started).2).2
    = delete (upload_key "/srv/app" req f) (fs started).
Proof.
  intros f req.
  assert (fs started !! upload_dir "/srv/app" = Some Dir) as Hdir by reflexivity.
  assert (fs started !! upload_key "/srv/app" req f ≠ Some Dir) as Hk
    by (by vm_compute).
  assert (ids_below_next (table_of (db started) "blog_banners")) as Hids
    by constructor.
  split; [done|].
  destruct (blog_banner_created_then_deleted "/srv/app" (Some "8080") req f
              started eq_refl eq_refl eq_refl Hdir Hk Hids) as (_ & H1 & _ & H2 & _).
  split; [exact H1|exact H2].
Defined.

(** ** The upload directory *)

Lemma upload_dir_segments (cwd : string) :
  upload_dir cwd
    = String slash
        (String.concat "/"
           (normalize_segments false [] (split_path cwd) ++ ["uploads"])).
Proof.
  unfold upload_dir, path_resolve.
  change (is_absolute "uploads/") with false. cbn iota.
  change (cwd +:+ "/" +:+ "uploads/")
    with (cwd +:+ String slash ("uploads" +:+ String slash "")).
  rewrite !split_path_app.
  change (split_path "uploads" ++ split_path "") with (["uploads"] ++ [""]).
  rewrite app_assoc, (normalize_segments_app _ _ (split_path cwd ++ ["uploads"])).
  rewrite normalize_segments_empty.
  change (normalize_segments false ?stack []) with (reverse stack).
  rewrite reverse_involutive.
  rewrite (normalize_segments_app _ _ (split_path cwd)).
  rewrite (normalize_segments_plain_id _ _ ["uploads"])
    by (constructor; [by repeat split|constructor]).
  by rewrite reverse_involutive.
Qed.

(** [uploadDir] is the upload directory of a server that runs in the
    directory of [server.js]. *)
Lemma uploadDir_resolve (cwd dirname : string) :
  is_absolute dirname = true →
  path_resolve cwd (uploadDir dirname) = upload_dir dirname.
Proof.
  intros Habs. rewrite upload_dir_segments. unfold uploadDir, path_join.
  rewrite (filter_cons _ dirname), decide_True by (by destruct dirname).
  rewrite (filter_cons _ "uploads"), decide_True by done.
  rewrite filter_nil.
  change (String.concat "/" [dirname; "uploads"])
    with (dirname +:+ String slash "uploads").
  rewrite bool_decide_false by (by destruct dirname).
  apply path_resolve_under; [done|done|done|done| |].
  - constructor; [by repeat split|constructor].
  - intros stack. change (split_path "uploads") with ["uploads"].
    apply normalize_segments_plain_id.
    constructor; [by repeat split|constructor].
Qed.

(** X24: The server creates the upload directory under [__dirname] when
    it starts, and the upload middleware writes under the working
    directory.  Started in the directory of [server.js], with no file
    in the place of the directory, the server has its upload directory.
    Started from a directory that has no [uploads] of its own, it
    answers 500 to an upload, stores nothing and inserts no row. *)
Theorem upload_directory_of_started_server (cwd dirname : string)
    (req : request) (f : upload) (w : world) :
  is_absolute dirname = true → file req = Some f →
  fs w !! upload_dir cwd = None →
  let w0 := (ensure_upload_dir cwd dirname w).2 in
  (upload_dir cwd = upload_dir dirname →
   fs w0 !! upload_dir cwd = Some Dir ∧
   ∀ p, p ≠ upload_dir cwd → fs w0 !! p = fs w !! p) ∧
  (upload_dir cwd ≠ upload_dir dirname →
   fs w0 !! upload_dir cwd = None ∧
   post_api_v1_banner_upload cwd req w0 = (Response 500 (JStr "ENOENT"), w0) ∧
   post_api_banner cwd req w0 = (Response 500 (JStr "ENOENT"), w0)).
Proof.
  intros Habs Hfile Hnone w0.
  assert (fs w0 = match fs w !! upload_dir dirname with
                  | None => <[upload_dir dirname := Dir]> (fs w)
                  | Some _ => fs w
                  end ∧ db w0 = db w) as [Hfs Hdb].
  { subst w0. unfold ensure_upload_dir. rewrite uploadDir_resolve by done.
    by destruct (fs w !! upload_dir dirname). }
  split.
  - intros Hsame. rewrite Hfs, <- Hsame, Hnone. split.
    + by rewrite lookup_insert_eq.
    + intros p Hp. by rewrite lookup_insert_ne.
  - intros Hother.
    assert (fs w0 !! upload_dir cwd = None) as Hnone0.
    { rewrite Hfs. destruct (fs w !! upload_dir dirname); [done|].
      by rewrite lookup_insert_ne. }
    split; [done|].
    unfold post_api_v1_banner_upload, post_api_banner, upload_single, bind.
    rewrite Hfile.
    rewrite !multer_store_missing by (by rewrite Hnone0).
    by rewrite Hnone0.
Qed.

Lemma upload_directory_of_started_server_example :
  let f := Upload "sale.png" "PNG" in
  let req := Request {["text" := "Sale"]} ∅ (Some f) 1700000000000 in
  (is_absolute "/srv/app" = true ∧ file req = Some f
   ∧ fs no_faults !! upload_dir "/srv/app" = None
   ∧ fs no_faults !! upload_dir "/home/asha" = None) ∧
  (ensure_upload_dir "/srv/app" "/srv/app" no_faults).2 = started ∧
  post_api_banner "/home/asha" req
    (ensure_upload_dir "/home/asha" "/srv/app" no_faults).2
    = (Response 500 (JStr "ENOENT"),
       (ensure_upload_dir "/home/asha" "/srv/app" no_faults).2).
Proof.
  intros f req. split; [done|]. split; [reflexivity|].
  destruct (upload_directory_of_started_server "/home/asha" "/srv/app" req f
              no_faults eq_refl eq_refl eq_refl) as [_ H].
  destruct H as (_ & _ & H); [by vm_compute|]. exact H.
Defined.
